(** * ecommerce-ai-agent: the question-to-insight pipeline of [agent.py]

    A shallow embedding of [EcommerceAgent] (src/ecommerce-agent/agent.py)
    and the properties its specification states about it.

    Conventions of the embedding.
    - A Python [str] is a [list ascii]: a sequence of characters whose code
      points lie below 256.  On that range [str.lower], [str.strip] and the
      [re.IGNORECASE] flag act character by character, following CPython's
      tables (see [lower_char] and [isspace]).
    - A raised exception is the [raise] summand of [result]; [str(e)] is
      [exn_str].
    - The language model, the database, pandas and matplotlib are injected
      capabilities (a record [Env]); every theorem about the orchestrator
      holds for all of them.  Opening and closing a figure, [print] and
      [DataFrame.to_dict] are taken to succeed. *)

From Stdlib Require Import List Ascii String NArith ZArith QArith Lia Bool Arith.
From stdpp Require Import base gmap strings.
Import ListNotations.

Open Scope list_scope.
Open Scope bool_scope.

(** ** Python strings *)

Module PyStr.

Abbreviation str := (list ascii).

(** String literals of the source. *)
Definition lit (s : string) : str := list_ascii_of_string s.

Definition code (c : ascii) : N := N_of_ascii c.

(** [str.isspace] on one character, as [str.strip] uses it: TAB, LF, VT, FF,
    CR, the separators FS GS RS US, SPACE, and in the Latin-1 block NEL
    (0x85) and NBSP (0xA0). *)
Definition isspace (c : ascii) : bool :=
  let n := code c in
  ((9 <=? n) && (n <=? 13))%N || ((28 <=? n) && (n <=? 32))%N
  || (n =? 133)%N || (n =? 160)%N.

(** [str.lower] on one character: A-Z, and in the Latin-1 block
    0xC0-0xDE except the multiplication sign 0xD7, move up by 32. *)
Definition lower_char (c : ascii) : ascii :=
  let n := code c in
  if ((65 <=? n) && (n <=? 90))%N
     || (((192 <=? n) && (n <=? 222)) && negb (n =? 215))%N
  then ascii_of_N (n + 32)
  else c.

Definition lower (s : str) : str := map lower_char s.

Definition ascii_eqb (a b : ascii) : bool := Ascii.eqb a b.

Fixpoint drop_while (p : ascii -> bool) (s : str) : str :=
  match s with
  | [] => []
  | c :: s' => if p c then drop_while p s' else s
  end.

(** The same from the right end. *)
Definition rdrop_while (p : ascii -> bool) (s : str) : str :=
  rev (drop_while p (rev s)).

(** [s.lstrip()], [s.rstrip()], [s.strip()] *)
Definition lstrip (s : str) : str := drop_while isspace s.
Definition rstrip (s : str) : str := rdrop_while isspace s.
Definition strip (s : str) : str := rstrip (lstrip s).

(** [s.rstrip(chars)] for a one-character [chars]. *)
Definition rstrip_char (x : ascii) (s : str) : str :=
  rdrop_while (ascii_eqb x) s.

(** [s.startswith(p)] *)
Fixpoint startswith (p s : str) : bool :=
  match p, s with
  | [], _ => true
  | _ :: _, [] => false
  | a :: p', b :: s' => ascii_eqb a b && startswith p' s'
  end.

(** [p in s] *)
Fixpoint contains (p s : str) : bool :=
  startswith p s ||
  match s with
  | [] => false
  | _ :: s' => contains p s'
  end.

(** One pattern character under [re.IGNORECASE]. *)
Definition imatch (p c : ascii) : bool := ascii_eqb (lower_char p) (lower_char c).

Definition backtick : ascii := "`"%char.

Definition nl : str := [ascii_of_nat 10].

(** ['\n'.join(lines)] *)
Fixpoint unlines (lines : list str) : str :=
  match lines with
  | [] => []
  | [l] => l
  | l :: rest => l ++ nl ++ unlines rest
  end.

(** [re.sub(r'```sql|```', '', s, flags=re.IGNORECASE)]: the scan goes left
    to right; at each position the first alternative is tried before the
    second, a match is dropped and the scan resumes after it, and a
    character at which nothing matches is copied. *)
Fixpoint re_sub_fence (s : str) : str :=
  match s with
  | [] => []
  | c :: s1 =>
    match s1 with
    | c2 :: c3 :: s3 =>
      if ascii_eqb c backtick && ascii_eqb c2 backtick && ascii_eqb c3 backtick
      then
        match s3 with
        | x :: y :: z :: s6 =>
          if imatch "s" x && imatch "q" y && imatch "l" z
          then re_sub_fence s6
          else re_sub_fence s3
        | _ => re_sub_fence s3
        end
      else c :: re_sub_fence s1
    | _ => c :: re_sub_fence s1
    end
  end.

End PyStr.

Import PyStr.

(** ** Exceptions and results *)

(** The exceptions the pipeline can see: the [ValueError]s the agent raises
    itself, and any other [Exception] a capability raises. *)
Inductive exn : Type :=
| ValueError (msg : str)
| OtherError (msg : str).

(** [str(e)] *)
Definition exn_str (e : exn) : str :=
  match e with
  | ValueError m => m
  | OtherError m => m
  end.

Inductive result (A : Type) : Type :=
| ok (a : A)
| raise (e : exn).
Arguments ok {A} a.
Arguments raise {A} e.

(** ** SqlValidator: [_sanitize_sql] *)

Definition not_select_msg : str := lit "Generated query is not a SELECT statement: ".
Definition forbidden_msg : str := lit "Query contains forbidden operations: ".

Definition forbidden : list str :=
  [lit "insert "; lit "update "; lit "delete "; lit "drop "; lit "alter ";
   lit "truncate "; lit "create "].

(** The text after the two clean-up statements of [_sanitize_sql]. *)
Definition normalize (sql : str) : str :=
  let sql := strip (re_sub_fence sql) in
  rstrip_char ";" sql.

Definition _sanitize_sql (sql : str) : result str :=
  let sql := strip (re_sub_fence sql) in
  let sql := rstrip_char ";" sql in
  if negb (startswith (lit "select") (lstrip (lower sql)))
  then raise (ValueError (not_select_msg ++ sql))
  else if existsb (fun cmd => contains cmd (lower sql)) forbidden
  then raise (ValueError (forbidden_msg ++ sql))
  else ok sql.

(** The validator as the specification words it (section 4.1, step 2):
    exactly one trailing statement terminator is removed. *)
Definition strip_one_terminator (s : str) : str :=
  match rev s with
  | c :: r => if ascii_eqb c ";" then rev r else s
  | [] => s
  end.

Definition normalize_spec (sql : str) : str :=
  strip_one_terminator (strip (re_sub_fence sql)).

(** [p] occurs in [s]: the relation [contains] decides. *)
Definition substring (p s : str) : Prop := exists a b, s = a ++ p ++ b.

(** The failure kind of the validator: one of its two [ValueError]s. *)
Definition InvalidQueryKind (e : exn) : Prop :=
  exists sql, e = ValueError (not_select_msg ++ sql)
           \/ e = ValueError (forbidden_msg ++ sql).

(** The seven mutating keywords, without the trailing space of [forbidden]. *)
Definition keywords : list str :=
  [lit "insert"; lit "update"; lit "delete"; lit "drop"; lit "alter";
   lit "truncate"; lit "create"].

Definition fence : str := lit "```".

(** ** Result sets *)

(** A float64 cell: a number, an infinity or NaN (rounding is not
    modelled). *)
Inductive real : Type :=
| Finite (q : Q)
| PosInf
| NegInf
| NaN.

Inductive scalar : Type :=
| VText (s : str)
| VInt (z : Z)
| VReal (r : real)
| VBool (b : bool)
| VDatetime (ns : Z)
| VNull.

(** A [pandas.DataFrame], column by column: [index] is the number of rows. *)
Record DataFrame : Type := mkDataFrame {
  index : nat;
  columns : list (str * list scalar)
}.

(** [a == b] on strings *)
Fixpoint str_eqb (a b : str) : bool :=
  match a, b with
  | [], [] => true
  | x :: a', y :: b' => ascii_eqb x y && str_eqb a' b'
  | _, _ => false
  end.

(** [data.empty]: some axis has length 0. *)
Definition empty (df : DataFrame) : bool :=
  (index df =? 0)%nat || match columns df with [] => true | _ => false end.

(** [col in data.columns] *)
Definition has_column (col : str) (df : DataFrame) : bool :=
  existsb (fun c => str_eqb (fst c) col) (columns df).

(** [data[col]] *)
Fixpoint get_column (col : str) (cols : list (str * list scalar)) : option (list scalar) :=
  match cols with
  | [] => None
  | (n, v) :: rest => if str_eqb n col then Some v else get_column col rest
  end.

(** [data[col] = values]: an existing column is replaced in place, a new one
    is appended. *)
Fixpoint set_column (col : str) (values : list scalar)
    (cols : list (str * list scalar)) : list (str * list scalar) :=
  match cols with
  | [] => [(col, values)]
  | (n, v) :: rest =>
    if str_eqb n col then (n, values) :: rest
    else (n, v) :: set_column col values rest
  end.

Definition setitem (col : str) (values : list scalar) (df : DataFrame) : DataFrame :=
  {| index := index df; columns := set_column col values (columns df) |}.

(** [data.to_dict(orient='records')]: one key-value record per row. *)
Definition record : Type := list (str * scalar).

Definition row (i : nat) (df : DataFrame) : record :=
  map (fun c => (fst c, nth i (snd c) VNull)) (columns df).

Definition to_dict (df : DataFrame) : list record :=
  map (fun i => row i df) (seq 0 (index df)).

(** ** Charts *)

Inductive chart_kind : Type := Line | Bar.

Record chart : Type := mkChart {
  kind : chart_kind;
  x_col : str;
  y_col : str;
  title : str;
  source : DataFrame
}.

(** A pyplot figure: empty, with its [figsize] when one was given, or
    holding the chart pandas drew. *)
Inductive figure : Type :=
| BlankFigure (figsize : option (Z * Z))
| ChartFigure (c : chart).

(** ** The world the agent runs in *)

(** What leaves the process: each call of a capability and each line
    printed, in order. *)
Inductive event : Type :=
| EvComplete (prompt : str)
| EvExecute (sql : str)
| EvPrint (line : str)
| EvFigure
| EvPlot (c : chart)
| EvSavefig
| EvClose.

Abbreviation ref := nat.

(** Python objects live in [heap] and are passed by reference; [figures] is
    pyplot's stack of open figures, the current one first; [sql_var] is the
    binding of the name [sql] in the frame of the running [query], absent
    until the assignment of line 140 has happened. *)
Record state : Type := mkState {
  heap : gmap nat DataFrame;
  next : ref;
  figures : list figure;
  trace : list event;
  sql_var : option str
}.

Definition M (A : Type) : Type := state -> result A * state.

Definition ret {A} (a : A) : M A := fun st => (ok a, st).

Definition throw {A} (e : exn) : M A := fun st => (raise e, st).

Definition bind {A B} (m : M A) (k : A -> M B) : M B :=
  fun st =>
    match m st with
    | (ok a, st') => k a st'
    | (raise e, st') => (raise e, st')
    end.

(** [try: m except Exception as e: h e] *)
Definition try_except {A} (m : M A) (h : exn -> M A) : M A :=
  fun st =>
    match m st with
    | (ok a, st') => (ok a, st')
    | (raise e, st') => h e st'
    end.

(** [try: m finally: f] *)
Definition try_finally {A} (m : M A) (f : M unit) : M A :=
  fun st =>
    match m st with
    | (r, st') =>
      match f st' with
      | (ok _, st'') => (r, st'')
      | (raise e, st'') => (raise e, st'')
      end
    end.

#[global] Instance M_ret : MRet M := @ret.
#[global] Instance M_bind : MBind M := fun A B k m => bind m k.

(** State updates, one field at a time. *)
Definition logged (ev : event) (st : state) : state :=
  {| heap := heap st; next := next st; figures := figures st;
     trace := trace st ++ [ev]; sql_var := sql_var st |}.

Definition with_object (r : ref) (df : DataFrame) (st : state) : state :=
  {| heap := <[r := df]> (heap st); next := next st; figures := figures st;
     trace := trace st; sql_var := sql_var st |}.

Definition with_next (n : ref) (st : state) : state :=
  {| heap := heap st; next := n; figures := figures st;
     trace := trace st; sql_var := sql_var st |}.

Definition with_figures (fs : list figure) (st : state) : state :=
  {| heap := heap st; next := next st; figures := fs;
     trace := trace st; sql_var := sql_var st |}.

Definition with_sql (v : option str) (st : state) : state :=
  {| heap := heap st; next := next st; figures := figures st;
     trace := trace st; sql_var := v |}.

(** The outcome of a capability enters the computation. *)
Definition call {A} (r : result A) : M A := fun st => (r, st).

Definition log (ev : event) : M unit := fun st => (ok tt, logged ev st).

Definition print (line : str) : M unit := log (EvPrint line).

(** A new object. *)
Definition alloc (df : DataFrame) : M ref :=
  fun st => (ok (next st), with_next (S (next st)) (with_object (next st) df st)).

Definition deref (r : ref) : M DataFrame :=
  fun st =>
    match heap st !! r with
    | Some df => (ok df, st)
    | None => (raise (OtherError (lit "dangling reference")), st)
    end.

(** An update of the object itself: every holder of [r] sees it. *)
Definition mutate (r : ref) (f : DataFrame -> DataFrame) : M unit :=
  fun st =>
    match heap st !! r with
    | Some df => (ok tt, with_object r (f df) st)
    | None => (raise (OtherError (lit "dangling reference")), st)
    end.

Definition set_figures (fs : list figure) : M unit :=
  fun st => (ok tt, with_figures fs st).

Definition get_figures : M (list figure) := fun st => (ok (figures st), st).

Definition assign_sql (v : option str) : M unit :=
  fun st => (ok tt, with_sql v st).

(** [sql if 'sql' in locals() else None] *)
Definition sql_if_bound : M (option str) := fun st => (ok (sql_var st), st).

(** ** Capabilities *)

(** The collaborators of the agent, each as the function it is called as.
    [llm_run] is [LLMChain.run] on the formatted prompt, [read_sql] is
    [pd.read_sql] inside the scoped connection, the others are the pandas
    and matplotlib operations of [generate_answer] and
    [generate_visualization]; [savefig_b64] yields the PNG bytes already
    base64-encoded. *)
Record Env : Type := mkEnv {
  llm_run : str -> result str;
  read_sql : str -> result DataFrame;
  to_json : DataFrame -> result str;
  to_datetime : list scalar -> result (list scalar);
  sort_values : str -> DataFrame -> result DataFrame;
  truediv : list scalar -> list scalar -> result (list scalar);
  plot : chart -> result figure;
  savefig_b64 : figure -> result str
}.

(** ** The agent *)

(** [self.sql_prompt.format(question=question)] *)
Definition sql_prompt (question : str) : str :=
  unlines
    [lit "";
     lit "            You are a SQL expert working with e-commerce data. Generate ONLY a SELECT query.";
     lit "            Database schema:";
     lit "            - sales_metrics(date TEXT, item_id INTEGER, total_sales REAL, total_units_ordered INTEGER)";
     lit "            - ad_metrics(date TEXT, item_id INTEGER, ad_sales REAL, impressions INTEGER, ";
     lit "                         ad_spend REAL, clicks INTEGER, units_sold INTEGER)";
     lit "            - product_eligibility(eligibility_datetime_utc TEXT, item_id INTEGER, ";
     lit "                                eligibility BOOLEAN, message TEXT)";
     lit "";
     lit "            Rules:";
     lit "            1. Always use explicit column names (no *" ++ lit ")";
     lit "            2. Only query relevant tables";
     lit "            3. Include WHERE clauses when appropriate";
     lit "            4. Never modify data (only SELECT)";
     lit "";
     lit "            Convert this to SQL: "]
  ++ question
  ++ unlines
    [lit "";
     lit "            Return ONLY the SQL query, nothing else.";
     lit "            "].

(** [self.answer_prompt.format(question=question, data=data, sql=sql)] *)
Definition answer_prompt (question data sql : str) : str :=
  unlines
    [lit "";
     lit "            As a data analyst, answer this question based on the query results:";
     lit "";
     lit "            Question: "]
  ++ question
  ++ unlines
    [lit "";
     lit "            SQL Used: "]
  ++ sql
  ++ unlines
    [lit "";
     lit "            Data: "]
  ++ data
  ++ unlines
    [lit "";
     lit "";
     lit "            Provide:";
     lit "            1. A clear answer with key numbers";
     lit "            2. Business interpretation";
     lit "            3. Any data limitations";
     lit "            4. Suggested follow-up questions";
     lit "";
     lit "            If no results, explain why and suggest alternatives.";
     lit "            "].

Definition table_suggestion : str :=
  lit "Try rephrasing to use sales_metrics, ad_metrics, or product_eligibility tables".
Definition column_suggestion : str :=
  lit "Available columns: date, item_id, total_sales, ad_sales, ad_spend, etc.".
Definition select_suggestion : str :=
  lit "Ask about data queries like 'Show me sales for product X' or 'Compare ad performance'".
Definition generic_suggestion : str :=
  lit "Try being more specific about what data you need".

Definition _get_suggestion (question error : str) : str :=
  if contains (lit "no such table") (lower error) then table_suggestion
  else if contains (lit "no such column") (lower error) then column_suggestion
  else if contains (lit "select") (lower error) then select_suggestion
  else generic_suggestion.

(** [AgentResponse]: the two dictionaries [query] returns. *)
Inductive response : Type :=
| Success (answer : str) (data : list record) (visualization : option str) (sql : str)
| Failure (error suggestion : str) (sql : option str).

Section Agent.

Variable env : Env.

Definition generate_sql (question : str) : M str :=
  let prompt := sql_prompt question in
  log (EvComplete prompt);;
  raw ← call (llm_run env prompt);
  call (_sanitize_sql (strip raw)).

Definition execute_query (sql : str) : M ref :=
  try_except
    (log (EvExecute sql);;
     df ← call (read_sql env sql);
     alloc df)
    (fun e =>
       throw (ValueError (lit "SQL execution failed: " ++ exn_str e
                          ++ nl ++ lit "Query: " ++ sql))).

Definition generate_answer (question : str) (data : ref) (sql : str) : M str :=
  df ← deref data;
  js ← call (to_json env df);
  let prompt := answer_prompt question js sql in
  log (EvComplete prompt);;
  call (llm_run env prompt).

(** [data.plot(...)]: pandas draws on a figure of its own, which becomes the
    current one. *)
Definition data_plot (c : chart) : M unit :=
  log (EvPlot c);;
  f ← call (plot env c);
  fs ← get_figures;
  set_figures (f :: fs).

(** [plt.figure(figsize=(10, 5))] *)
Definition plt_figure (w h : Z) : M unit :=
  log EvFigure;;
  fs ← get_figures;
  set_figures (BlankFigure (Some (w, h)) :: fs).

(** [plt.savefig(buf, ...)] followed by the base64 encoding of [buf]; with
    no figure open pyplot opens an empty one first. *)
Definition plt_savefig : M str :=
  log EvSavefig;;
  fs ← get_figures;
  match fs with
  | f :: _ => call (savefig_b64 env f)
  | [] => set_figures [BlankFigure None];; call (savefig_b64 env (BlankFigure None))
  end.

(** [plt.close()] closes the current figure. *)
Definition plt_close : M unit :=
  log EvClose;;
  fs ← get_figures;
  set_figures (tl fs).

Definition getitem (data : ref) (col : str) : M (list scalar) :=
  df ← deref data;
  match get_column col (columns df) with
  | Some v => ret v
  | None => throw (OtherError (lit "KeyError: " ++ col))
  end.

Definition roas_columns : list str := [lit "item_id"; lit "ad_sales"; lit "ad_spend"].

Definition generate_visualization (question : str) (data : ref) : M (option str) :=
  df ← deref data;
  if empty df then ret None
  else
    plt_figure 10 5;;
    try_finally
      (try_except
         (df ← deref data;
          (if has_column (lit "date") df then
             col ← getitem data (lit "date");
             conv ← call (to_datetime env col);
             mutate data (setitem (lit "date") conv);;
             df ← deref data;
             sorted ← call (sort_values env (lit "date") df);
             data ← alloc sorted;
             df ← deref data;
             if has_column (lit "total_sales") df then
               data_plot (mkChart Line (lit "date") (lit "total_sales") (lit "Sales Trend") df)
             else if has_column (lit "ad_sales") df then
               data_plot (mkChart Line (lit "date") (lit "ad_sales") (lit "Ad Performance") df)
             else ret tt
           else if forallb (fun col => has_column col df) roas_columns then
             a ← getitem data (lit "ad_sales");
             b ← getitem data (lit "ad_spend");
             roas ← call (truediv env a b);
             mutate data (setitem (lit "ROAS") roas);;
             df ← deref data;
             data_plot (mkChart Bar (lit "item_id") (lit "ROAS") (lit "Return on Ad Spend") df)
           else ret tt);;
          png ← plt_savefig;
          ret (Some png))
         (fun e =>
            print (lit "Visualization error: " ++ exn_str e);;
            ret None))
      plt_close.

Definition query (question : str) : M response :=
  assign_sql None;;
  try_except
    (sql ← generate_sql question;
     assign_sql (Some sql);;
     print (lit "Generated SQL: " ++ sql);;
     data ← execute_query sql;
     answer ← generate_answer question data sql;
     visualization ← generate_visualization question data;
     df ← deref data;
     ret (Success answer (to_dict df) visualization sql))
    (fun e =>
       sql ← sql_if_bound;
       ret (Failure (exn_str e) (_get_suggestion question (exn_str e)) sql)).

End Agent.

(** ** Deterministic fakes *)

(** Stand-ins for the capabilities, for running the pipeline on concrete
    inputs: a model that answers the SQL prompt with [sql_text], a store
    that answers every query with [table], and pandas and matplotlib
    operations that succeed on numeric cells. *)
Module Fake.

Definition as_real (v : scalar) : option real :=
  match v with
  | VInt z => Some (Finite (inject_Z z))
  | VReal r => Some r
  | VBool b => Some (Finite (if b then 1 else 0))
  | _ => None
  end.

Definition div_real (a b : real) : real :=
  match a, b with
  | Finite p, Finite q =>
    if Qeq_bool q 0
    then (if Qeq_bool p 0 then NaN
          else if Qle_bool 0 p then PosInf else NegInf)
    else Finite (Qred (p / q))
  | Finite _, (PosInf | NegInf) => Finite 0
  | _, _ => NaN
  end.

Fixpoint div_series (a b : list scalar) : result (list scalar) :=
  match a, b with
  | x :: a', y :: b' =>
    match as_real x, as_real y, div_series a' b' with
    | Some p, Some q, ok r => ok (VReal (div_real p q) :: r)
    | Some _, Some _, raise e => raise e
    | _, _, _ => raise (OtherError (lit "TypeError: unsupported operand type(s) for /"))
    end
  | _, _ => ok []
  end.

Fixpoint datetime_series (col : list scalar) : result (list scalar) :=
  match col with
  | [] => ok []
  | v :: col' =>
    match v, datetime_series col' with
    | VInt z, ok r => ok (VDatetime z :: r)
    | VDatetime z, ok r => ok (VDatetime z :: r)
    | VNull, ok r => ok (VNull :: r)
    | _, raise e => raise e
    | _, _ => raise (OtherError (lit "ValueError: unknown datetime string format"))
    end
  end.

Definition png : str := lit "iVBORw0KGgo=".

Definition env (sql_text : str) (table : DataFrame) : Env :=
  {| llm_run := fun prompt =>
       if contains (lit "Convert this to SQL: ") prompt then ok sql_text
       else ok (lit "Here is what the data shows.");
     read_sql := fun _ => ok table;
     to_json := fun _ => ok (lit "[]");
     to_datetime := datetime_series;
     sort_values := fun _ df => ok df;
     truediv := div_series;
     plot := fun c => ok (ChartFigure c);
     savefig_b64 := fun _ => ok png |}.

Definition init : state :=
  {| heap := ∅; next := 0; figures := []; trace := []; sql_var := None |}.

Definition ad_table : DataFrame :=
  {| index := 1;
     columns := [(lit "item_id", [VInt 1]);
                 (lit "ad_sales", [VReal (Finite 10)]);
                 (lit "ad_spend", [VReal (Finite 5)])] |}.

Definition plain_table : DataFrame :=
  {| index := 1; columns := [(lit "message", [VText (lit "ok")])] |}.

Definition roas_sql : str := lit "SELECT item_id, ad_sales, ad_spend FROM ad_metrics".

(** A state in which the object 0 is the frame [df]. *)
Definition holding (df : DataFrame) : state :=
  with_next 1 (with_object 0 df init).

End Fake.


(** ** Auxiliary notions of the statements *)

(** What the scan of [re_sub_fence] resumes on after a fence at the head. *)
Definition after_fence (s3 : str) : str :=
  match s3 with
  | x :: y :: z :: s6 =>
    if imatch "s" x && imatch "q" y && imatch "l" z then s6 else s3
  | _ => s3
  end.

(** [s] ends in the character [c]. *)
Definition ends_with (c : ascii) (s : str) : Prop := exists r, s = r ++ [c].

(** Neither the first nor the last character of [s] is whitespace. *)
Definition trimmed (s : str) : Prop :=
  (forall c r, s = c :: r -> isspace c = false) /\
  (forall r c, s = r ++ [c] -> isspace c = false).

(** [s] begins with SELECT, in any case, after leading whitespace. *)
Definition begins_with_select (s : str) : Prop :=
  exists ws kw rest,
    s = ws ++ kw ++ rest /\ forallb isspace ws = true /\ lower kw = lit "select".

(** The two checks of [_sanitize_sql], on the text already cleaned up. *)
Definition check_sql (sql : str) : result str :=
  if negb (startswith (lit "select") (lstrip (lower sql)))
  then raise (ValueError (not_select_msg ++ sql))
  else if existsb (fun cmd => contains cmd (lower sql)) forbidden
  then raise (ValueError (forbidden_msg ++ sql))
  else ok sql.

(** A word the clean-up cannot break: it holds no backtick, and its first
    character is neither whitespace nor one the pattern [sql] could take. *)
Definition safe_word (w : str) : bool :=
  match w with
  | h :: _ =>
    negb (imatch "s" h) && negb (imatch "q" h) && negb (imatch "l" h)
    && negb (isspace h)
  | [] => false
  end
  && forallb (fun k => negb (ascii_eqb k backtick)) w.

(** The outcome of SQL generation: the completion, trimmed and validated. *)
Definition generated (env : Env) (question : str) : result str :=
  match llm_run env (sql_prompt question) with
  | ok raw => _sanitize_sql (strip raw)
  | raise e => raise e
  end.

(** The message of the [ValueError] of [execute_query]. *)
Definition execution_msg (e : exn) (sql : str) : str :=
  lit "SQL execution failed: " ++ exn_str e ++ nl ++ lit "Query: " ++ sql.

(** Events of the visualization stage. *)
Definition is_render (ev : event) : bool :=
  match ev with
  | EvFigure | EvPlot _ | EvSavefig | EvClose => true
  | _ => false
  end.

Definition is_execute (ev : event) : bool :=
  match ev with
  | EvExecute _ => true
  | _ => false
  end.

(** The object [r] exists and was allocated before the next fresh one. *)
Definition live (r : ref) (st : state) : Prop :=
  is_Some (heap st !! r) /\ r < next st.

(** A computation that keeps [r] alive, however it ends. *)
Definition keeps {A} (r : ref) (m : M A) : Prop :=
  forall st, live r st -> live r (snd (m st)).

(** A computation that cannot raise. *)
Definition total {A} (m : M A) : Prop :=
  forall st, exists a st', m st = (ok a, st').

(** The character TAB, and a query in which it follows a keyword. *)
Definition tab : ascii := ascii_of_nat 9.

Definition drop_after_tab : str :=
  lit "select 1; drop" ++ [tab] ++ lit "table t".

(** The state in which [query] reaches the execution stage: the name [sql]
    is bound and two lines are on the trace. *)
Definition at_execution (question sql : str) (st : state) : state :=
  logged (EvPrint (lit "Generated SQL: " ++ sql))
    (with_sql (Some sql)
       (logged (EvComplete (sql_prompt question)) (with_sql None st))).

(** The state in which [query] holds the result set [df] of the store, as a
    new object. *)
Definition at_synthesis (question sql : str) (df : DataFrame) (st : state) : state :=
  with_next (S (next st))
    (with_object (next st) df
       (logged (EvExecute sql) (at_execution question sql st))).

(** The response to a failure with the message [err]. *)
Definition failure_response (question err : str) (sql : option str) : response :=
  Failure err (_get_suggestion question err) sql.

(** Calls of the completion capability. *)
Definition is_complete (ev : event) : bool :=
  match ev with
  | EvComplete _ => true
  | _ => false
  end.

Definition is_plot (ev : event) : bool :=
  match ev with
  | EvPlot _ => true
  | _ => false
  end.

(** What the visualizer may leave on the trace: drawing and printing. *)
Definition is_render_or_print (ev : event) : bool :=
  match ev with
  | EvPrint _ => true
  | _ => is_render ev
  end.

(** A computation that only appends events satisfying [P] to the trace,
    however it ends. *)
Definition emits {A} (P : event -> bool) (m : M A) : Prop :=
  forall st, exists evs,
    trace (snd (m st)) = trace st ++ evs /\ forallb P evs = true.

(** What a computation that was handed the object [data] may do to the
    objects: [st'] has every object that existed in [st], other than
    [data], as it was, has taken no reference back, and binds the name
    [sql] as [st] does. *)
Definition frame_of (data : ref) (st st' : state) : Prop :=
  sql_var st' = sql_var st
  /\ next st <= next st'
  /\ forall r, r <> data -> r < next st -> heap st' !! r = heap st !! r.

(** A computation that rewrites no existing object but [data], however it
    ends. *)
Definition rewrites_only {A} (data : ref) (m : M A) : Prop :=
  forall st, frame_of data st (snd (m st)).

(** A process whose language model cannot be reached. *)
Definition offline_env : Env :=
  {| llm_run := fun _ => raise (OtherError (lit "connection refused"));
     read_sql := fun _ => ok Fake.plain_table;
     to_json := fun _ => ok (lit "[]");
     to_datetime := Fake.datetime_series;
     sort_values := fun _ df => ok df;
     truediv := Fake.div_series;
     plot := fun c => ok (ChartFigure c);
     savefig_b64 := fun _ => ok Fake.png |}.

(** A sales frame whose date cells are not dates. *)
Definition dated_table : DataFrame :=
  {| index := 2;
     columns := [(lit "date", [VText (lit "tomorrow"); VText (lit "next week")]);
                 (lit "total_sales", [VReal (Finite 7); VReal (Finite 3)])] |}.

(** A sales frame whose dates are epoch numbers, with advertising columns. *)
Definition trend_table : DataFrame :=
  {| index := 2;
     columns := [(lit "date", [VInt 2; VInt 1]);
                 (lit "item_id", [VInt 1; VInt 1]);
                 (lit "total_sales", [VReal (Finite 7); VReal (Finite 3)]);
                 (lit "ad_sales", [VReal (Finite 2); VReal (Finite 1)]);
                 (lit "ad_spend", [VReal (Finite 1); VReal (Finite 1)])] |}.

(** ** The HTTP endpoint of [main.py] *)

Module MainApp.

(** The values of the dictionaries [query] returns. *)
Inductive value : Type :=
| PyStr_ (s : str)
| PyBool (b : bool)
| PyNone
| PyRows (rows : list record).

Abbreviation dict := (list (str * value)).

(** [key in d] and [d.get(key)] *)
Fixpoint dict_get (key : str) (d : dict) : option value :=
  match d with
  | [] => None
  | (k, v) :: rest => if str_eqb k key then Some v else dict_get key rest
  end.

Definition optional_str (o : option str) : value :=
  match o with
  | Some s => PyStr_ s
  | None => PyNone
  end.

(** The two dictionary displays of [query], key by key. *)
Definition response_dict (r : response) : dict :=
  match r with
  | Success answer data visualization sql =>
    [(lit "success", PyBool true); (lit "answer", PyStr_ answer);
     (lit "data", PyRows data); (lit "visualization", optional_str visualization);
     (lit "sql", PyStr_ sql)]
  | Failure error suggestion sql =>
    [(lit "success", PyBool false); (lit "error", PyStr_ error);
     (lit "suggestion", PyStr_ suggestion); (lit "sql", optional_str sql)]
  end.

(** What the endpoint does with a request: it returns a body, raises
    [HTTPException], or lets another exception through. *)
Inductive outcome : Type :=
| Returned (body : dict)
| HTTPException (status_code : Z) (detail : dict)
| Unhandled (e : exn).

(** [ask_question(question)], with [question.text] the text of the
    request body. *)
Definition ask_question (env : Env) (text : str) (st : state) : outcome * state :=
  match query env text st with
  | (ok r, st') =>
    let response := response_dict r in
    match dict_get (lit "error") response with
    | Some error =>
      (HTTPException 400
         [(lit "error", error);
          (lit "suggestion",
           match dict_get (lit "suggestion") response with
           | Some s => s
           | None => PyStr_ []
           end)],
       st')
    | None => (Returned response, st')
    end
  | (raise e, st') => (Unhandled e, st')
  end.

End MainApp.

(** ** Table names of [csv_to_database.py] *)

(** [os.path] is the POSIX one: the separator is the slash. *)
Module CsvToDatabase.

(** [s.rfind(c)] for a one-character [c]: the last index, or -1. *)
Fixpoint rfind_from (c : ascii) (s : str) (i : Z) : Z :=
  match s with
  | [] => (-1)%Z
  | x :: r =>
    let j := rfind_from c r (i + 1)%Z in
    if (0 <=? j)%Z then j else if ascii_eqb x c then i else (-1)%Z
  end.

Definition rfind (c : ascii) (s : str) : Z := rfind_from c s 0%Z.

(** [s[i:i+1]] *)
Definition char_at (s : str) (i : nat) : str := firstn 1 (skipn i s).

(** The loop of [os.path.splitext] that skips leading dots of the file
    name: it answers whether a character other than a dot stands between
    [filenameIndex] and [dotIndex]; [steps] bounds the iterations by the
    distance between the two. *)
Fixpoint has_name_before_dot (p : str) (filenameIndex dotIndex steps : nat) : bool :=
  match steps with
  | O => false
  | S steps' =>
    if (filenameIndex <? dotIndex)%nat then
      if negb (str_eqb (char_at p filenameIndex) ["."%char]) then true
      else has_name_before_dot p (S filenameIndex) dotIndex steps'
    else false
  end.

(** [os.path.splitext(p)] on a POSIX path. *)
Definition splitext (p : str) : str * str :=
  let sepIndex := rfind "/" p in
  let dotIndex := rfind "." p in
  if (sepIndex <? dotIndex)%Z then
    let filenameIndex := Z.to_nat (sepIndex + 1) in
    if has_name_before_dot p filenameIndex (Z.to_nat dotIndex)
         (Z.to_nat dotIndex - filenameIndex)
    then (firstn (Z.to_nat dotIndex) p, skipn (Z.to_nat dotIndex) p)
    else (p, [])
  else (p, []).

(** [s.replace(old, new)] for one-character [old] and [new]. *)
Definition replace_char (old new : ascii) (s : str) : str :=
  map (fun c => if ascii_eqb c old then new else c) s.

(** Line 41: the table name generated for a CSV file. *)
Definition table_name (csv_file : str) : str :=
  replace_char "-" "_" (replace_char " " "_" (lower (fst (splitext csv_file)))).

(** [f.endswith(suffix)] *)
Definition endswith (suffix s : str) : bool :=
  startswith (rev suffix) (rev s).

End CsvToDatabase.

(** ** The schema bootstrap of [database.py] *)

(** The SQLite file is a map from table names to tables.  Reading a CSV
    file is a capability that can raise; creating the engine, creating the
    declared tables and writing a frame that was read are taken to
    succeed. *)
Module Database.

Inductive sqltype : Type := Integer | String_ | Float | Boolean.

(** A table of the SQLite file: created empty from the declared columns,
    or holding the frame written by [to_sql]. *)
Inductive table : Type :=
| Declared (cols : list (str * sqltype))
| Loaded (df : DataFrame).

(** The SQLite file and the standard output. *)
Record world : Type := mkWorld {
  tables : gmap str table;
  printed : list str
}.

Definition D (A : Type) : Type := world -> result A * world.

#[global] Instance D_ret : MRet D := fun A a w => (ok a, w).
#[global] Instance D_bind : MBind D :=
  fun A B k m w =>
    match m w with
    | (ok a, w') => k a w'
    | (raise e, w') => (raise e, w')
    end.

Definition d_throw {A} (e : exn) : D A := fun w => (raise e, w).

Definition d_call {A} (r : result A) : D A := fun w => (r, w).

(** [try: m except Exception as e: h e] *)
Definition d_try_except {A} (m : D A) (h : exn -> D A) : D A :=
  fun w =>
    match m w with
    | (ok a, w') => (ok a, w')
    | (raise e, w') => h e w'
    end.

Definition d_print (line : str) : D unit :=
  fun w => (ok tt, {| tables := tables w; printed := printed w ++ [line] |}).

(** [os.path.join(a, b)] on POSIX paths. *)
Definition path_join (a b : str) : str :=
  if startswith (lit "/") b then b
  else if match a with [] => true | _ => false end
          || startswith (lit "/") (rev a)
       then a ++ b
       else a ++ lit "/" ++ b.

(** The three tables declared on [metadata], in the order of the
    declarations. *)
Definition ad_metrics_columns : list (str * sqltype) :=
  [(lit "date", String_); (lit "item_id", Integer); (lit "ad_sales", Float);
   (lit "impressions", Integer); (lit "ad_spend", Float); (lit "clicks", Integer);
   (lit "units_sold", Integer)].

Definition product_eligibility_columns : list (str * sqltype) :=
  [(lit "eligibility_datetime_utc", String_); (lit "item_id", Integer);
   (lit "eligibility", Boolean); (lit "message", String_)].

Definition sales_metrics_columns : list (str * sqltype) :=
  [(lit "date", String_); (lit "item_id", Integer); (lit "total_sales", Float);
   (lit "total_units_ordered", Integer)].

Definition metadata : list (str * list (str * sqltype)) :=
  [(lit "ad_metrics", ad_metrics_columns);
   (lit "product_eligibility", product_eligibility_columns);
   (lit "sales_metrics", sales_metrics_columns)].

(** [metadata.create_all(engine)]: a declared table is created when the
    file has none of that name. *)
Definition create_table (t : str * list (str * sqltype)) (ts : gmap str table)
  : gmap str table :=
  match ts !! fst t with
  | Some _ => ts
  | None => <[fst t := Declared (snd t)]> ts
  end.

Definition create_all : D unit :=
  fun w => (ok tt, {| tables := fold_left (fun ts t => create_table t ts) metadata (tables w);
                      printed := printed w |}).

(** [df.to_sql(name, engine, if_exists='replace', index=False)] *)
Definition to_sql (name : str) (df : DataFrame) : D unit :=
  fun w => (ok tt, {| tables := <[name := Loaded df]> (tables w);
                      printed := printed w |}).

Definition ad_metrics_csv : str := lit "Product-Level Ad Sales and Metrics (mapped).csv".
Definition eligibility_csv : str := lit "Product-Level Eligibility Table (mapped).csv".
Definition sales_metrics_csv : str := lit "Product-Level Total Sales and Metrics (mapped).csv".

Section Setup.

(** [pd.read_csv], and the directory of the module,
    [os.path.dirname(__file__)]. *)
Variable read_csv : str -> result DataFrame.
Variable here : str.

(** The engine, known by its URL. *)
Definition setup_database : D str :=
  let db_path := path_join here (lit "ecommerce.db") in
  let engine := lit "sqlite:///" ++ db_path in
  create_all;;
  let data_dir := path_join here (lit "data") in
  d_try_except
    (let ad_metrics_path := path_join data_dir ad_metrics_csv in
     df ← d_call (read_csv ad_metrics_path);
     to_sql (lit "ad_metrics") df;;
     let eligibility_path := path_join data_dir eligibility_csv in
     df ← d_call (read_csv eligibility_path);
     to_sql (lit "product_eligibility") df;;
     let sales_metrics_path := path_join data_dir sales_metrics_csv in
     df ← d_call (read_csv sales_metrics_path);
     to_sql (lit "sales_metrics") df)
    (fun e =>
       d_print (lit "Error loading data: " ++ exn_str e);;
       d_throw e);;
  mret engine.

End Setup.

End Database.

(** The path [setup_database] reads a CSV file from. *)
Definition csv_path (here name : str) : str :=
  Database.path_join (Database.path_join here (lit "data")) name.

(** The table [create_all] leaves under a declared name: the one the file
    had, or the empty declared one. *)
Definition created_table (cols : list (str * Database.sqltype))
    (before : option Database.table) : Database.table :=
  match before with
  | Some t => t
  | None => Database.Declared cols
  end.

(** A CSV reader that knows the three files of the repository. *)
Definition csv_files (d1 d2 d3 : result DataFrame) (path : str) : result DataFrame :=
  if str_eqb path (csv_path (lit "/srv/agent") Database.ad_metrics_csv) then d1
  else if str_eqb path (csv_path (lit "/srv/agent") Database.eligibility_csv) then d2
  else if str_eqb path (csv_path (lit "/srv/agent") Database.sales_metrics_csv) then d3
  else raise (OtherError (lit "FileNotFoundError")).

Definition empty_world : Database.world :=
  {| Database.tables := ∅; Database.printed := [] |}.

(** The SQLite file [w'] that a load of [w] leaves when it fails with [e]
    after having written [ad] and [pe]: one line is printed; [ad_metrics]
    and [product_eligibility] hold the frame that was written, if one was;
    a table that was not written, as [sales_metrics], is as [create_all]
    left it; no other table has changed. *)
Definition half_loaded (w w' : Database.world) (e : exn) (ad pe : option DataFrame)
  : Prop :=
  let left_as name cols written :=
    match written with
    | Some df => Database.Loaded df
    | None => created_table cols (Database.tables w !! name)
    end in
  Database.printed w' = Database.printed w ++ [lit "Error loading data: " ++ exn_str e]
  /\ Database.tables w' !! lit "ad_metrics"
     = Some (left_as (lit "ad_metrics") Database.ad_metrics_columns ad)
  /\ Database.tables w' !! lit "product_eligibility"
     = Some (left_as (lit "product_eligibility") Database.product_eligibility_columns pe)
  /\ Database.tables w' !! lit "sales_metrics"
     = Some (left_as (lit "sales_metrics") Database.sales_metrics_columns None)
  /\ forall name,
       name <> lit "ad_metrics" -> name <> lit "product_eligibility" ->
       name <> lit "sales_metrics" ->
       Database.tables w' !! name = Database.tables w !! name.

(** ** The Flask prototype of [ecommerce_ai_agent.py] *)

Module FlaskApp.

(** *** JSON text, as [json.dumps] writes it *)

Definition dquote : ascii := ascii_of_nat 34.
Definition backslash : ascii := ascii_of_nat 92.

Definition hex_digit (n : N) : ascii :=
  if (n <? 10)%N then ascii_of_N (48 + n) else ascii_of_N (87 + n).

(** One character inside a JSON string, with [ensure_ascii]: the quote and
    the backslash are escaped, the usual control characters have a short
    form, and every other character outside the range from space to tilde
    is written as [\u00XX]. *)
Definition json_escape_char (c : ascii) : str :=
  let n := code c in
  if (n =? 34)%N then [backslash; dquote]
  else if (n =? 92)%N then [backslash; backslash]
  else if (n =? 10)%N then [backslash; "n"%char]
  else if (n =? 13)%N then [backslash; "r"%char]
  else if (n =? 9)%N then [backslash; "t"%char]
  else if (n =? 8)%N then [backslash; "b"%char]
  else if (n =? 12)%N then [backslash; "f"%char]
  else if ((32 <=? n) && (n <=? 126))%N then [c]
  else [backslash; "u"%char; "0"%char; "0"%char;
        hex_digit (n / 16); hex_digit (n mod 16)].

Definition json_string (s : str) : str :=
  [dquote] ++ flat_map json_escape_char s ++ [dquote].

(** [json.dumps({key: value})] for a string value. *)
Definition json_dumps (key value : str) : str :=
  lit "{" ++ json_string key ++ lit ": " ++ json_string value ++ lit "}".

(** *** The stream *)

(** What the generator does, step by step: it yields a chunk or sleeps
    for 50 ms. *)
Inductive step : Type :=
| Yield (chunk : str)
| Sleep.

(** One server-sent event: [data: ], the JSON object, two line feeds. *)
Definition sse (key value : str) : str :=
  lit "data: " ++ json_dumps key value ++ nl ++ nl.

Definition stream_response (answer : str) (visualization : option str) : list step :=
  flat_map (fun char => [Yield (sse (lit "text") [char]); Sleep]) answer
  ++ match visualization with
     | Some (c :: v) => [Yield (sse (lit "visualization") (c :: v))]
     | _ => []
     end.

(** *** The request *)

Inductive event : Type :=
| EvModel (prompt : str)
| EvSql (query : str)
| EvBar (title : str) (x y : list scalar).

Definition F (A : Type) : Type := list event -> result A * list event.

#[global] Instance F_ret : MRet F := fun A a tr => (ok a, tr).
#[global] Instance F_bind : MBind F :=
  fun A B k m tr =>
    match m tr with
    | (ok a, tr') => k a tr'
    | (raise e, tr') => (raise e, tr')
    end.

Definition f_throw {A} (e : exn) : F A := fun tr => (raise e, tr).
Definition f_call {A} (r : result A) : F A := fun tr => (r, tr).
Definition f_log (ev : event) : F unit := fun tr => (ok tt, tr ++ [ev]).

(** The collaborators: the tokenizer and the model as one function from
    the prompt to the decoded text, SQLite, the encoded PNG of a bar
    chart, and [str] on a cell. *)
Record FlaskEnv : Type := mkFlaskEnv {
  model_generate : str -> result str;
  run_sql : str -> result (list (list scalar) * list str);
  bar_png_b64 : str -> list scalar -> list scalar -> result str;
  py_str : scalar -> str
}.

Definition total_sales_sql : str :=
  lit "SELECT SUM(total_sales) as total FROM total_sales_metrics".

Definition roas_sql : str :=
  unlines
    [lit "";
     lit "        SELECT a.product_id, (t.total_sales / a.ad_spend) as roas";
     lit "        FROM ad_sales_metrics a";
     lit "        JOIN total_sales_metrics t ON a.product_id = t.product_id";
     lit "        "].

Definition highest_cpc_sql : str :=
  unlines
    [lit "";
     lit "        SELECT product_id, cpc";
     lit "        FROM ad_sales_metrics";
     lit "        WHERE cpc = (SELECT MAX(cpc) FROM ad_sales_metrics)";
     lit "        "].

Definition sql_prompt (question : str) : str :=
  lit "Convert this question to a SQL query: " ++ question ++ nl
  ++ lit "Available tables: product_eligibility, ad_sales_metrics, total_sales_metrics".

(** [df[name]] on [pd.DataFrame(results, columns=columns)]: the cells of
    the first column of that name, or [KeyError]. *)
Fixpoint column_index (name : str) (columns : list str) : option nat :=
  match columns with
  | [] => None
  | c :: rest =>
    if str_eqb c name then Some 0
    else match column_index name rest with
         | Some i => Some (S i)
         | None => None
         end
  end.

Definition getitem (results : list (list scalar)) (columns : list str) (name : str)
  : F (list scalar) :=
  match column_index name columns with
  | Some i => mret (map (fun row => nth i row VNull) results)
  | None => f_throw (OtherError (lit "'" ++ name ++ lit "'"))
  end.

Section App.

Variable env : FlaskEnv.

Definition generate_sql_query (question : str) : F str :=
  let question := lower question in
  let prompt := sql_prompt question in
  f_log (EvModel prompt);;
  sql_query ← f_call (model_generate env prompt);
  if contains (lit "total sales") question then mret total_sales_sql
  else if contains (lit "roas") question then mret roas_sql
  else if contains (lit "highest cpc") question then mret highest_cpc_sql
  else mret sql_query.

Definition execute_query (query : str) : F (list (list scalar) * list str) :=
  f_log (EvSql query);;
  f_call (run_sql env query).

Definition generate_visualization (results : list (list scalar)) (columns : list str)
    (query_type : str) : F str :=
  if str_eqb query_type (lit "roas") then
    x ← getitem results columns (lit "product_id");
    y ← getitem results columns (lit "roas");
    f_log (EvBar (lit "Return on Ad Spend by Product") x y);;
    f_call (bar_png_b64 env (lit "Return on Ad Spend by Product") x y)
  else if str_eqb query_type (lit "highest cpc") then
    x ← getitem results columns (lit "product_id");
    y ← getitem results columns (lit "cpc");
    f_log (EvBar (lit "Highest CPC by Product") x y);;
    f_call (bar_png_b64 env (lit "Highest CPC by Product") x y)
  else mret [].

(** [", ".join(parts)] *)
Fixpoint join_comma (parts : list str) : str :=
  match parts with
  | [] => []
  | [p] => p
  | p :: rest => p ++ lit ", " ++ join_comma rest
  end.

Definition row_line (columns : list str) (row : list scalar) : str :=
  join_comma (map (fun cv => fst cv ++ lit ": " ++ py_str env (snd cv))
                  (combine columns row))
  ++ nl.

Definition query_type_of (question : str) : str :=
  if contains (lit "roas") (lower question) then lit "roas"
  else if contains (lit "highest cpc") (lower question) then lit "highest cpc"
  else [].

(** [ask_question()], with [body] the value of [question] in the JSON
    body when it has one. *)
Definition ask_question (body : option str) : F (list step) :=
  let question := match body with Some q => q | None => [] end in
  sql_query ← generate_sql_query question;
  rc ← execute_query sql_query;
  let results := fst rc in
  let columns := snd rc in
  let query_type := query_type_of question in
  let answer :=
    lit "Query: " ++ question ++ nl ++ lit "Results:" ++ nl
    ++ flat_map (row_line columns) results in
  visualization ←
    match query_type with
    | [] => mret None
    | _ => v ← generate_visualization results columns query_type; mret (Some v)
    end;
  mret (stream_response answer visualization).

End App.

(** *** A reader of the stream *)

(** [s] without the prefix [p], if it has it. *)
Fixpoint strip_prefix (p s : str) : option str :=
  match p, s with
  | [], _ => Some s
  | a :: p', b :: s' => if ascii_eqb a b then strip_prefix p' s' else None
  | _, [] => None
  end.

Definition hex_value (c : ascii) : option N :=
  let n := code c in
  if ((48 <=? n) && (n <=? 57))%N then Some (n - 48)%N
  else if ((97 <=? n) && (n <=? 102))%N then Some (n - 87)%N
  else None.

(** The character a JSON string of one character stands for. *)
Definition json_unescape_char (s : str) : option ascii :=
  match s with
  | [c] => if ascii_eqb c backslash || ascii_eqb c dquote then None else Some c
  | [b; x] =>
    if ascii_eqb b backslash then
      if ascii_eqb x dquote then Some dquote
      else if ascii_eqb x backslash then Some backslash
      else if ascii_eqb x "n" then Some (ascii_of_nat 10)
      else if ascii_eqb x "r" then Some (ascii_of_nat 13)
      else if ascii_eqb x "t" then Some (ascii_of_nat 9)
      else if ascii_eqb x "b" then Some (ascii_of_nat 8)
      else if ascii_eqb x "f" then Some (ascii_of_nat 12)
      else None
    else None
  | [b; u; z1; z2; h1; h2] =>
    if ascii_eqb b backslash && ascii_eqb u "u" && ascii_eqb z1 "0"
       && ascii_eqb z2 "0" then
      match hex_value h1, hex_value h2 with
      | Some a, Some b => Some (ascii_of_N (16 * a + b))
      | _, _ => None
      end
    else None
  | _ => None
  end.

(** The character of a text chunk: the chunk without its frame. *)
Definition text_of_chunk (chunk : str) : option ascii :=
  match strip_prefix (lit "data: {" ++ [dquote] ++ lit "text" ++ [dquote] ++ lit ": "
                      ++ [dquote]) chunk with
  | Some rest =>
    match strip_prefix (rev ([dquote] ++ lit "}" ++ nl ++ nl)) (rev rest) with
    | Some body => json_unescape_char (rev body)
    | None => None
    end
  | None => None
  end.

(** The text a client collects from the stream. *)
Definition texts_of (steps : list step) : str :=
  flat_map (fun s =>
              match s with
              | Yield chunk =>
                match text_of_chunk chunk with
                | Some c => [c]
                | None => []
                end
              | Sleep => []
              end) steps.

End FlaskApp.

(** A prototype whose model always writes [text] and whose store always
    answers [rc]. *)
Definition flask_fake (text : str) (rc : list (list scalar) * list str)
  : FlaskApp.FlaskEnv :=
  {| FlaskApp.model_generate := fun _ => ok text;
     FlaskApp.run_sql := fun _ => ok rc;
     FlaskApp.bar_png_b64 := fun _ _ _ => ok Fake.png;
     FlaskApp.py_str := fun v =>
       match v with
       | VText s => s
       | _ => lit "5000.0"
       end |}.

(** The answer text of the prototype. *)
Definition flask_answer (env : FlaskApp.FlaskEnv) (question : str)
    (rc : list (list scalar) * list str) : str :=
  lit "Query: " ++ question ++ nl ++ lit "Results:" ++ nl
  ++ flat_map (FlaskApp.row_line env (snd rc)) (fst rc).

(** * Properties *)

(** ** Characters *)

Ltac each_char c :=
  destruct c as [[] [] [] [] [] [] [] []].

Lemma ascii_eqb_eq (a b : ascii) : ascii_eqb a b = true <-> a = b.
Proof. unfold ascii_eqb. apply Ascii.eqb_eq. Qed.

Lemma ascii_eqb_refl (a : ascii) : ascii_eqb a a = true.
Proof. apply ascii_eqb_eq. reflexivity. Qed.

Lemma ascii_eqb_neq (a b : ascii) : ascii_eqb a b = false <-> a <> b.
Proof. unfold ascii_eqb. apply Ascii.eqb_neq. Qed.

Lemma isspace_lower_char (c : ascii) : isspace (lower_char c) = isspace c.
Proof. each_char c; reflexivity. Qed.


Lemma lower_char_semicolon (c : ascii) : lower_char c = ";"%char -> c = ";"%char.
Proof. each_char c; vm_compute; congruence. Qed.

Lemma lower_char_space (c : ascii) : lower_char c = " "%char -> c = " "%char.
Proof. each_char c; vm_compute; congruence. Qed.

(** ** Prefixes, suffixes and occurrences *)

Lemma startswith_spec (p s : str) :
  startswith p s = true <-> exists r, s = p ++ r.
Proof.
  revert s. induction p as [|a p IH]; intros s; simpl.
  - split; [intros _; exists s; reflexivity | reflexivity].
  - destruct s as [|b s].
    + split; [discriminate | intros [r Hr]; discriminate].
    + rewrite andb_true_iff, ascii_eqb_eq, IH. split.
      * intros [-> [r ->]]. exists r. reflexivity.
      * intros [r Hr]. injection Hr as -> ->. split; [reflexivity | exists r; reflexivity].
Qed.

Lemma contains_spec (p s : str) :
  contains p s = true <-> substring p s.
Proof.
  unfold substring. induction s as [|c s IH].
  - simpl. rewrite orb_false_r, startswith_spec. split.
    + intros [r Hr]. exists [], r. exact Hr.
    + intros [a [b H]]. destruct a; [exists b; exact H | discriminate].
  - cbn [contains]. rewrite orb_true_iff, startswith_spec, IH. split.
    + intros [[r Hr] | [a [b H]]].
      * exists [], r. exact Hr.
      * exists (c :: a), b. rewrite H. reflexivity.
    + intros [a [b H]]. destruct a as [|x a].
      * left. exists b. exact H.
      * right. injection H as -> ->. exists a, b. reflexivity.
Qed.

Lemma contains_false (p s : str) :
  contains p s = false <-> ~ substring p s.
Proof.
  rewrite <- contains_spec. destruct (contains p s); split; congruence.
Qed.

Lemma substring_app_l (p a s : str) : substring p s -> substring p (a ++ s).
Proof.
  intros [u [v ->]]. exists (a ++ u), v. rewrite <- app_assoc. reflexivity.
Qed.

Lemma substring_app_r (p s b : str) : substring p s -> substring p (s ++ b).
Proof.
  intros [u [v ->]]. exists u, (v ++ b). rewrite <- !app_assoc. reflexivity.
Qed.

Lemma substring_lower (p s : str) :
  substring p s -> substring (lower p) (lower s).
Proof.
  intros [u [v ->]]. exists (lower u), (lower v).
  unfold lower. rewrite !map_app. reflexivity.
Qed.

(** ** Dropping from either end *)

Section Dropping.

Variable p : ascii -> bool.

Lemma drop_while_split (s : str) :
  exists u, s = u ++ drop_while p s /\ forallb p u = true.
Proof.
  induction s as [|c s [u [Hs Hu]]]; simpl.
  - exists []. split; reflexivity.
  - destruct (p c) eqn:Hc.
    + exists (c :: u). simpl. rewrite Hc, Hu. split; [f_equal; exact Hs | reflexivity].
    + exists []. split; reflexivity.
Qed.

Lemma drop_while_head (s : str) (c : ascii) (r : str) :
  drop_while p s = c :: r -> p c = false.
Proof.
  induction s as [|x s IH]; simpl; [discriminate|].
  destruct (p x) eqn:Hx; [exact IH|].
  intros H. injection H as -> _. exact Hx.
Qed.

Lemma drop_while_app_stop (u : str) (c : ascii) (w : str) :
  p c = false -> drop_while p (u ++ c :: w) = drop_while p u ++ c :: w.
Proof.
  intros Hc. induction u as [|x u IH]; simpl.
  - rewrite Hc. reflexivity.
  - destruct (p x); [exact IH | reflexivity].
Qed.

Lemma drop_while_all (u : str) : forallb p u = true -> drop_while p u = [].
Proof.
  induction u as [|x u IH]; simpl; [reflexivity|].
  destruct (p x); simpl; [exact IH | discriminate].
Qed.

Lemma drop_while_id (s : str) :
  (forall c r, s = c :: r -> p c = false) -> drop_while p s = s.
Proof.
  destruct s as [|c s]; simpl; [reflexivity|].
  intros H. rewrite (H c s eq_refl). reflexivity.
Qed.

Lemma rdrop_while_split (s : str) :
  exists v, s = rdrop_while p s ++ v /\ forallb p v = true.
Proof.
  unfold rdrop_while. destruct (drop_while_split (rev s)) as [u [Hs Hu]].
  exists (rev u). split.
  - rewrite <- rev_app_distr, <- Hs, rev_involutive. reflexivity.
  - rewrite forallb_forall in *. intros x Hx. apply Hu, in_rev. exact Hx.
Qed.

Lemma rdrop_while_last (s r : str) (c : ascii) :
  rdrop_while p s = r ++ [c] -> p c = false.
Proof.
  unfold rdrop_while. intros H.
  apply (f_equal (@rev ascii)) in H.
  rewrite rev_involutive, rev_app_distr in H. simpl in H.
  exact (drop_while_head _ _ _ H).
Qed.

Lemma rdrop_while_keep (a : str) (c : ascii) (b : str) :
  p c = false -> rdrop_while p (a ++ c :: b) = a ++ c :: rdrop_while p b.
Proof.
  intros Hc. unfold rdrop_while.
  rewrite rev_app_distr. simpl. rewrite <- app_assoc. simpl.
  rewrite (drop_while_app_stop _ _ _ Hc).
  rewrite rev_app_distr. simpl. rewrite rev_involutive, <- app_assoc. reflexivity.
Qed.

Lemma rdrop_while_all (v : str) : forallb p v = true -> rdrop_while p v = [].
Proof.
  intros H. unfold rdrop_while. rewrite drop_while_all; [reflexivity|].
  rewrite forallb_forall in *. intros x Hx. apply H, in_rev. exact Hx.
Qed.

Lemma rdrop_while_id (s : str) :
  (forall r c, s = r ++ [c] -> p c = false) -> rdrop_while p s = s.
Proof.
  intros H. unfold rdrop_while. rewrite drop_while_id.
  - apply rev_involutive.
  - intros c r Hr. apply (H (rev r) c).
    rewrite <- (rev_involutive s), Hr. reflexivity.
Qed.

End Dropping.

(** ** Fence removal *)

Lemma startswith_fence_cons (c : ascii) (s : str) :
  startswith fence (c :: s) = true ->
  c = backtick /\ exists s3, s = backtick :: backtick :: s3.
Proof.
  intros H. apply startswith_spec in H. destruct H as [r Hr].
  cbn in Hr. injection Hr as -> ->. split; [reflexivity | eexists; reflexivity].
Qed.

Lemma re_sub_fence_copy (c : ascii) (s1 : str) :
  startswith fence (c :: s1) = false ->
  re_sub_fence (c :: s1) = c :: re_sub_fence s1.
Proof.
  intros H. destruct s1 as [|c2 [|c3 s3]]; try reflexivity.
  cbn [re_sub_fence].
  destruct (ascii_eqb c backtick) eqn:E1; [|reflexivity].
  destruct (ascii_eqb c2 backtick) eqn:E2; [|reflexivity].
  destruct (ascii_eqb c3 backtick) eqn:E3; [|reflexivity].
  apply ascii_eqb_eq in E1, E2, E3. subst. discriminate H.
Qed.

Lemma re_sub_fence_other (c : ascii) (s : str) :
  c <> backtick -> re_sub_fence (c :: s) = c :: re_sub_fence s.
Proof.
  intros Hc. apply re_sub_fence_copy.
  destruct (startswith fence (c :: s)) eqn:E; [|reflexivity].
  apply startswith_fence_cons in E. destruct E as [E _]. contradiction.
Qed.

Lemma re_sub_fence_skip (s3 : str) :
  re_sub_fence (backtick :: backtick :: backtick :: s3) = re_sub_fence (after_fence s3).
Proof.
  cbn [re_sub_fence]. rewrite !ascii_eqb_refl. cbn [andb].
  unfold after_fence. destruct s3 as [|x [|y [|z s6]]]; try reflexivity.
  destruct (imatch "s" x && imatch "q" y && imatch "l" z); reflexivity.
Qed.

Lemma after_fence_length (s3 : str) : length (after_fence s3) <= length s3.
Proof.
  unfold after_fence. destruct s3 as [|x [|y [|z s6]]]; simpl; try lia.
  destruct (imatch "s" x && imatch "q" y && imatch "l" z); simpl; lia.
Qed.

Lemma startswith_fence_not (s : str) :
  (forall s3, s <> backtick :: backtick :: backtick :: s3) ->
  startswith fence s = false.
Proof.
  intros H. destruct (startswith fence s) eqn:E; [|reflexivity].
  destruct s as [|c s1]; [discriminate E|].
  apply startswith_fence_cons in E. destruct E as [-> [s3 ->]].
  exfalso. apply (H s3). reflexivity.
Qed.

Lemma re_sub_fence_head (c : ascii) (s1 : str) :
  startswith fence (c :: s1) = false ->
  startswith fence (c :: re_sub_fence s1) = false.
Proof.
  intros H. apply startswith_fence_not. intros r Hr.
  injection Hr as -> Hr.
  destruct s1 as [|c2 s2]; [discriminate Hr|].
  destruct (ascii_dec c2 backtick) as [->|Hc2].
  2:{ rewrite (re_sub_fence_other _ _ Hc2) in Hr. congruence. }
  destruct s2 as [|c3 s3]; [discriminate Hr|].
  destruct (ascii_dec c3 backtick) as [->|Hc3]; [discriminate H|].
  rewrite re_sub_fence_copy in Hr.
  2:{ apply startswith_fence_not. intros r' Hr'. congruence. }
  rewrite (re_sub_fence_other _ _ Hc3) in Hr. congruence.
Qed.

Lemma re_sub_fence_clean_upto (n : nat) (s : str) :
  length s <= n -> contains fence (re_sub_fence s) = false.
Proof.
  revert s. induction n as [|n IH]; intros s Hn.
  - destruct s; [reflexivity | simpl in Hn; lia].
  - destruct s as [|c s1]; [reflexivity|].
    destruct (startswith fence (c :: s1)) eqn:E.
    + apply startswith_fence_cons in E. destruct E as [-> [s3 ->]].
      rewrite re_sub_fence_skip. apply IH.
      pose proof (after_fence_length s3). simpl in Hn. lia.
    + rewrite (re_sub_fence_copy _ _ E). cbn [contains].
      rewrite (re_sub_fence_head _ _ E). simpl in Hn.
      rewrite IH by lia. reflexivity.
Qed.

(** No fence is left after the substitution, also where removing one match
    brings backticks together. *)
Lemma re_sub_fence_clean (s : str) : ~ substring fence (re_sub_fence s).
Proof.
  apply contains_false. apply (re_sub_fence_clean_upto (length s)). lia.
Qed.

(** A text without a fence is left as it is. *)
Lemma re_sub_fence_id (s : str) : ~ substring fence s -> re_sub_fence s = s.
Proof.
  rewrite <- contains_false. induction s as [|c s IH]; [reflexivity|].
  cbn [contains]. rewrite orb_false_iff. intros [H1 H2].
  rewrite (re_sub_fence_copy _ _ H1), (IH H2). reflexivity.
Qed.

(** ** The clean-up statements *)

Lemma lstrip_lower (s : str) : lstrip (lower s) = lower (lstrip s).
Proof.
  unfold lstrip, lower. induction s as [|c s IH]; [reflexivity|].
  simpl. rewrite isspace_lower_char. destruct (isspace c); [exact IH | reflexivity].
Qed.

Lemma substring_drop_while (p : ascii -> bool) (w s : str) :
  substring w (drop_while p s) -> substring w s.
Proof.
  destruct (drop_while_split p s) as [u [Hs _]].
  intros H. rewrite Hs. apply substring_app_l. exact H.
Qed.

Lemma substring_rdrop_while (p : ascii -> bool) (w s : str) :
  substring w (rdrop_while p s) -> substring w s.
Proof.
  destruct (rdrop_while_split p s) as [v [Hs _]].
  intros H. rewrite Hs. apply substring_app_r. exact H.
Qed.

Lemma substring_strip (w s : str) : substring w (strip s) -> substring w s.
Proof.
  unfold strip, rstrip, lstrip. intros H.
  apply substring_drop_while with (p := isspace).
  apply substring_rdrop_while with (p := isspace). exact H.
Qed.

Lemma substring_normalize (w s : str) :
  substring w (normalize s) -> substring w (re_sub_fence s).
Proof.
  unfold normalize, rstrip_char. intros H.
  apply substring_strip. apply substring_rdrop_while in H. exact H.
Qed.

(** ** The validator *)

Lemma sanitize_unfold (s : str) : _sanitize_sql s = check_sql (normalize s).
Proof. reflexivity. Qed.

Lemma check_sql_ok (t r : str) :
  check_sql t = ok r ->
  r = t /\ startswith (lit "select") (lstrip (lower t)) = true
  /\ forall cmd, In cmd forbidden -> ~ substring cmd (lower t).
Proof.
  unfold check_sql.
  destruct (startswith (lit "select") (lstrip (lower t))) eqn:E1; [|discriminate].
  cbn [negb].
  destruct (existsb (fun cmd => contains cmd (lower t)) forbidden) eqn:E2; [discriminate|].
  intros H. injection H as <-. split; [reflexivity|]. split; [reflexivity|].
  intros cmd Hin Hsub. apply contains_spec in Hsub.
  assert (existsb (fun cmd => contains cmd (lower t)) forbidden = true) as Hex.
  { apply existsb_exists. exists cmd. split; assumption. }
  congruence.
Qed.

Lemma check_sql_raise (t : str) (e : exn) :
  check_sql t = raise e -> InvalidQueryKind e.
Proof.
  unfold check_sql, InvalidQueryKind.
  destruct (negb _).
  - intros H. injection H as <-. exists t. left. reflexivity.
  - destruct (existsb _ _); [|discriminate].
    intros H. injection H as <-. exists t. right. reflexivity.
Qed.

Lemma strip_trimmed (s : str) : trimmed (strip s).
Proof.
  unfold strip, rstrip, lstrip. split.
  - intros c r H.
    destruct (rdrop_while_split isspace (drop_while isspace s)) as [v [Hv _]].
    rewrite H in Hv. simpl in Hv.
    apply (drop_while_head isspace s c (r ++ v)). exact Hv.
  - intros r c H. apply (rdrop_while_last isspace _ _ _ H).
Qed.

Lemma forallb_semicolons (v : str) :
  forallb (ascii_eqb ";") v = true -> v = repeat ";"%char (length v).
Proof.
  induction v as [|c v IH]; [reflexivity|].
  cbn [forallb length repeat].
  rewrite andb_true_iff, ascii_eqb_eq. intros [<- Hv]. f_equal. exact (IH Hv).
Qed.

Lemma normalize_not_terminated (s : str) : ~ ends_with ";" (normalize s).
Proof.
  unfold normalize, rstrip_char. intros [r Hr].
  apply rdrop_while_last in Hr. rewrite ascii_eqb_refl in Hr. discriminate.
Qed.

Lemma normalize_clean (s : str) : ~ substring fence (normalize s).
Proof.
  intros H. apply substring_normalize in H. exact (re_sub_fence_clean s H).
Qed.

(** The cleaned-up text is the trimmed text short of its trailing
    semicolons. *)
Lemma normalize_shape (s : str) :
  exists n, strip (re_sub_fence s) = normalize s ++ repeat ";"%char n.
Proof.
  unfold normalize, rstrip_char.
  destruct (rdrop_while_split (ascii_eqb ";") (strip (re_sub_fence s))) as [v [Hv Hall]].
  exists (length v). rewrite <- (forallb_semicolons v Hall). exact Hv.
Qed.

Lemma strip_shape (t : str) :
  exists u v, t = u ++ strip t ++ v
              /\ forallb isspace u = true /\ forallb isspace v = true.
Proof.
  unfold strip, rstrip, lstrip.
  destruct (drop_while_split isspace t) as [u [Hu Hau]].
  destruct (rdrop_while_split isspace (drop_while isspace t)) as [v [Hv Hav]].
  exists u, v. split; [|split; assumption].
  rewrite <- Hv. exact Hu.
Qed.

Lemma begins_with_select_of_check (t : str) :
  startswith (lit "select") (lstrip (lower t)) = true -> begins_with_select t.
Proof.
  rewrite lstrip_lower. intros H. apply startswith_spec in H. destruct H as [r Hr].
  unfold lower in Hr. apply map_eq_app in Hr.
  destruct Hr as [kw [rest [Hsplit [Hkw _]]]].
  destruct (drop_while_split isspace t) as [u [Hu Hau]].
  exists u, kw, rest. split; [|split; [exact Hau | exact Hkw]].
  unfold lstrip in Hsplit. rewrite <- Hsplit. exact Hu.
Qed.

(** The fenced completion of the specification's round-trip example. *)
Example sanitize_sql_fenced :
  _sanitize_sql (lit "```sql" ++ nl ++ lit "select 1```") = ok (lit "select 1").
Proof. reflexivity. Qed.

Lemma sanitize_ok (s r : str) :
  _sanitize_sql s = ok r ->
  r = normalize s /\ startswith (lit "select") (lstrip (lower r)) = true
  /\ forall cmd, In cmd forbidden -> ~ substring cmd (lower r).
Proof.
  rewrite sanitize_unfold. intros H. apply check_sql_ok in H.
  destruct H as [-> H]. split; [reflexivity | exact H].
Qed.

Lemma validated_text_facts (s r : str) :
  _sanitize_sql s = ok r ->
  ~ substring fence r
  /\ ~ ends_with ";" r
  /\ forall cmd, In cmd forbidden -> ~ substring cmd (lower r).
Proof.
  intros H. apply sanitize_ok in H. destruct H as [Hr [Hsel Hforb]].
  split; [rewrite Hr; apply normalize_clean|].
  split; [rewrite Hr; apply normalize_not_terminated | exact Hforb].
Qed.

(** C1, as stated, fails: a validated text can contain a mutating keyword.
    The column name [created_at] passes the scan, which looks for the
    keyword followed by a space. *)
Lemma sanitize_sql_keeps_keyword :
  _sanitize_sql (lit "select created_at from t") = ok (lit "select created_at from t")
  /\ In (lit "create") keywords
  /\ substring (lit "create") (lower (lit "select created_at from t")).
Proof.
  split; [reflexivity|]. split.
  - unfold keywords. simpl. tauto.
  - apply contains_spec. reflexivity.
Qed.

(** C1 (amended): whenever [_sanitize_sql] succeeds, the returned text
    begins with SELECT (in any case, after leading whitespace), contains no
    code fence, does not end in a semicolon, and its lower-cased form
    contains none of the seven keywords followed by a space. *)
Theorem sanitize_sql_guarantees (s r : str) :
  _sanitize_sql s = ok r ->
  begins_with_select r
  /\ ~ substring fence r
  /\ ~ ends_with ";" r
  /\ forall cmd, In cmd forbidden -> ~ substring cmd (lower r).
Proof.
  intros H. split; [|exact (validated_text_facts s r H)].
  apply sanitize_ok in H. destruct H as [_ [Hsel _]].
  apply begins_with_select_of_check. exact Hsel.
Qed.

Lemma sanitize_sql_guarantees_witness :
  begins_with_select (lit "SELECT total_sales FROM sales_metrics")
  /\ ~ substring fence (lit "SELECT total_sales FROM sales_metrics")
  /\ ~ ends_with ";" (lit "SELECT total_sales FROM sales_metrics")
  /\ forall cmd, In cmd forbidden ->
       ~ substring cmd (lower (lit "SELECT total_sales FROM sales_metrics")).
Proof.
  apply (sanitize_sql_guarantees
           (lit "```sql SELECT total_sales FROM sales_metrics; ```")).
  reflexivity.
Defined.

(** C5, as stated, fails: of two trailing semicolons none is kept, where
    the specification's wording keeps one. *)
Lemma sanitize_sql_strips_both :
  _sanitize_sql (lit "select 1;;") = ok (lit "select 1")
  /\ normalize_spec (lit "select 1;;") = lit "select 1;"
  /\ _sanitize_sql (lit "select 1;;") <> ok (normalize_spec (lit "select 1;;")).
Proof.
  split; [reflexivity|]. split; [reflexivity|]. discriminate.
Qed.

(** C5 (amended): the clean-up removes the code fences, then the
    surrounding whitespace, then every trailing semicolon: the text with
    its fences removed is whitespace, the returned text, a run of
    semicolons, whitespace; the middle part is trimmed and the returned
    text does not end in a semicolon. *)
Theorem sanitize_sql_strips_all_terminators (s r : str) :
  _sanitize_sql s = ok r ->
  exists u v n,
    re_sub_fence s = u ++ (r ++ repeat ";"%char n) ++ v
    /\ forallb isspace u = true /\ forallb isspace v = true
    /\ trimmed (r ++ repeat ";"%char n)
    /\ ~ ends_with ";" r.
Proof.
  intros H. apply sanitize_ok in H. destruct H as [-> _].
  destruct (strip_shape (re_sub_fence s)) as [u [v [Hs [Hu Hv]]]].
  destruct (normalize_shape s) as [n Hn].
  exists u, v, n. rewrite <- Hn.
  split; [exact Hs|]. split; [exact Hu|]. split; [exact Hv|].
  split; [apply strip_trimmed | apply normalize_not_terminated].
Qed.

Lemma sanitize_sql_strips_all_terminators_witness :
  exists u v n,
    re_sub_fence (lit " select 1;; ") = u ++ (lit "select 1" ++ repeat ";"%char n) ++ v
    /\ forallb isspace u = true /\ forallb isspace v = true
    /\ trimmed (lit "select 1" ++ repeat ";"%char n)
    /\ ~ ends_with ";" (lit "select 1").
Proof.
  apply (sanitize_sql_strips_all_terminators (lit " select 1;; ")).
  reflexivity.
Defined.

(** ** Validating twice *)

Lemma normalize_no_leading_space (s : str) (c : ascii) (r : str) :
  normalize s = c :: r -> isspace c = false.
Proof.
  intros H. destruct (normalize_shape s) as [n Hn].
  rewrite H in Hn. simpl in Hn.
  destruct (strip_trimmed (re_sub_fence s)) as [Hhead _].
  exact (Hhead _ _ Hn).
Qed.

Lemma validated_shape (s r : str) :
  _sanitize_sql s = ok r ->
  exists kw rest, r = kw ++ rest /\ lower kw = lit "select".
Proof.
  intros H. apply sanitize_ok in H. destruct H as [Hr [Hsel _]].
  assert (lstrip r = r) as Hl.
  { unfold lstrip. apply drop_while_id. intros c r' Hc.
    rewrite Hr in Hc. exact (normalize_no_leading_space _ _ _ Hc). }
  rewrite lstrip_lower, Hl in Hsel.
  apply startswith_spec in Hsel. destruct Hsel as [t Ht].
  unfold lower in Ht. apply map_eq_app in Ht.
  destruct Ht as [kw [rest [Hsplit [Hkw _]]]].
  exists kw, rest. split; assumption.
Qed.

Lemma select_word (kw : str) :
  lower kw = lit "select" ->
  exists k1 k2 k3 k4 k5 k6,
    kw = [k1; k2; k3; k4; k5; k6]
    /\ lower_char k1 = "s"%char /\ lower_char k6 = "t"%char.
Proof.
  destruct kw as [|k1 [|k2 [|k3 [|k4 [|k5 [|k6 [|k7 kw]]]]]]]; try discriminate.
  intros H. cbn in H. injection H as H1 _ _ _ _ H6.
  exists k1, k2, k3, k4, k5, k6. repeat split; assumption.
Qed.

(** What the clean-up does to a text that begins with SELECT and holds no
    fence: the word stays, the tail loses trailing whitespace and then
    trailing semicolons. *)
Lemma normalize_select (kw rest : str) :
  lower kw = lit "select" ->
  ~ substring fence (kw ++ rest) ->
  normalize (kw ++ rest)
  = kw ++ rdrop_while (ascii_eqb ";") (rdrop_while isspace rest).
Proof.
  intros Hkw Hclean.
  destruct (select_word kw Hkw) as [k1 [k2 [k3 [k4 [k5 [k6 [-> [H1 H6]]]]]]]].
  assert (isspace k1 = false) as Hs1.
  { rewrite <- isspace_lower_char, H1. reflexivity. }
  assert (isspace k6 = false) as Hs6.
  { rewrite <- isspace_lower_char, H6. reflexivity. }
  assert (ascii_eqb ";" k6 = false) as Hsemi.
  { apply ascii_eqb_neq. intros <-. discriminate H6. }
  unfold normalize. rewrite (re_sub_fence_id _ Hclean).
  unfold strip, lstrip, rstrip, rstrip_char.
  cbn [app drop_while]. rewrite Hs1.
  change (k1 :: k2 :: k3 :: k4 :: k5 :: k6 :: rest)
    with ([k1; k2; k3; k4; k5] ++ k6 :: rest).
  rewrite (rdrop_while_keep isspace _ _ _ Hs6).
  rewrite (rdrop_while_keep (ascii_eqb ";") _ _ _ Hsemi).
  reflexivity.
Qed.

Lemma forallb_app_or (p q : ascii -> bool) (a b : str) :
  forallb q a = true -> forallb p b = true ->
  forallb (fun c => p c || q c) (a ++ b) = true.
Proof.
  intros Ha Hb. rewrite forallb_app. apply andb_true_iff. split.
  - rewrite forallb_forall in *. intros x Hx. rewrite (Ha x Hx). apply orb_true_r.
  - rewrite forallb_forall in *. intros x Hx. rewrite (Hb x Hx). reflexivity.
Qed.

(** C9, as stated, fails: a validated text can end in whitespace, which the
    second validation trims. *)
Lemma sanitize_sql_not_idempotent :
  _sanitize_sql (lit "select 1 ;") = ok (lit "select 1 ")
  /\ _sanitize_sql (lit "select 1 ") = ok (lit "select 1")
  /\ lit "select 1" <> lit "select 1 ".
Proof.
  split; [reflexivity|]. split; [reflexivity|]. discriminate.
Qed.

(** C9 (amended): validating a validated text succeeds again; the second
    result is the first short of trailing whitespace and semicolons, and it
    is the first unchanged whenever the first does not end in whitespace. *)
Theorem sanitize_sql_revalidate (s r : str) :
  _sanitize_sql s = ok r ->
  (exists r' v, _sanitize_sql r = ok r' /\ r = r' ++ v
                /\ forallb (fun c => isspace c || ascii_eqb ";" c) v = true)
  /\ ((forall c, ends_with c r -> isspace c = false) -> _sanitize_sql r = ok r).
Proof.
  intros H.
  destruct (validated_shape s r H) as [kw [rest [Hr Hkw]]].
  destruct (validated_text_facts s r H) as [Hclean [Hterm Hforb]].
  pose proof (normalize_select kw rest Hkw) as Hn. rewrite <- Hr in Hn.
  specialize (Hn Hclean).
  destruct (rdrop_while_split isspace rest) as [v1 [Hv1 Ha1]].
  destruct (rdrop_while_split (ascii_eqb ";") (rdrop_while isspace rest))
    as [v2 [Hv2 Ha2]].
  set (rest2 := rdrop_while (ascii_eqb ";") (rdrop_while isspace rest)) in *.
  assert (r = (kw ++ rest2) ++ (v2 ++ v1)) as Hsplit.
  { rewrite Hr. rewrite Hv1 at 1. rewrite Hv2 at 1.
    rewrite <- !app_assoc. reflexivity. }
  assert (check_sql (kw ++ rest2) = ok (kw ++ rest2)) as Hcheck.
  { unfold check_sql.
    assert (startswith (lit "select") (lstrip (lower (kw ++ rest2))) = true) as ->.
    { unfold lower. rewrite map_app. fold (lower kw). rewrite Hkw. reflexivity. }
    cbn [negb].
    destruct (existsb (fun cmd => contains cmd (lower (kw ++ rest2))) forbidden)
      eqn:E; [|reflexivity].
    apply existsb_exists in E. destruct E as [cmd [Hin Hc]].
    apply contains_spec in Hc. exfalso. apply (Hforb cmd Hin).
    rewrite Hsplit. unfold lower. rewrite map_app.
    apply substring_app_r. exact Hc. }
  split.
  - exists (kw ++ rest2), (v2 ++ v1).
    split; [rewrite sanitize_unfold, Hn; exact Hcheck|].
    split; [exact Hsplit|].
    apply forallb_app_or; assumption.
  - intros Hend.
    assert (normalize r = r) as Hid.
    { unfold normalize. rewrite (re_sub_fence_id _ Hclean).
      unfold strip, lstrip, rstrip, rstrip_char.
      rewrite (drop_while_id isspace r).
      2:{ intros c r0 Hc. apply sanitize_ok in H. destruct H as [H _].
          rewrite H in Hc. exact (normalize_no_leading_space _ _ _ Hc). }
      rewrite (rdrop_while_id isspace r).
      2:{ intros r0 c Hc. apply Hend. exists r0. exact Hc. }
      apply rdrop_while_id. intros r0 c Hc.
      apply ascii_eqb_neq. intros <-. apply Hterm. exists r0. exact Hc. }
    rewrite sanitize_unfold, Hid.
    rewrite Hn in Hid. rewrite Hid in Hcheck. exact Hcheck.
Qed.

Lemma sanitize_sql_revalidate_witness :
  (exists r' v, _sanitize_sql (lit "select 1 ") = ok r' /\ lit "select 1 " = r' ++ v
                /\ forallb (fun c => isspace c || ascii_eqb ";" c) v = true)
  /\ ((forall c, ends_with c (lit "select 1 ") -> isspace c = false) ->
      _sanitize_sql (lit "select 1 ") = ok (lit "select 1 ")).
Proof.
  apply (sanitize_sql_revalidate (lit "select 1 ;")).
  reflexivity.
Defined.

(** ** Keywords that survive the clean-up *)

Lemma imatch_lower (p c : ascii) : imatch p (lower_char c) = imatch p c.
Proof. unfold imatch. f_equal. each_char c; reflexivity. Qed.

Lemma safe_word_lower (w : str) : safe_word (lower w) = true -> safe_word w = true.
Proof.
  unfold safe_word. destruct w as [|h w]; [discriminate|].
  cbn [lower map]. rewrite !imatch_lower, isspace_lower_char.
  rewrite !andb_true_iff. intros [Hh Hall]. split; [exact Hh|].
  change (lower_char h :: map lower_char w) with (map lower_char (h :: w)) in Hall.
  rewrite forallb_forall in *. intros k Hk.
  specialize (Hall (lower_char k) (in_map _ _ _ Hk)).
  destruct (ascii_eqb k backtick) eqn:E; [|reflexivity].
  apply ascii_eqb_eq in E. subst k. discriminate Hall.
Qed.

Lemma forbidden_safe (cmd : str) : In cmd forbidden -> safe_word cmd = true.
Proof.
  unfold forbidden. cbn [In].
  intros [<-|[<-|[<-|[<-|[<-|[<-|[<-|[]]]]]]]]; reflexivity.
Qed.

Lemma re_sub_fence_copy_all (w t : str) :
  forallb (fun k => negb (ascii_eqb k backtick)) w = true ->
  re_sub_fence (w ++ t) = w ++ re_sub_fence t.
Proof.
  induction w as [|k w IH]; [reflexivity|].
  cbn [forallb app]. rewrite andb_true_iff, negb_true_iff, ascii_eqb_neq.
  intros [Hk Hw]. rewrite (re_sub_fence_other _ _ Hk), (IH Hw). reflexivity.
Qed.

Lemma after_fence_keep_1 (x : ascii) (t : str) :
  imatch "s" x = false -> after_fence (x :: t) = x :: t.
Proof.
  intros H. unfold after_fence. destruct t as [|y [|z t]]; try reflexivity.
  rewrite H. reflexivity.
Qed.

Lemma after_fence_keep_2 (x y : ascii) (t : str) :
  imatch "q" y = false -> after_fence (x :: y :: t) = x :: y :: t.
Proof.
  intros H. unfold after_fence. destruct t as [|z t]; try reflexivity.
  rewrite H, andb_false_r. reflexivity.
Qed.

Lemma after_fence_keep_3 (x y z : ascii) (t : str) :
  imatch "l" z = false -> after_fence (x :: y :: z :: t) = x :: y :: z :: t.
Proof.
  intros H. unfold after_fence. rewrite H, andb_false_r. reflexivity.
Qed.

Section Survival.

Variables (h : ascii) (w : str) (c : ascii).
Hypothesis Hsafe : safe_word (h :: w) = true.
Hypothesis Hc : c <> backtick.

Lemma safe_head :
  imatch "s" h = false /\ imatch "q" h = false /\ imatch "l" h = false
  /\ isspace h = false /\ h <> backtick.
Proof.
  unfold safe_word in Hsafe. cbn [forallb] in Hsafe.
  rewrite !andb_true_iff, !negb_true_iff in Hsafe.
  destruct Hsafe as [[[[H1 H2] H3] H4] [H5 _]].
  repeat split; try assumption. apply ascii_eqb_neq. exact H5.
Qed.

Lemma re_sub_fence_keeps_upto (n : nat) (a b : str) :
  length a <= n ->
  exists a', re_sub_fence (a ++ (h :: w) ++ c :: b)
             = a' ++ (h :: w) ++ c :: re_sub_fence b.
Proof.
  destruct safe_head as [Hs [Hq [Hl [_ Hh]]]].
  revert a. induction n as [|n IH]; intros a Hn.
  - destruct a; [|simpl in Hn; lia]. exists [].
    cbn [app]. change (h :: w ++ c :: b) with ((h :: w) ++ c :: b).
    rewrite re_sub_fence_copy_all.
    + rewrite (re_sub_fence_other _ _ Hc). reflexivity.
    + unfold safe_word in Hsafe. apply andb_true_iff in Hsafe. apply Hsafe.
  - destruct a as [|x a1]; [apply (IH []); simpl; lia|].
    cbn [app length] in *.
    destruct (startswith fence (x :: a1 ++ h :: w ++ c :: b)) eqn:E.
    + apply startswith_fence_cons in E. destruct E as [-> [s3 E]].
      destruct a1 as [|y a2]; [cbn in E; congruence|].
      destruct a2 as [|z a3]; [cbn in E; congruence|].
      cbn [app] in E. injection E as -> -> <-.
      cbn [app]. rewrite re_sub_fence_skip. cbn [length] in Hn.
      destruct a3 as [|p1 [|p2 [|p3 a6]]].
      * cbn [app]. rewrite (after_fence_keep_1 _ _ Hs).
        apply (IH []). simpl. lia.
      * cbn [app]. rewrite (after_fence_keep_2 _ _ _ Hq).
        apply (IH [p1]). simpl. lia.
      * cbn [app]. rewrite (after_fence_keep_3 _ _ _ _ Hl).
        apply (IH [p1; p2]). simpl. lia.
      * cbn [app]. unfold after_fence.
        destruct (imatch "s" p1 && imatch "q" p2 && imatch "l" p3).
        -- apply (IH a6). simpl in Hn. lia.
        -- apply (IH (p1 :: p2 :: p3 :: a6)). simpl in *. lia.
    + rewrite (re_sub_fence_copy _ _ E).
      destruct (IH a1 ltac:(lia)) as [a' Ha'].
      exists (x :: a'). cbn [app] in *. rewrite Ha'. reflexivity.
Qed.

(** The word and the character after it come through [strip]. *)
Lemma strip_keeps (a b : str) :
  isspace c = false ->
  exists a' b', strip (a ++ (h :: w) ++ c :: b) = a' ++ (h :: w) ++ c :: b'.
Proof.
  intros Hsp. destruct safe_head as [_ [_ [_ [Hh _]]]].
  unfold strip, lstrip, rstrip. cbn [app].
  rewrite (drop_while_app_stop isspace a h _ Hh).
  exists (drop_while isspace a), (rdrop_while isspace b).
  change (drop_while isspace a ++ h :: w ++ c :: b)
    with (drop_while isspace a ++ (h :: w) ++ c :: b).
  rewrite app_assoc, (rdrop_while_keep isspace _ _ _ Hsp), <- app_assoc.
  reflexivity.
Qed.

(** The word and the character after it come through the whole clean-up,
    when that character is not whitespace and not a semicolon. *)
Lemma normalize_keeps (a b : str) :
  isspace c = false -> c <> ";"%char ->
  exists a' b', normalize (a ++ (h :: w) ++ c :: b) = a' ++ (h :: w) ++ c :: b'.
Proof.
  intros Hsp Hsemi. unfold normalize.
  destruct (re_sub_fence_keeps_upto (length a) a b (le_n _)) as [a1 ->].
  destruct (strip_keeps a1 (re_sub_fence b) Hsp) as [a2 [b2 ->]].
  exists a2, (rdrop_while (ascii_eqb ";") b2).
  unfold rstrip_char. rewrite app_assoc, rdrop_while_keep, <- app_assoc.
  - reflexivity.
  - apply ascii_eqb_neq. congruence.
Qed.

End Survival.

(** ** Rejection of the forbidden keywords *)

Lemma rejected_in_normalized (s cmd : str) :
  In cmd forbidden -> substring cmd (lower (normalize s)) ->
  exists e, _sanitize_sql s = raise e /\ InvalidQueryKind e.
Proof.
  intros Hin Hsub. rewrite sanitize_unfold.
  destruct (check_sql (normalize s)) as [r|e] eqn:E.
  - apply check_sql_ok in E. destruct E as [_ [_ Hforb]].
    exfalso. exact (Hforb cmd Hin Hsub).
  - exists e. split; [reflexivity | exact (check_sql_raise _ _ E)].
Qed.

Lemma normalized_keeps_forbidden (cmd a w b : str) (c : ascii) :
  In cmd forbidden -> lower w = cmd ->
  isspace c = false -> c <> ";"%char -> c <> backtick ->
  substring cmd (lower (normalize (a ++ w ++ c :: b))).
Proof.
  intros Hin Hw Hsp Hsemi Hbt.
  assert (safe_word w = true) as Hsafe.
  { apply safe_word_lower. rewrite Hw. exact (forbidden_safe cmd Hin). }
  destruct w as [|h w]; [discriminate Hsafe|].
  destruct (normalize_keeps h w c Hsafe Hbt a b Hsp Hsemi) as [a' [b' ->]].
  rewrite <- Hw. apply substring_lower.
  exists a', (c :: b'). reflexivity.
Qed.

(** C4, as stated, fails: a keyword followed by a tab passes, and so does a
    keyword followed by a space that the trimming removes. *)
Lemma sanitize_sql_accepts_keyword_before_whitespace :
  isspace tab = true
  /\ substring (lit "drop" ++ [tab]) (lower drop_after_tab)
  /\ _sanitize_sql drop_after_tab = ok drop_after_tab
  /\ substring (lit "delete ") (lower (lit "select delete "))
  /\ _sanitize_sql (lit "select delete ") = ok (lit "select delete").
Proof.
  split; [reflexivity|].
  split; [apply contains_spec; reflexivity|].
  split; [reflexivity|].
  split; [apply contains_spec; reflexivity | reflexivity].
Qed.

(** C4 (amended): [_sanitize_sql] fails with one of its two [ValueError]s
    on every input whose cleaned-up text contains, in any case, one of the
    seven keywords followed by a space; this holds in particular for every
    input that contains such a keyword, a space, and then a character that
    is not whitespace, a semicolon or a backtick. *)
Theorem sanitize_sql_rejects_forbidden (s cmd : str) :
  In cmd forbidden ->
  (substring cmd (lower (normalize s))
   \/ exists a w c b,
        s = a ++ w ++ c :: b /\ lower w = cmd
        /\ isspace c = false /\ c <> ";"%char /\ c <> backtick) ->
  exists e, _sanitize_sql s = raise e /\ InvalidQueryKind e.
Proof.
  intros Hin [Hsub | [a [w [c [b [-> [Hw [Hsp [Hsemi Hbt]]]]]]]]].
  - exact (rejected_in_normalized s cmd Hin Hsub).
  - apply (rejected_in_normalized _ cmd Hin).
    apply normalized_keeps_forbidden; assumption.
Qed.

Lemma sanitize_sql_rejects_forbidden_witness :
  exists e, _sanitize_sql (lit "SELECT 1; DROP TABLE sales_metrics") = raise e
            /\ InvalidQueryKind e.
Proof.
  apply (sanitize_sql_rejects_forbidden
           (lit "SELECT 1; DROP TABLE sales_metrics") (lit "drop ")).
  - unfold forbidden. cbn [In]. tauto.
  - right. exists (lit "SELECT 1; "), (lit "DROP "), "T"%char, (lit "ABLE sales_metrics").
    repeat split; try reflexivity; discriminate.
Defined.

(** ** Running the stages *)

Lemma bind_ok {A B} (m : M A) (k : A -> M B) (st st' : state) (a : A) :
  m st = (ok a, st') -> (m ≫= k) st = k a st'.
Proof. intros H. unfold mbind, M_bind, bind. rewrite H. reflexivity. Qed.

Lemma bind_raise {A B} (m : M A) (k : A -> M B) (st st' : state) (e : exn) :
  m st = (raise e, st') -> (m ≫= k) st = (raise e, st').
Proof. intros H. unfold mbind, M_bind, bind. rewrite H. reflexivity. Qed.

Lemma generate_sql_run (env : Env) (q : str) (st : state) :
  generate_sql env q st = (generated env q, logged (EvComplete (sql_prompt q)) st).
Proof.
  unfold generate_sql, generated, mbind, M_bind, bind, log, call.
  destruct (llm_run env (sql_prompt q)) as [raw|e]; [|reflexivity].
  destruct (_sanitize_sql (strip raw)); reflexivity.
Qed.

Lemma execute_query_ok (env : Env) (sql : str) (df : DataFrame) (st : state) :
  read_sql env sql = ok df ->
  execute_query env sql st
  = (ok (next (logged (EvExecute sql) st)),
     with_next (S (next st)) (with_object (next st) df (logged (EvExecute sql) st))).
Proof.
  intros H. unfold execute_query, try_except, mbind, M_bind, bind, log, call, alloc.
  rewrite H. reflexivity.
Qed.

Lemma execute_query_raise (env : Env) (sql : str) (e : exn) (st : state) :
  read_sql env sql = raise e ->
  execute_query env sql st
  = (raise (ValueError (execution_msg e sql)), logged (EvExecute sql) st).
Proof.
  intros H. unfold execute_query, try_except, mbind, M_bind, bind, log, call, throw.
  rewrite H. reflexivity.
Qed.

Lemma generate_answer_run (env : Env) (q sql : str) (data : ref) (df : DataFrame)
    (st : state) :
  heap st !! data = Some df ->
  generate_answer env q data sql st
  = match to_json env df with
    | ok js => (llm_run env (answer_prompt q js sql),
                logged (EvComplete (answer_prompt q js sql)) st)
    | raise e => (raise e, st)
    end.
Proof.
  intros H. unfold generate_answer, mbind, M_bind, bind, deref, log, call.
  rewrite H. destruct (to_json env df) as [js|e]; [|reflexivity].
  destruct (llm_run env (answer_prompt q js sql)); reflexivity.
Qed.

(** ** Objects stay alive *)

Lemma live_logged (r : ref) (ev : event) (st : state) :
  live r st -> live r (logged ev st).
Proof. intros H. exact H. Qed.

Lemma live_with_figures (r : ref) (fs : list figure) (st : state) :
  live r st -> live r (with_figures fs st).
Proof. intros H. exact H. Qed.

Lemma live_with_sql (r : ref) (v : option str) (st : state) :
  live r st -> live r (with_sql v st).
Proof. intros H. exact H. Qed.

Lemma live_with_object (r r' : ref) (df : DataFrame) (st : state) :
  live r st -> live r (with_object r' df st).
Proof.
  intros [[d Hd] Hlt]. split; [|exact Hlt].
  unfold with_object. cbn [heap].
  destruct (decide (r' = r)) as [->|Hne].
  - rewrite lookup_insert_eq. eexists. reflexivity.
  - rewrite lookup_insert_ne by exact Hne. exists d. exact Hd.
Qed.

Lemma live_alloc (r : ref) (df : DataFrame) (st : state) :
  live r st -> live r (with_next (S (next st)) (with_object (next st) df st)).
Proof.
  intros H. pose proof (live_with_object r (next st) df st H) as [Hs Hlt].
  split; [exact Hs|]. cbn in *. lia.
Qed.

Section Keeping.

Variable r : ref.

Lemma keeps_ret {A} (a : A) : keeps r (ret a).
Proof. intros st H. exact H. Qed.

Lemma keeps_mret {A} (a : A) : keeps r (mret a : M A).
Proof. intros st H. exact H. Qed.

Lemma keeps_throw {A} (e : exn) : keeps r (throw e : M A).
Proof. intros st H. exact H. Qed.

Lemma keeps_call {A} (x : result A) : keeps r (call x).
Proof. intros st H. exact H. Qed.

Lemma keeps_log (ev : event) : keeps r (log ev).
Proof. intros st H. exact (live_logged _ _ _ H). Qed.

Lemma keeps_print (line : str) : keeps r (print line).
Proof. apply keeps_log. Qed.

Lemma keeps_get_figures : keeps r get_figures.
Proof. intros st H. exact H. Qed.

Lemma keeps_set_figures (fs : list figure) : keeps r (set_figures fs).
Proof. intros st H. exact (live_with_figures _ _ _ H). Qed.

Lemma keeps_alloc (df : DataFrame) : keeps r (alloc df).
Proof. intros st H. exact (live_alloc _ _ _ H). Qed.

Lemma keeps_deref (r' : ref) : keeps r (deref r').
Proof. intros st H. unfold deref. destruct (heap st !! r'); exact H. Qed.

Lemma keeps_mutate (r' : ref) (f : DataFrame -> DataFrame) : keeps r (mutate r' f).
Proof.
  intros st H. unfold mutate. destruct (heap st !! r'); [|exact H].
  exact (live_with_object _ _ _ _ H).
Qed.

Lemma keeps_bind {A B} (m : M A) (k : A -> M B) :
  keeps r m -> (forall a, keeps r (k a)) -> keeps r (m ≫= k).
Proof.
  intros Hm Hk st H. unfold mbind, M_bind, bind.
  specialize (Hm st H). destruct (m st) as [[a|e] st']; cbn [snd] in *.
  - exact (Hk a st' Hm).
  - exact Hm.
Qed.

Lemma keeps_try_except {A} (m : M A) (h : exn -> M A) :
  keeps r m -> (forall e, keeps r (h e)) -> keeps r (try_except m h).
Proof.
  intros Hm Hh st H. unfold try_except.
  specialize (Hm st H). destruct (m st) as [[a|e] st']; cbn [snd] in *.
  - exact Hm.
  - exact (Hh e st' Hm).
Qed.

Lemma keeps_try_finally {A} (m : M A) (f : M unit) :
  keeps r m -> keeps r f -> keeps r (try_finally m f).
Proof.
  intros Hm Hf st H. unfold try_finally.
  specialize (Hm st H). destruct (m st) as [x st']; cbn [snd] in *.
  specialize (Hf st' Hm). destruct (f st') as [[u|e] st'']; exact Hf.
Qed.

End Keeping.

Create HintDb keeps.

#[local] Hint Resolve keeps_ret keeps_mret keeps_throw keeps_call keeps_log
  keeps_print keeps_get_figures keeps_set_figures keeps_alloc keeps_deref
  keeps_mutate : keeps.

Ltac keeps_step :=
  first
    [ apply keeps_bind; [|intros ?]
    | apply keeps_try_except; [|intros ?]
    | apply keeps_try_finally
    | match goal with
      | |- keeps _ (if ?b then _ else _) => destruct b
      | |- keeps _ (match ?x with _ => _ end) => destruct x
      end
    | solve [auto with keeps] ].

Ltac keeps_all := repeat keeps_step.

Lemma keeps_generate_visualization (env : Env) (q : str) (data r : ref) :
  keeps r (generate_visualization env q data).
Proof.
  unfold generate_visualization, plt_figure, plt_savefig, plt_close, data_plot,
    getitem.
  keeps_all.
Qed.

(** ** The visualizer cannot raise *)

Lemma total_try_finally_except {A} (m : M A) (h : exn -> M A) (f : M unit) :
  (forall e, total (h e)) -> total f -> total (try_finally (try_except m h) f).
Proof.
  intros Hh Hf st. unfold try_finally, try_except.
  destruct (m st) as [[a|e] st1].
  - destruct (Hf st1) as [u [st2 ->]]. eexists _, _. reflexivity.
  - destruct (Hh e st1) as [a [st2 ->]].
    destruct (Hf st2) as [u [st3 ->]]. eexists _, _. reflexivity.
Qed.

Lemma total_plt_close : total plt_close.
Proof. intros st. eexists _, _. reflexivity. Qed.

Lemma generate_visualization_total (env : Env) (q : str) (data : ref) (st : state) :
  is_Some (heap st !! data) ->
  exists v st', generate_visualization env q data st = (ok v, st').
Proof.
  intros [df Hdf]. unfold generate_visualization.
  rewrite (bind_ok _ _ st st df) by (unfold deref; rewrite Hdf; reflexivity).
  destruct (empty df); [eexists _, _; reflexivity|].
  rewrite (bind_ok _ _ st _ tt) by reflexivity.
  apply total_try_finally_except.
  - intros e st1. eexists _, _. reflexivity.
  - apply total_plt_close.
Qed.

Lemma generate_visualization_live (env : Env) (q : str) (data : ref) (st : state) :
  live data st ->
  exists v st', generate_visualization env q data st = (ok v, st') /\ live data st'.
Proof.
  intros H. destruct (generate_visualization_total env q data st (proj1 H))
    as [v [st' Hrun]].
  exists v, st'. split; [exact Hrun|].
  pose proof (keeps_generate_visualization env q data data st H) as Hk.
  rewrite Hrun in Hk. exact Hk.
Qed.

(** ** The orchestrator, stage by stage *)

Lemma query_generation_fails (env : Env) (q : str) (st : state) (e : exn) :
  generated env q = raise e ->
  query env q st
  = (ok (failure_response q (exn_str e) None),
     logged (EvComplete (sql_prompt q)) (with_sql None st)).
Proof.
  intros H. unfold query, try_except.
  rewrite (bind_ok _ _ st (with_sql None st) tt) by reflexivity.
  rewrite (bind_raise _ _ _ _ e) by (rewrite generate_sql_run, H; reflexivity).
  reflexivity.
Qed.

Lemma query_execution_fails (env : Env) (q sql : str) (st : state) (e : exn) :
  generated env q = ok sql ->
  read_sql env sql = raise e ->
  query env q st
  = (ok (failure_response q (execution_msg e sql) (Some sql)),
     logged (EvExecute sql) (at_execution q sql st)).
Proof.
  intros Hg Hr. unfold query, try_except.
  rewrite (bind_ok _ _ st (with_sql None st) tt) by reflexivity.
  rewrite (bind_ok _ _ _ _ sql) by (rewrite generate_sql_run, Hg; reflexivity).
  rewrite (bind_ok _ _ _ _ tt) by reflexivity.
  rewrite (bind_ok _ _ _ _ tt) by reflexivity.
  rewrite (bind_raise _ _ _ _ (ValueError (execution_msg e sql)))
    by (apply execute_query_raise; exact Hr).
  reflexivity.
Qed.

Lemma at_synthesis_lookup (q sql : str) (df : DataFrame) (st : state) :
  heap (at_synthesis q sql df st) !! next st = Some df.
Proof. unfold at_synthesis. cbn. apply lookup_insert_eq. Qed.

Lemma at_synthesis_live (q sql : str) (df : DataFrame) (st : state) :
  live (next st) (at_synthesis q sql df st).
Proof.
  split.
  - rewrite at_synthesis_lookup. eexists. reflexivity.
  - cbn. lia.
Qed.

Lemma query_synthesis_fails (env : Env) (q sql : str) (df : DataFrame)
    (st st' : state) (e : exn) :
  generated env q = ok sql ->
  read_sql env sql = ok df ->
  generate_answer env q (next st) sql (at_synthesis q sql df st) = (raise e, st') ->
  query env q st = (ok (failure_response q (exn_str e) (Some sql)), st').
Proof.
  intros Hg Hr Ha. unfold query, try_except.
  rewrite (bind_ok _ _ st (with_sql None st) tt) by reflexivity.
  rewrite (bind_ok _ _ _ _ sql) by (rewrite generate_sql_run, Hg; reflexivity).
  rewrite (bind_ok _ _ _ _ tt) by reflexivity.
  rewrite (bind_ok _ _ _ _ tt) by reflexivity.
  rewrite (bind_ok _ _ _ _ (next st)) by (apply execute_query_ok; exact Hr).
  fold (at_execution q sql st). fold (at_synthesis q sql df st).
  rewrite (bind_raise _ _ _ _ e) by exact Ha.
  pose proof (generate_answer_run env q sql (next st) df _
                (at_synthesis_lookup q sql df st)) as Hrun.
  rewrite Ha in Hrun. f_equal.
  destruct (to_json env df) as [js|e'].
  - injection Hrun as _ ->. reflexivity.
  - injection Hrun as _ ->. reflexivity.
Qed.

Lemma query_succeeds (env : Env) (q sql answer : str) (df : DataFrame)
    (st st5 : state) :
  generated env q = ok sql ->
  read_sql env sql = ok df ->
  generate_answer env q (next st) sql (at_synthesis q sql df st) = (ok answer, st5) ->
  exists v st6 df',
    generate_visualization env q (next st) st5 = (ok v, st6)
    /\ heap st6 !! next st = Some df'
    /\ query env q st = (ok (Success answer (to_dict df') v sql), st6).
Proof.
  intros Hg Hr Ha.
  assert (live (next st) st5) as Hlive.
  { pose proof (generate_answer_run env q sql (next st) df _
                  (at_synthesis_lookup q sql df st)) as Hrun.
    rewrite Ha in Hrun. pose proof (at_synthesis_live q sql df st) as Hl.
    destruct (to_json env df) as [js|e'].
    - injection Hrun as _ ->. exact Hl.
    - discriminate Hrun. }
  destruct (generate_visualization_live env q (next st) st5 Hlive)
    as [v [st6 [Hv [[df' Hdf'] Hlt]]]].
  exists v, st6, df'. split; [exact Hv|]. split; [exact Hdf'|].
  unfold query, try_except.
  rewrite (bind_ok _ _ st (with_sql None st) tt) by reflexivity.
  rewrite (bind_ok _ _ _ _ sql) by (rewrite generate_sql_run, Hg; reflexivity).
  rewrite (bind_ok _ _ _ _ tt) by reflexivity.
  rewrite (bind_ok _ _ _ _ tt) by reflexivity.
  rewrite (bind_ok _ _ _ _ (next st)) by (apply execute_query_ok; exact Hr).
  fold (at_execution q sql st). fold (at_synthesis q sql df st).
  rewrite (bind_ok _ _ _ _ answer) by exact Ha.
  rewrite (bind_ok _ _ _ _ v) by exact Hv.
  rewrite (bind_ok _ _ _ _ df') by (unfold deref; rewrite Hdf'; reflexivity).
  reflexivity.
Qed.

Lemma completion_with_delete_rejected (raw a w b : str) (c : ascii) :
  raw = a ++ w ++ c :: b -> lower w = lit "delete " ->
  isspace c = false -> c <> ";"%char -> c <> backtick ->
  exists e, _sanitize_sql (strip raw) = raise e /\ InvalidQueryKind e.
Proof.
  intros -> Hw Hsp Hsemi Hbt.
  assert (In (lit "delete ") forbidden) as Hin.
  { unfold forbidden. cbn [In]. tauto. }
  assert (safe_word w = true) as Hsafe.
  { apply safe_word_lower. rewrite Hw. reflexivity. }
  destruct w as [|h w]; [discriminate Hsafe|].
  destruct (strip_keeps h w c Hsafe a b Hsp) as [a' [b' ->]].
  apply (rejected_in_normalized _ _ Hin).
  apply normalized_keeps_forbidden; assumption.
Qed.

Lemma answer_failure_trace (env : Env) (q sql : str) (df : DataFrame)
    (st st' : state) (e : exn) :
  generate_answer env q (next st) sql (at_synthesis q sql df st) = (raise e, st') ->
  exists evs, trace st' = trace st ++ evs /\ existsb is_render evs = false.
Proof.
  intros Ha.
  pose proof (generate_answer_run env q sql (next st) df _
                (at_synthesis_lookup q sql df st)) as Hrun.
  rewrite Ha in Hrun.
  destruct (to_json env df) as [js|e'].
  - injection Hrun as _ ->.
    exists [EvComplete (sql_prompt q); EvPrint (lit "Generated SQL: " ++ sql);
            EvExecute sql; EvComplete (answer_prompt q js sql)].
    split; [|reflexivity]. cbn [trace at_synthesis at_execution logged with_next
      with_object with_sql]. rewrite <- !app_assoc. reflexivity.
  - injection Hrun as _ ->.
    exists [EvComplete (sql_prompt q); EvPrint (lit "Generated SQL: " ++ sql);
            EvExecute sql].
    split; [|reflexivity]. cbn [trace at_synthesis at_execution logged with_next
      with_object with_sql]. rewrite <- !app_assoc. reflexivity.
Qed.

Lemma answer_failure_run (env : Env) (q sql : str) (df : DataFrame) (st : state)
    (e : exn) :
  (to_json env df = raise e
   \/ exists js, to_json env df = ok js
                 /\ llm_run env (answer_prompt q js sql) = raise e) ->
  exists st',
    generate_answer env q (next st) sql (at_synthesis q sql df st) = (raise e, st').
Proof.
  intros H.
  rewrite (generate_answer_run env q sql (next st) df _
             (at_synthesis_lookup q sql df st)).
  destruct H as [-> | [js [-> ->]]]; eexists; reflexivity.
Qed.

(** C2, as stated, fails: a completion that contains [delete ] is executed
    when the space is the last character, which the trimming removes. *)
Lemma query_executes_trimmed_delete :
  llm_run (Fake.env (lit "select delete ") Fake.ad_table)
          (sql_prompt (lit "Delete all sales records")) = ok (lit "select delete ")
  /\ substring (lit "delete ") (lit "select delete ")
  /\ existsb is_execute
       (trace (snd (query (Fake.env (lit "select delete ") Fake.ad_table)
                          (lit "Delete all sales records") Fake.init))) = true
  /\ exists answer data viz,
       fst (query (Fake.env (lit "select delete ") Fake.ad_table)
                  (lit "Delete all sales records") Fake.init)
       = ok (Success answer data viz (lit "select delete")).
Proof.
  split; [vm_compute; reflexivity|].
  split; [apply contains_spec; reflexivity|].
  split; [vm_compute; reflexivity|].
  eexists _, _, _. vm_compute. reflexivity.
Qed.

(** C2 (amended): when the completion, once trimmed, fails validation - in
    particular when it contains DELETE in any case, a space, and then a
    character that is not whitespace, a semicolon or a backtick - [query]
    returns a failure whose error is one of the validator's two
    [ValueError]s, with no SQL, and the only call made is the completion:
    the store is not queried, no answer is synthesized, nothing is drawn.
    When the store raises, the calls stop at the execution; when the answer
    synthesis raises, nothing is drawn. *)
Theorem query_short_circuits (env : Env) (q : str) (st : state) :
  (forall raw,
     llm_run env (sql_prompt q) = ok raw ->
     ((exists e, _sanitize_sql (strip raw) = raise e)
      \/ exists a w c b,
           raw = a ++ w ++ c :: b /\ lower w = lit "delete "
           /\ isspace c = false /\ c <> ";"%char /\ c <> backtick) ->
     exists e st',
       InvalidQueryKind e
       /\ query env q st
          = (ok (Failure (exn_str e) (_get_suggestion q (exn_str e)) None), st')
       /\ trace st' = trace st ++ [EvComplete (sql_prompt q)])
  /\ (forall sql e,
        generated env q = ok sql -> read_sql env sql = raise e ->
        exists st',
          query env q st
          = (ok (Failure (execution_msg e sql)
                         (_get_suggestion q (execution_msg e sql)) (Some sql)), st')
          /\ trace st' = trace st ++ [EvComplete (sql_prompt q);
                                      EvPrint (lit "Generated SQL: " ++ sql);
                                      EvExecute sql])
  /\ (forall sql df e,
        generated env q = ok sql -> read_sql env sql = ok df ->
        (to_json env df = raise e
         \/ exists js, to_json env df = ok js
                       /\ llm_run env (answer_prompt q js sql) = raise e) ->
        exists st' evs,
          query env q st
          = (ok (Failure (exn_str e) (_get_suggestion q (exn_str e)) (Some sql)), st')
          /\ trace st' = trace st ++ evs /\ existsb is_render evs = false).
Proof.
  split; [|split].
  - intros raw Hraw Hfail.
    assert (exists e, _sanitize_sql (strip raw) = raise e /\ InvalidQueryKind e)
      as [e [He Hkind]].
    { destruct Hfail as [[e He] | [a [w [c [b [Hr [Hw [Hsp [Hsemi Hbt]]]]]]]]].
      - exists e. split; [exact He|].
        rewrite sanitize_unfold in He. exact (check_sql_raise _ _ He).
      - exact (completion_with_delete_rejected raw a w b c Hr Hw Hsp Hsemi Hbt). }
    exists e, (logged (EvComplete (sql_prompt q)) (with_sql None st)).
    split; [exact Hkind|]. split; [|reflexivity].
    apply query_generation_fails. unfold generated. rewrite Hraw. exact He.
  - intros sql e Hg Hr. eexists. split.
    + exact (query_execution_fails env q sql st e Hg Hr).
    + cbn [trace at_execution logged with_sql]. rewrite <- !app_assoc. reflexivity.
  - intros sql df e Hg Hr Ha.
    destruct (answer_failure_run env q sql df st e Ha) as [st' Hrun].
    destruct (answer_failure_trace env q sql df st st' e Hrun) as [evs [Ht Hev]].
    exists st', evs. split; [|split; assumption].
    exact (query_synthesis_fails env q sql df st st' e Hg Hr Hrun).
Qed.

Lemma query_short_circuits_witness :
  exists e st',
    InvalidQueryKind e
    /\ query (Fake.env (lit "DELETE FROM sales_metrics") Fake.ad_table)
             (lit "Delete all sales records") Fake.init
       = (ok (Failure (exn_str e)
                      (_get_suggestion (lit "Delete all sales records") (exn_str e))
                      None), st')
    /\ trace st' = trace Fake.init
                   ++ [EvComplete (sql_prompt (lit "Delete all sales records"))].
Proof.
  apply (proj1 (query_short_circuits
                  (Fake.env (lit "DELETE FROM sales_metrics") Fake.ad_table)
                  (lit "Delete all sales records") Fake.init)
               (lit "DELETE FROM sales_metrics")).
  - vm_compute. reflexivity.
  - right. exists [], (lit "DELETE "), "F"%char, (lit "ROM sales_metrics").
    repeat split; try reflexivity; discriminate.
Defined.

(** C3: [query] always returns a response and never raises, and every
    failure of a component is answered by a failure.  When SQL generation
    fails - the completion raises or the validator rejects its text - the
    response is a failure with the text of the exception, the suggestion
    for that text, and no SQL.  When generation succeeds the response is a
    success or a failure with an error text, the suggestion for it, and the
    generated SQL.  A failure of the store is reported with the message of
    [execute_query]; a failure of the answer synthesis - the JSON encoding
    of the rows or the completion - with the text of its exception.  A
    success is returned only when generation, execution and synthesis have
    all succeeded, and it carries their SQL and their answer. *)
Theorem query_always_responds (env : Env) (q : str) (st : state) :
  exists resp st',
    query env q st = (ok resp, st')
    /\ (forall e, generated env q = raise e ->
          resp = Failure (exn_str e) (_get_suggestion q (exn_str e)) None)
    /\ (forall sql, generated env q = ok sql ->
          (exists answer data viz, resp = Success answer data viz sql)
          \/ exists err, resp = Failure err (_get_suggestion q err) (Some sql))
    /\ (forall sql e, generated env q = ok sql -> read_sql env sql = raise e ->
          resp = Failure (execution_msg e sql)
                         (_get_suggestion q (execution_msg e sql)) (Some sql))
    /\ (forall sql df e,
          generated env q = ok sql -> read_sql env sql = ok df ->
          (to_json env df = raise e
           \/ exists js, to_json env df = ok js
                         /\ llm_run env (answer_prompt q js sql) = raise e) ->
          resp = Failure (exn_str e) (_get_suggestion q (exn_str e)) (Some sql))
    /\ (forall answer data viz sql,
          resp = Success answer data viz sql ->
          generated env q = ok sql
          /\ exists df js,
               read_sql env sql = ok df /\ to_json env df = ok js
               /\ llm_run env (answer_prompt q js sql) = ok answer).
Proof.
  destruct (generated env q) as [sql|e] eqn:Hg.
  - destruct (read_sql env sql) as [df|e] eqn:Hr.
    + pose proof (generate_answer_run env q sql (next st) df _
                    (at_synthesis_lookup q sql df st)) as Hrun.
      destruct (to_json env df) as [js|e] eqn:Hj.
      * destruct (llm_run env (answer_prompt q js sql)) as [answer|e] eqn:Hl.
        -- destruct (query_succeeds env q sql answer df st _ Hg Hr Hrun)
             as [v [st6 [df' [_ [_ Hq]]]]].
           eexists _, _. split; [exact Hq|]. split; [discriminate|]. split.
           { intros sql' H. injection H as <-. left. eexists _, _, _. reflexivity. }
           split.
           { intros sql' e' H. injection H as <-. rewrite Hr. discriminate. }
           split.
           { intros sql' df0 e' H. injection H as <-. rewrite Hr.
             intros H. injection H as <-. rewrite Hj.
             intros [H | [js' [H1 H2]]]; [discriminate H|].
             injection H1 as <-. rewrite Hl in H2. discriminate H2. }
           intros answer' data' viz' sql' H. injection H as <- _ _ <-.
           split; [reflexivity|]. exists df, js.
           split; [exact Hr|]. split; [exact Hj | exact Hl].
        -- eexists _, _.
           split; [exact (query_synthesis_fails env q sql df st _ e Hg Hr Hrun)|].
           split; [discriminate|]. split.
           { intros sql' H. injection H as <-. right. eexists. reflexivity. }
           split.
           { intros sql' e' H. injection H as <-. rewrite Hr. discriminate. }
           split.
           { intros sql' df0 e' H. injection H as <-. rewrite Hr.
             intros H. injection H as <-. rewrite Hj.
             intros [H | [js' [H1 H2]]]; [discriminate H|].
             injection H1 as <-. rewrite Hl in H2. injection H2 as <-.
             reflexivity. }
           intros answer' data' viz' sql' H. discriminate H.
      * eexists _, _.
        split; [exact (query_synthesis_fails env q sql df st _ e Hg Hr Hrun)|].
        split; [discriminate|]. split.
        { intros sql' H. injection H as <-. right. eexists. reflexivity. }
        split.
        { intros sql' e' H. injection H as <-. rewrite Hr. discriminate. }
        split.
        { intros sql' df0 e' H. injection H as <-. rewrite Hr.
          intros H. injection H as <-. rewrite Hj.
          intros [H | [js' [H1 _]]]; [|discriminate H1].
          injection H as <-. reflexivity. }
        intros answer' data' viz' sql' H. discriminate H.
    + eexists _, _. split; [exact (query_execution_fails env q sql st e Hg Hr)|].
      split; [discriminate|]. split.
      { intros sql' H. injection H as <-. right. eexists. reflexivity. }
      split.
      { intros sql' e' H. injection H as <-. rewrite Hr.
        intros H. injection H as <-. reflexivity. }
      split.
      { intros sql' df0 e' H. injection H as <-. rewrite Hr. discriminate. }
      intros answer' data' viz' sql' H. discriminate H.
  - eexists _, _. split; [exact (query_generation_fails env q st e Hg)|].
    split; [|split; [|split; [|split]]].
    + intros e' H. injection H as <-. reflexivity.
    + discriminate.
    + discriminate.
    + discriminate.
    + intros answer' data' viz' sql' H. discriminate H.
Qed.

(** ** Suggestions *)

(** C8: the suggestion is one of four fixed texts, chosen by what the
    lower-cased error message contains, in this order: [no such table]
    gives the text naming the three tables; otherwise [no such column]
    gives the text listing columns; otherwise [select] gives the example
    phrasings; every other message gives the generic text. *)
Theorem get_suggestion_mapping (question error : str) :
  (substring (lit "no such table") (lower error) ->
     _get_suggestion question error = table_suggestion)
  /\ (~ substring (lit "no such table") (lower error) ->
      substring (lit "no such column") (lower error) ->
     _get_suggestion question error = column_suggestion)
  /\ (~ substring (lit "no such table") (lower error) ->
      ~ substring (lit "no such column") (lower error) ->
      substring (lit "select") (lower error) ->
     _get_suggestion question error = select_suggestion)
  /\ (~ substring (lit "no such table") (lower error) ->
      ~ substring (lit "no such column") (lower error) ->
      ~ substring (lit "select") (lower error) ->
     _get_suggestion question error = generic_suggestion)
  /\ In (_get_suggestion question error)
        [table_suggestion; column_suggestion; select_suggestion; generic_suggestion]
  /\ (substring (lit "sales_metrics") table_suggestion
      /\ substring (lit "ad_metrics") table_suggestion
      /\ substring (lit "product_eligibility") table_suggestion).
Proof.
  unfold _get_suggestion.
  rewrite <- !contains_false, <- !contains_spec.
  destruct (contains (lit "no such table") (lower error));
    destruct (contains (lit "no such column") (lower error));
    destruct (contains (lit "select") (lower error));
    (repeat split; try congruence; try (cbn [In]; tauto); reflexivity).
Qed.

Lemma get_suggestion_mapping_witness :
  _get_suggestion (lit "total sales of item 9")
    (execution_msg (OtherError (lit "(sqlite3.OperationalError) no such table: sales"))
                   (lit "SELECT total_sales FROM sales"))
  = table_suggestion.
Proof.
  apply (proj1 (get_suggestion_mapping (lit "total sales of item 9")
    (execution_msg (OtherError (lit "(sqlite3.OperationalError) no such table: sales"))
                   (lit "SELECT total_sales FROM sales")))).
  apply contains_spec. vm_compute. reflexivity.
Defined.

(** C10: the suggestion does not depend on the question. *)
Theorem get_suggestion_ignores_question (q1 q2 error : str) :
  _get_suggestion q1 error = _get_suggestion q2 error.
Proof. reflexivity. Qed.

(** ** The visualizer *)

Lemma generate_visualization_empty (env : Env) (q : str) (data : ref)
    (df : DataFrame) (st : state) :
  heap st !! data = Some df -> empty df = true ->
  generate_visualization env q data st = (ok None, st).
Proof.
  intros Hdf He. unfold generate_visualization.
  rewrite (bind_ok _ _ st st df) by (unfold deref; rewrite Hdf; reflexivity).
  rewrite He. reflexivity.
Qed.

(** A result set with rows that no chart rule matches is still saved: the
    figure opened before the rules is encoded as it is. *)
Lemma generate_visualization_unmatched (env : Env) (q : str) (data : ref)
    (df : DataFrame) (st : state) :
  heap st !! data = Some df -> empty df = false ->
  has_column (lit "date") df = false ->
  forallb (fun col => has_column col df) roas_columns = false ->
  fst (generate_visualization env q data st)
  = ok (match savefig_b64 env (BlankFigure (Some (10, 5)%Z)) with
        | ok png => Some png
        | raise _ => None
        end).
Proof.
  intros Hdf He Hdate Hroas. unfold generate_visualization.
  rewrite (bind_ok _ _ st st df) by (unfold deref; rewrite Hdf; reflexivity).
  rewrite He.
  rewrite (bind_ok _ _ st _ tt) by reflexivity.
  unfold try_finally, try_except.
  rewrite (bind_ok _ _ _ _ df) by (unfold deref; cbn; rewrite Hdf; reflexivity).
  rewrite Hdate, Hroas.
  unfold plt_savefig, plt_close, mbind, M_bind, bind, mret, M_ret, ret, log,
    get_figures, set_figures, call, print.
  cbn. destruct (savefig_b64 env (BlankFigure (Some (10, 5)%Z))); reflexivity.
Qed.

(** C6: the code departs from the claim on a result set with rows and no
    recognized columns.  For one row with the single column [message], no
    rule matches and the visualizer returns the encoded empty figure, not
    null.  (On an empty result set it returns null:
    [generate_visualization_empty].) *)
Theorem generate_visualization_blank_chart :
  empty Fake.plain_table = false
  /\ has_column (lit "date") Fake.plain_table = false
  /\ forallb (fun col => has_column col Fake.plain_table) roas_columns = false
  /\ fst (generate_visualization
            (Fake.env (lit "SELECT message FROM product_eligibility") Fake.plain_table)
            (lit "Which products are eligible?") 0 (Fake.holding Fake.plain_table))
     = ok (Some Fake.png).
Proof. repeat split; vm_compute; reflexivity. Qed.

(** The ratio column is written into the caller's frame. *)
Lemma generate_visualization_adds_roas (env : Env) (q : str) (data : ref)
    (df : DataFrame) (a b roas : list scalar) (st : state) :
  heap st !! data = Some df -> empty df = false ->
  has_column (lit "date") df = false ->
  forallb (fun col => has_column col df) roas_columns = true ->
  get_column (lit "ad_sales") (columns df) = Some a ->
  get_column (lit "ad_spend") (columns df) = Some b ->
  truediv env a b = ok roas ->
  heap (snd (generate_visualization env q data st)) !! data
  = Some (setitem (lit "ROAS") roas df).
Proof.
  intros Hdf He Hdate Hroas Ha Hb Hdiv. unfold generate_visualization.
  rewrite (bind_ok _ _ st st df) by (unfold deref; rewrite Hdf; reflexivity).
  rewrite He.
  rewrite (bind_ok _ _ st _ tt) by reflexivity.
  unfold try_finally, try_except.
  rewrite (bind_ok _ _ _ _ df) by (unfold deref; cbn; rewrite Hdf; reflexivity).
  rewrite Hdate, Hroas.
  unfold getitem, mutate, deref, data_plot, plt_savefig, plt_close, mbind, M_bind,
    bind, mret, M_ret, ret, throw, log, get_figures, set_figures, call, print.
  cbn -[lit]. rewrite Hdf, Ha. cbn -[lit]. rewrite Hdf, Hb. cbn -[lit].
  rewrite Hdiv. cbn -[lit]. rewrite Hdf. cbn -[lit]. rewrite lookup_insert_eq.
  destruct (plot env _) as [f|e]; cbn -[lit].
  - destruct (savefig_b64 env f); cbn -[lit]; apply lookup_insert_eq.
  - apply lookup_insert_eq.
Qed.

(** The converted dates are written into the caller's frame as well. *)
Lemma generate_visualization_rewrites_date (env : Env) (q : str) (data : ref)
    (df : DataFrame) (col conv : list scalar) (st : state) :
  heap st !! data = Some df -> data < next st -> empty df = false ->
  has_column (lit "date") df = true ->
  get_column (lit "date") (columns df) = Some col ->
  to_datetime env col = ok conv ->
  heap (snd (generate_visualization env q data st)) !! data
  = Some (setitem (lit "date") conv df).
Proof.
  intros Hdf Hlt He Hdate Hcol Hconv. unfold generate_visualization.
  rewrite (bind_ok _ _ st st df) by (unfold deref; rewrite Hdf; reflexivity).
  rewrite He.
  rewrite (bind_ok _ _ st _ tt) by reflexivity.
  unfold try_finally, try_except.
  rewrite (bind_ok _ _ _ _ df) by (unfold deref; cbn; rewrite Hdf; reflexivity).
  rewrite Hdate.
  unfold getitem, mutate, deref, alloc, data_plot, plt_savefig, plt_close, mbind,
    M_bind, bind, mret, M_ret, ret, throw, log, get_figures, set_figures, call, print.
  cbn -[lit]. rewrite Hdf, Hcol. cbn -[lit]. rewrite Hconv. cbn -[lit].
  rewrite Hdf. cbn -[lit]. rewrite lookup_insert_eq.
  assert (forall d : DataFrame,
            <[next st := d]> (<[data := setitem (lit "date") conv df]> (heap st)) !! data
            = Some (setitem (lit "date") conv df)) as Hkeep.
  { intros d. rewrite lookup_insert_ne by lia. apply lookup_insert_eq. }
  destruct (sort_values env _ _) as [sorted|e]; cbn -[lit].
  2:{ apply lookup_insert_eq. }
  rewrite lookup_insert_eq.
  destruct (has_column (lit "total_sales") sorted); cbn -[lit].
  { destruct (plot env _) as [f|e]; cbn -[lit]; [|apply Hkeep].
    destruct (savefig_b64 env f); cbn -[lit]; apply Hkeep. }
  destruct (has_column (lit "ad_sales") sorted); cbn -[lit].
  { destruct (plot env _) as [f|e]; cbn -[lit]; [|apply Hkeep].
    destruct (savefig_b64 env f); cbn -[lit]; apply Hkeep. }
  destruct (savefig_b64 env _); cbn -[lit]; apply Hkeep.
Qed.

Lemma generate_answer_heap (env : Env) (q sql answer : str) (df : DataFrame)
    (st st5 : state) :
  generate_answer env q (next st) sql (at_synthesis q sql df st) = (ok answer, st5) ->
  heap st5 !! next st = Some df.
Proof.
  intros Ha.
  pose proof (generate_answer_run env q sql (next st) df _
                (at_synthesis_lookup q sql df st)) as Hrun.
  rewrite Ha in Hrun. destruct (to_json env df) as [js|e]; [|discriminate Hrun].
  injection Hrun as _ ->. exact (at_synthesis_lookup q sql df st).
Qed.

(** Whatever the capabilities are: when the ratio rule applies and the
    division succeeds, the rows of the response are those of the frame with
    the column [ROAS] set. *)
Lemma query_rows_carry_roas (env : Env) (q sql answer : str) (df : DataFrame)
    (a b roas : list scalar) (st st5 : state) :
  generated env q = ok sql ->
  read_sql env sql = ok df ->
  generate_answer env q (next st) sql (at_synthesis q sql df st) = (ok answer, st5) ->
  empty df = false ->
  has_column (lit "date") df = false ->
  forallb (fun col => has_column col df) roas_columns = true ->
  get_column (lit "ad_sales") (columns df) = Some a ->
  get_column (lit "ad_spend") (columns df) = Some b ->
  truediv env a b = ok roas ->
  exists v st6,
    query env q st
    = (ok (Success answer (to_dict (setitem (lit "ROAS") roas df)) v sql), st6).
Proof.
  intros Hg Hr Ha He Hdate Hroas Hsales Hspend Hdiv.
  destruct (query_succeeds env q sql answer df st st5 Hg Hr Ha)
    as [v [st6 [df' [Hv [Hdf' Hq]]]]].
  pose proof (generate_visualization_adds_roas env q (next st) df a b roas st5
                (generate_answer_heap env q sql answer df st st5 Ha)
                He Hdate Hroas Hsales Hspend Hdiv) as Hmut.
  rewrite Hv in Hmut. cbn [snd] in Hmut. rewrite Hdf' in Hmut.
  injection Hmut as ->. exists v, st6. exact Hq.
Qed.

(** C7: the code departs from the claim.  For the query that returns
    [item_id], [ad_sales] and [ad_spend], the visualizer adds the column
    [ROAS] to the frame [query] holds, and the rows of the response, built
    after that, carry a column the store did not return. *)
Theorem query_returns_mutated_rows :
  read_sql (Fake.env Fake.roas_sql Fake.ad_table) Fake.roas_sql = ok Fake.ad_table
  /\ to_dict Fake.ad_table
     = [[(lit "item_id", VInt 1); (lit "ad_sales", VReal (Finite 10));
         (lit "ad_spend", VReal (Finite 5))]]
  /\ fst (query (Fake.env Fake.roas_sql Fake.ad_table)
                (lit "What is the return on ad spend per item?") Fake.init)
     = ok (Success (lit "Here is what the data shows.")
                   [[(lit "item_id", VInt 1); (lit "ad_sales", VReal (Finite 10));
                     (lit "ad_spend", VReal (Finite 5));
                     (lit "ROAS", VReal (Finite 2))]]
                   (Some Fake.png) Fake.roas_sql).
Proof. repeat split; vm_compute; reflexivity. Qed.

(** * Further properties of the code *)

(** ** The validator, outcome by outcome *)

Lemma drop_while_app_all (p : ascii -> bool) (u v : str) :
  forallb p u = true -> drop_while p (u ++ v) = drop_while p v.
Proof.
  induction u as [|x u IH]; [reflexivity|].
  cbn [forallb app drop_while]. rewrite andb_true_iff. intros [-> Hu]. exact (IH Hu).
Qed.

Lemma begins_with_select_check (t : str) :
  begins_with_select t <-> startswith (lit "select") (lstrip (lower t)) = true.
Proof.
  split; [|apply begins_with_select_of_check].
  intros [ws [kw [rest [-> [Hws Hkw]]]]].
  destruct (select_word kw Hkw) as [k1 [k2 [k3 [k4 [k5 [k6 [Hk [H1 _]]]]]]]].
  rewrite lstrip_lower. unfold lstrip. rewrite (drop_while_app_all _ _ _ Hws).
  rewrite drop_while_id.
  - unfold lower. rewrite map_app. fold (lower kw). rewrite Hkw.
    apply startswith_spec. eexists. reflexivity.
  - intros c r Hc. subst kw. cbn [app] in Hc. injection Hc as <- _.
    rewrite <- isspace_lower_char, H1. reflexivity.
Qed.

(** X1: what [_sanitize_sql] answers is decided by its cleaned-up text.
    It returns that text when it begins with SELECT and holds no keyword
    followed by a space; it raises the not-a-SELECT error, ending in that
    text, when the text does not begin with SELECT (an empty text
    included); it raises the forbidden-operations error, ending in that
    text, when the text begins with SELECT and holds such a keyword. *)
Theorem sanitize_sql_outcome (s : str) :
  (begins_with_select (normalize s) ->
   (forall cmd, In cmd forbidden -> ~ substring cmd (lower (normalize s))) ->
   _sanitize_sql s = ok (normalize s))
  /\ (~ begins_with_select (normalize s) ->
      _sanitize_sql s = raise (ValueError (not_select_msg ++ normalize s)))
  /\ (begins_with_select (normalize s) ->
      (exists cmd, In cmd forbidden /\ substring cmd (lower (normalize s))) ->
      _sanitize_sql s = raise (ValueError (forbidden_msg ++ normalize s))).
Proof.
  rewrite sanitize_unfold. unfold check_sql.
  rewrite begins_with_select_check.
  destruct (startswith (lit "select") (lstrip (lower (normalize s)))) eqn:E;
    cbn [negb].
  - destruct (existsb (fun cmd => contains cmd (lower (normalize s))) forbidden)
      eqn:Ex.
    + split; [|split].
      * intros _ Hnone. apply existsb_exists in Ex. destruct Ex as [cmd [Hin Hc]].
        exfalso. apply (Hnone cmd Hin). apply contains_spec. exact Hc.
      * intros H. exfalso. apply H. reflexivity.
      * reflexivity.
    + split; [reflexivity|]. split.
      * intros H. exfalso. apply H. reflexivity.
      * intros _ [cmd [Hin Hc]]. apply contains_spec in Hc.
        assert (existsb (fun cmd => contains cmd (lower (normalize s))) forbidden
                = true) as Hex.
        { apply existsb_exists. exists cmd. split; assumption. }
        congruence.
  - split; [discriminate|]. split; [reflexivity | discriminate].
Qed.

Lemma sanitize_sql_outcome_witness :
  _sanitize_sql (lit "   ```  ; ")
  = raise (ValueError (not_select_msg ++ normalize (lit "   ```  ; "))).
Proof.
  apply (proj1 (proj2 (sanitize_sql_outcome (lit "   ```  ; ")))).
  rewrite begins_with_select_check. vm_compute. discriminate.
Defined.

(** ** The validator only deletes *)

Lemma after_fence_sublist (s3 : str) : after_fence s3 `sublist_of` s3.
Proof.
  unfold after_fence. destruct s3 as [|x [|y [|z s6]]]; try reflexivity.
  destruct (imatch "s" x && imatch "q" y && imatch "l" z); [|reflexivity].
  apply (sublist_inserts_l [x; y; z]). reflexivity.
Qed.

Lemma re_sub_fence_sublist_upto (n : nat) (s : str) :
  length s <= n -> re_sub_fence s `sublist_of` s.
Proof.
  revert s. induction n as [|n IH]; intros s Hn.
  - destruct s; [reflexivity | simpl in Hn; lia].
  - destruct s as [|c s1]; [reflexivity|].
    destruct (startswith fence (c :: s1)) eqn:E.
    + apply startswith_fence_cons in E. destruct E as [-> [s3 ->]].
      rewrite re_sub_fence_skip.
      apply (sublist_inserts_l [backtick; backtick; backtick]).
      transitivity (after_fence s3); [|apply after_fence_sublist].
      apply IH. pose proof (after_fence_length s3). simpl in Hn. lia.
    + rewrite (re_sub_fence_copy _ _ E). apply sublist_skip.
      apply IH. simpl in Hn. lia.
Qed.

Lemma re_sub_fence_sublist (s : str) : re_sub_fence s `sublist_of` s.
Proof. apply (re_sub_fence_sublist_upto (length s)). lia. Qed.

Lemma strip_substring (t : str) : substring (strip t) t.
Proof.
  destruct (strip_shape t) as [u [v [Ht _]]]. exists u, v. exact Ht.
Qed.

Lemma rstrip_char_substring (x : ascii) (t : str) : substring (rstrip_char x t) t.
Proof.
  unfold rstrip_char. destruct (rdrop_while_split (ascii_eqb x) t) as [v [Hv _]].
  exists [], v. exact Hv.
Qed.

Lemma substring_trans (a b c : str) : substring a b -> substring b c -> substring a c.
Proof.
  intros [u [v ->]] [u' [v' ->]]. exists (u' ++ u), (v ++ v').
  rewrite <- !app_assoc. reflexivity.
Qed.

Lemma substring_sublist (a b : str) : substring a b -> a `sublist_of` b.
Proof.
  intros [u [v ->]]. apply sublist_inserts_l, sublist_inserts_r. reflexivity.
Qed.

Lemma normalize_substring (s : str) : substring (normalize s) (re_sub_fence s).
Proof.
  unfold normalize.
  exact (substring_trans _ _ _ (rstrip_char_substring _ _) (strip_substring _)).
Qed.

(** X2: a validated text is made of characters of the input, in their
    order: the validator only deletes.  When the input holds no code fence
    the validated text is one contiguous piece of it. *)
Theorem sanitize_sql_only_deletes (s r : str) :
  _sanitize_sql s = ok r ->
  r `sublist_of` s /\ (~ substring fence s -> substring r s).
Proof.
  intros H. apply sanitize_ok in H. destruct H as [-> _]. split.
  - transitivity (re_sub_fence s); [|apply re_sub_fence_sublist].
    apply substring_sublist, normalize_substring.
  - intros Hclean. pose proof (normalize_substring s) as Hn.
    rewrite (re_sub_fence_id _ Hclean) in Hn. exact Hn.
Qed.

Lemma sanitize_sql_only_deletes_witness :
  lit "select 1" `sublist_of` lit "``` select 1; ```"
  /\ (~ substring fence (lit "``` select 1; ```") ->
      substring (lit "select 1") (lit "``` select 1; ```")).
Proof.
  apply (sanitize_sql_only_deletes (lit "``` select 1; ```")).
  reflexivity.
Defined.

(** ** The validator and letter case *)

Lemma lower_char_is_backtick (c : ascii) :
  ascii_eqb (lower_char c) backtick = ascii_eqb c backtick.
Proof. each_char c; reflexivity. Qed.










(** ** What each stage leaves on the trace *)

Section Emitting.

Variable P : event -> bool.

Lemma emits_silent {A} (m : M A) :
  (forall st, trace (snd (m st)) = trace st) -> emits P m.
Proof.
  intros H st. exists []. rewrite H, app_nil_r. split; reflexivity.
Qed.

Lemma emits_ret {A} (a : A) : emits P (ret a).
Proof. apply emits_silent. reflexivity. Qed.

Lemma emits_mret {A} (a : A) : emits P (mret a : M A).
Proof. apply emits_silent. reflexivity. Qed.

Lemma emits_throw {A} (e : exn) : emits P (throw e : M A).
Proof. apply emits_silent. reflexivity. Qed.

Lemma emits_call {A} (x : result A) : emits P (call x).
Proof. apply emits_silent. reflexivity. Qed.

Lemma emits_get_figures : emits P get_figures.
Proof. apply emits_silent. reflexivity. Qed.

Lemma emits_set_figures (fs : list figure) : emits P (set_figures fs).
Proof. apply emits_silent. reflexivity. Qed.

Lemma emits_alloc (df : DataFrame) : emits P (alloc df).
Proof. apply emits_silent. reflexivity. Qed.

Lemma emits_deref (r : ref) : emits P (deref r).
Proof.
  apply emits_silent. intros st. unfold deref. destruct (heap st !! r); reflexivity.
Qed.

Lemma emits_mutate (r : ref) (f : DataFrame -> DataFrame) : emits P (mutate r f).
Proof.
  apply emits_silent. intros st. unfold mutate. destruct (heap st !! r); reflexivity.
Qed.

Lemma emits_log (ev : event) : P ev = true -> emits P (log ev).
Proof.
  intros H st. exists [ev]. split; [reflexivity|]. cbn. rewrite H. reflexivity.
Qed.

Lemma emits_then (st st' st'' : state) (evs : list event) :
  trace st' = trace st ++ evs -> forallb P evs = true ->
  (exists evs', trace st'' = trace st' ++ evs' /\ forallb P evs' = true) ->
  exists evs'', trace st'' = trace st ++ evs'' /\ forallb P evs'' = true.
Proof.
  intros H1 H2 [evs' [H3 H4]]. exists (evs ++ evs'). split.
  - rewrite H3, H1, app_assoc. reflexivity.
  - rewrite forallb_app, H2, H4. reflexivity.
Qed.

Lemma emits_bind {A B} (m : M A) (k : A -> M B) :
  emits P m -> (forall a, emits P (k a)) -> emits P (m ≫= k).
Proof.
  intros Hm Hk st. unfold mbind, M_bind, bind.
  destruct (Hm st) as [evs [H1 H2]].
  destruct (m st) as [[a|e] st']; cbn [snd] in *.
  - exact (emits_then _ _ _ _ H1 H2 (Hk a st')).
  - exists evs. split; assumption.
Qed.

Lemma emits_try_except {A} (m : M A) (h : exn -> M A) :
  emits P m -> (forall e, emits P (h e)) -> emits P (try_except m h).
Proof.
  intros Hm Hh st. unfold try_except.
  destruct (Hm st) as [evs [H1 H2]].
  destruct (m st) as [[a|e] st']; cbn [snd] in *.
  - exists evs. split; assumption.
  - exact (emits_then _ _ _ _ H1 H2 (Hh e st')).
Qed.

Lemma emits_try_finally {A} (m : M A) (f : M unit) :
  emits P m -> emits P f -> emits P (try_finally m f).
Proof.
  intros Hm Hf st. unfold try_finally.
  destruct (Hm st) as [evs [H1 H2]].
  destruct (m st) as [x st']; cbn [snd] in *.
  pose proof (emits_then _ _ (snd (f st')) _ H1 H2 (Hf st')) as H.
  destruct (f st') as [[u|e] st'']; exact H.
Qed.

End Emitting.

Create HintDb emits.

#[local] Hint Resolve emits_ret emits_mret emits_throw emits_call emits_get_figures
  emits_set_figures emits_alloc emits_deref emits_mutate : emits.

Ltac emits_step :=
  first
    [ apply emits_bind; [|intros ?]
    | apply emits_try_except; [|intros ?]
    | apply emits_try_finally
    | apply emits_log; reflexivity
    | match goal with
      | |- emits _ (if ?b then _ else _) => destruct b
      | |- emits _ (match ?x with _ => _ end) => destruct x
      end
    | solve [auto with emits] ].

Ltac emits_all := repeat emits_step.

Lemma emits_generate_visualization (env : Env) (q : str) (data : ref) :
  emits is_render_or_print (generate_visualization env q data).
Proof.
  unfold generate_visualization, plt_figure, plt_savefig, plt_close, data_plot,
    getitem, print.
  emits_all.
Qed.

Lemma render_or_print_no_calls (evs : list event) :
  forallb is_render_or_print evs = true ->
  existsb is_execute evs = false /\ existsb is_complete evs = false.
Proof.
  induction evs as [|ev evs IH]; [split; reflexivity|].
  cbn [forallb]. rewrite andb_true_iff. intros [Hev Hall].
  destruct (IH Hall) as [IH1 IH2]. cbn [existsb]. rewrite IH1, IH2.
  destruct ev; try discriminate Hev; split; reflexivity.
Qed.

(** ** What the visualizer does to the objects *)

Lemma frame_of_refl (data : ref) (st : state) : frame_of data st st.
Proof. split; [reflexivity|]. split; [lia|]. intros r _ _. reflexivity. Qed.

Lemma frame_of_trans (data : ref) (st1 st2 st3 : state) :
  frame_of data st1 st2 -> frame_of data st2 st3 -> frame_of data st1 st3.
Proof.
  intros [S1 [N1 H1]] [S2 [N2 H2]]. split; [congruence|]. split; [lia|].
  intros r Hr Hlt. rewrite H2 by (try exact Hr; lia). exact (H1 r Hr Hlt).
Qed.

Section Rewriting.

Variable data : ref.

Lemma rewrites_same {A} (m : M A) :
  (forall st, heap (snd (m st)) = heap st /\ next (snd (m st)) = next st
              /\ sql_var (snd (m st)) = sql_var st) ->
  rewrites_only data m.
Proof.
  intros H st. destruct (H st) as [Hh [Hn Hs]].
  split; [exact Hs|]. split; [lia|]. intros r _ _. rewrite Hh. reflexivity.
Qed.

Lemma rewrites_ret {A} (a : A) : rewrites_only data (ret a).
Proof. intros st. apply frame_of_refl. Qed.

Lemma rewrites_mret {A} (a : A) : rewrites_only data (mret a : M A).
Proof. intros st. apply frame_of_refl. Qed.

Lemma rewrites_throw {A} (e : exn) : rewrites_only data (throw e : M A).
Proof. intros st. apply frame_of_refl. Qed.

Lemma rewrites_call {A} (x : result A) : rewrites_only data (call x).
Proof. intros st. apply frame_of_refl. Qed.

Lemma rewrites_log (ev : event) : rewrites_only data (log ev).
Proof. apply rewrites_same. intros st. repeat split. Qed.

Lemma rewrites_get_figures : rewrites_only data get_figures.
Proof. intros st. apply frame_of_refl. Qed.

Lemma rewrites_set_figures (fs : list figure) : rewrites_only data (set_figures fs).
Proof. apply rewrites_same. intros st. repeat split. Qed.

Lemma rewrites_deref (r : ref) : rewrites_only data (deref r).
Proof.
  intros st. unfold deref. destruct (heap st !! r); apply frame_of_refl.
Qed.

(** A new object takes the next free reference and no other. *)
Lemma rewrites_alloc (df : DataFrame) : rewrites_only data (alloc df).
Proof.
  intros st. unfold alloc. cbn [snd]. split; [reflexivity|].
  split; [cbn; lia|]. intros r _ Hlt. cbn [heap with_next with_object].
  apply lookup_insert_ne. lia.
Qed.

(** The object handed over is the one that may be rewritten. *)
Lemma rewrites_mutate (f : DataFrame -> DataFrame) : rewrites_only data (mutate data f).
Proof.
  intros st. unfold mutate. destruct (heap st !! data); [|apply frame_of_refl].
  cbn [snd]. split; [reflexivity|]. split; [cbn; lia|].
  intros r Hr _. cbn [heap with_object]. apply lookup_insert_ne.
  intros Heq. apply Hr. symmetry. exact Heq.
Qed.

Lemma rewrites_bind {A B} (m : M A) (k : A -> M B) :
  rewrites_only data m -> (forall a, rewrites_only data (k a)) ->
  rewrites_only data (m ≫= k).
Proof.
  intros Hm Hk st. unfold mbind, M_bind, bind.
  specialize (Hm st). destruct (m st) as [[a|e] st']; cbn [snd] in *.
  - exact (frame_of_trans _ _ _ _ Hm (Hk a st')).
  - exact Hm.
Qed.

Lemma rewrites_try_except {A} (m : M A) (h : exn -> M A) :
  rewrites_only data m -> (forall e, rewrites_only data (h e)) ->
  rewrites_only data (try_except m h).
Proof.
  intros Hm Hh st. unfold try_except.
  specialize (Hm st). destruct (m st) as [[a|e] st']; cbn [snd] in *.
  - exact Hm.
  - exact (frame_of_trans _ _ _ _ Hm (Hh e st')).
Qed.

Lemma rewrites_try_finally {A} (m : M A) (f : M unit) :
  rewrites_only data m -> rewrites_only data f ->
  rewrites_only data (try_finally m f).
Proof.
  intros Hm Hf st. unfold try_finally.
  specialize (Hm st). destruct (m st) as [x st']; cbn [snd] in *.
  pose proof (frame_of_trans _ _ _ _ Hm (Hf st')) as H.
  destruct (f st') as [[u|e] st'']; exact H.
Qed.

End Rewriting.

Create HintDb rewrites.

#[local] Hint Resolve rewrites_ret rewrites_mret rewrites_throw rewrites_call
  rewrites_log rewrites_get_figures rewrites_set_figures rewrites_deref
  rewrites_alloc rewrites_mutate : rewrites.

Ltac rewrites_step :=
  first
    [ apply rewrites_bind; [|intros ?]
    | apply rewrites_try_except; [|intros ?]
    | apply rewrites_try_finally
    | match goal with
      | |- rewrites_only _ (if ?b then _ else _) => destruct b
      | |- rewrites_only _ (match ?x with _ => _ end) => destruct x
      end
    | solve [auto with rewrites] ].

Ltac rewrites_all := repeat rewrites_step.

Lemma rewrites_generate_visualization (env : Env) (q : str) (data : ref) :
  rewrites_only data (generate_visualization env q data).
Proof.
  unfold generate_visualization, plt_figure, plt_savefig, plt_close, data_plot,
    getitem, print.
  rewrites_all.
Qed.

(** X4: what the visualizer can reach.  Whatever it is given and however
    pandas and matplotlib answer, the calls it makes are those that open,
    draw, save and close figures, and [print]: it calls neither the store
    nor the language model.  Of the objects that exist when it is called it
    can rewrite one, the frame it was handed; every other one is as it was
    when it returns, no reference is taken back, and the name [sql] of the
    caller is bound as before. *)
Theorem generate_visualization_reach (env : Env) (q : str) (data : ref)
    (st : state) :
  (exists evs,
     trace (snd (generate_visualization env q data st)) = trace st ++ evs
     /\ forallb is_render_or_print evs = true
     /\ existsb is_execute evs = false
     /\ existsb is_complete evs = false)
  /\ (forall r, r <> data -> r < next st ->
        heap (snd (generate_visualization env q data st)) !! r = heap st !! r)
  /\ next st <= next (snd (generate_visualization env q data st))
  /\ sql_var (snd (generate_visualization env q data st)) = sql_var st.
Proof.
  split.
  - destruct (emits_generate_visualization env q data st) as [evs [Ht Hall]].
    exists evs. split; [exact Ht|]. split; [exact Hall|].
    exact (render_or_print_no_calls evs Hall).
  - destruct (rewrites_generate_visualization env q data st) as [Hs [Hn Hh]].
    split; [exact Hh|]. split; [exact Hn | exact Hs].
Qed.

(** ** The trace of a request *)

(** The events of one [query], by the stage that ends it. *)
Lemma query_trace_shape (env : Env) (q : str) (st : state) :
  exists evs,
    trace (snd (query env q st)) = trace st ++ evs
    /\ ((evs = [EvComplete (sql_prompt q)]
         /\ exists e, generated env q = raise e)
        \/ exists sql rest,
             generated env q = ok sql
             /\ evs = EvComplete (sql_prompt q)
                      :: EvPrint (lit "Generated SQL: " ++ sql)
                      :: EvExecute sql :: rest
             /\ (rest = []
                 \/ exists js vis,
                      rest = EvComplete (answer_prompt q js sql) :: vis
                      /\ forallb is_render_or_print vis = true)).
Proof.
  destruct (generated env q) as [sql|e] eqn:Hg.
  2:{ exists [EvComplete (sql_prompt q)]. split.
      - rewrite (query_generation_fails env q st e Hg). reflexivity.
      - left. split; [reflexivity | exists e; reflexivity]. }
  assert (forall df,
            trace (at_synthesis q sql df st)
            = trace st ++ [EvComplete (sql_prompt q);
                           EvPrint (lit "Generated SQL: " ++ sql); EvExecute sql])
    as Hsyn.
  { intros df. cbn [trace at_synthesis at_execution logged with_next with_object with_sql].
    rewrite <- !app_assoc. reflexivity. }
  destruct (read_sql env sql) as [df|e] eqn:Hr.
  2:{ eexists. split.
      - rewrite (query_execution_fails env q sql st e Hg Hr).
        cbn [snd trace at_execution logged with_sql]. rewrite <- !app_assoc.
        reflexivity.
      - right. exists sql, []. split; [reflexivity|]. split; [reflexivity|].
        left. reflexivity. }
  pose proof (generate_answer_run env q sql (next st) df _
                (at_synthesis_lookup q sql df st)) as Hrun.
  destruct (to_json env df) as [js|e] eqn:Hj.
  2:{ eexists. split.
      - rewrite (query_synthesis_fails env q sql df st _ e Hg Hr Hrun).
        cbn [snd]. apply Hsyn.
      - right. exists sql, []. split; [reflexivity|]. split; [reflexivity|].
        left. reflexivity. }
  destruct (llm_run env (answer_prompt q js sql)) as [answer|e] eqn:Hl.
  2:{ eexists. split.
      - rewrite (query_synthesis_fails env q sql df st _ e Hg Hr Hrun).
        cbn [snd trace logged]. rewrite Hsyn, <- app_assoc. reflexivity.
      - right. exists sql, [EvComplete (answer_prompt q js sql)].
        split; [reflexivity|]. split; [reflexivity|].
        right. exists js, []. split; reflexivity. }
  destruct (query_succeeds env q sql answer df st _ Hg Hr Hrun)
    as [v [st6 [df' [Hv [_ Hq]]]]].
  destruct (emits_generate_visualization env q (next st)
              (logged (EvComplete (answer_prompt q js sql)) (at_synthesis q sql df st)))
    as [vis [Hvis Hall]].
  rewrite Hv in Hvis. cbn [snd] in Hvis.
  eexists. split.
  - rewrite Hq. cbn [snd]. rewrite Hvis. cbn [trace logged].
    rewrite Hsyn, <- !app_assoc. reflexivity.
  - right. exists sql, (EvComplete (answer_prompt q js sql) :: vis).
    split; [reflexivity|]. split; [reflexivity|].
    right. exists js, vis. split; [reflexivity | exact Hall].
Qed.

Lemma generated_validated (env : Env) (q sql : str) :
  generated env q = ok sql -> exists raw, _sanitize_sql raw = ok sql.
Proof.
  unfold generated. destruct (llm_run env (sql_prompt q)) as [raw|e]; [|discriminate].
  intros H. exists (strip raw). exact H.
Qed.

(** X5: only validated SQL reaches the store.  Every text that [query]
    passes to the store is the text the validator returned for this
    question's completion: it begins with SELECT, holds no code fence, does
    not end in a semicolon, and holds no keyword followed by a space. *)
Theorem query_executes_only_validated (env : Env) (q sql : str) (st : state) :
  In (EvExecute sql) (trace (snd (query env q st))) ->
  In (EvExecute sql) (trace st)
  \/ (generated env q = ok sql
      /\ begins_with_select sql
      /\ ~ substring fence sql
      /\ ~ ends_with ";" sql
      /\ forall cmd, In cmd forbidden -> ~ substring cmd (lower sql)).
Proof.
  intros Hin. destruct (query_trace_shape env q st) as [evs [Ht Hshape]].
  rewrite Ht in Hin. apply in_app_or in Hin. destruct Hin as [Hin|Hin]; [left; exact Hin|].
  right. destruct Hshape as [[-> _] | [sql' [rest [Hg [-> Hrest]]]]].
  - cbn [In] in Hin. destruct Hin as [Hin|[]]. discriminate Hin.
  - assert (sql' = sql) as ->.
    { cbn [In] in Hin. destruct Hin as [Hin|[Hin|[Hin|Hin]]]; try discriminate Hin.
      - injection Hin as ->. reflexivity.
      - exfalso. destruct Hrest as [-> | [js [vis [-> Hall]]]]; [exact Hin|].
        cbn [In] in Hin. destruct Hin as [Hin|Hin]; [discriminate Hin|].
        destruct (render_or_print_no_calls vis Hall) as [Hex _].
        assert (existsb is_execute vis = true) as Hyes.
        { apply existsb_exists. exists (EvExecute sql). split; [exact Hin | reflexivity]. }
        congruence. }
    split; [exact Hg|].
    destruct (generated_validated env q sql Hg) as [raw Hraw].
    split; [|exact (validated_text_facts raw sql Hraw)].
    apply sanitize_ok in Hraw. destruct Hraw as [_ [Hsel _]].
    apply begins_with_select_of_check. exact Hsel.
Qed.

Lemma query_executes_only_validated_witness :
  In (EvExecute Fake.roas_sql) (trace Fake.init)
  \/ (generated (Fake.env Fake.roas_sql Fake.ad_table) (lit "roas per item") = ok Fake.roas_sql
      /\ begins_with_select Fake.roas_sql
      /\ ~ substring fence Fake.roas_sql
      /\ ~ ends_with ";" Fake.roas_sql
      /\ forall cmd, In cmd forbidden -> ~ substring cmd (lower Fake.roas_sql)).
Proof.
  apply (query_executes_only_validated (Fake.env Fake.roas_sql Fake.ad_table)
           (lit "roas per item") Fake.roas_sql Fake.init).
  vm_compute. tauto.
Defined.

(** X6: one question costs at most one call of the store and at most two
    completions, and nothing is retried: the first call is the SQL
    completion, the store is called only after it, and no second time. *)
Theorem query_call_budget (env : Env) (q : str) (st : state) :
  exists evs,
    trace (snd (query env q st)) = trace st ++ evs
    /\ length (List.filter is_execute evs) <= 1
    /\ length (List.filter is_complete evs) <= 2
    /\ (exists rest, evs = EvComplete (sql_prompt q) :: rest)
    /\ (forall a sql b, evs = a ++ EvExecute sql :: b ->
          existsb is_complete a = true /\ existsb is_execute b = false).
Proof.
  destruct (query_trace_shape env q st) as [evs [Ht Hshape]].
  exists evs. split; [exact Ht|].
  destruct Hshape as [[-> _] | [sql [rest [_ [-> Hrest]]]]].
  { cbn [List.filter is_execute is_complete length].
    split; [lia|]. split; [lia|]. split; [eexists; reflexivity|].
    intros a sql b H. destruct a as [|x [|y a]]; discriminate H. }
  assert (forall (P : event -> bool) (l : list event),
            existsb P l = false -> List.filter P l = []) as Hnone.
  { intros P l. induction l as [|v l IH]; [reflexivity|].
    cbn [existsb List.filter]. destruct (P v); [discriminate|]. exact IH. }
  assert (length (List.filter is_execute rest) = 0
          /\ length (List.filter is_complete rest) <= 1
          /\ existsb is_execute rest = false) as [He [Hc Hne]].
  { destruct Hrest as [-> | [js [vis [-> Hall]]]]; [cbn; repeat split; lia|].
    destruct (render_or_print_no_calls vis Hall) as [Hex Hco].
    cbn [List.filter is_execute is_complete existsb length orb].
    rewrite (Hnone _ _ Hex), (Hnone _ _ Hco), Hex. cbn [length].
    split; [lia|]. split; [lia | reflexivity]. }
  cbn [List.filter is_execute is_complete length]. rewrite He.
  split; [lia|]. split; [lia|]. split; [eexists; reflexivity|].
  intros a sql' b H.
  destruct a as [|x a]; [discriminate H|]. injection H as <- H.
  cbn [existsb is_complete orb]. split; [reflexivity|].
  destruct a as [|y a]; [discriminate H|]. injection H as <- H.
  destruct a as [|z a].
  - injection H as _ <-. exact Hne.
  - injection H as <- H. exfalso.
    assert (existsb is_execute rest = true) as Hyes.
    { rewrite H. rewrite existsb_app. cbn. apply orb_true_r. }
    congruence.
Qed.

(** ** What a success is made of *)

(** X7: a success response is made of the outcomes of the stages: its SQL
    is the validated completion, its answer is the completion of the answer
    prompt built from that SQL and the JSON of the frame the store
    returned, its chart is what the visualizer returned, and its rows are
    read from the frame object after the visualizer has run. *)
Theorem query_success_provenance (env : Env) (q answer sql : str)
    (data : list record) (viz : option str) (st st' : state) :
  query env q st = (ok (Success answer data viz sql), st') ->
  generated env q = ok sql
  /\ exists df js,
       read_sql env sql = ok df
       /\ to_json env df = ok js
       /\ llm_run env (answer_prompt q js sql) = ok answer
       /\ generate_visualization env q (next st)
            (logged (EvComplete (answer_prompt q js sql)) (at_synthesis q sql df st))
          = (ok viz, st')
       /\ exists df', heap st' !! next st = Some df' /\ data = to_dict df'.
Proof.
  intros H.
  destruct (generated env q) as [sql0|e] eqn:Hg.
  2:{ rewrite (query_generation_fails env q st e Hg) in H. discriminate H. }
  destruct (read_sql env sql0) as [df|e] eqn:Hr.
  2:{ rewrite (query_execution_fails env q sql0 st e Hg Hr) in H. discriminate H. }
  pose proof (generate_answer_run env q sql0 (next st) df _
                (at_synthesis_lookup q sql0 df st)) as Hrun.
  destruct (to_json env df) as [js|e] eqn:Hj.
  2:{ rewrite (query_synthesis_fails env q sql0 df st _ e Hg Hr Hrun) in H.
      discriminate H. }
  destruct (llm_run env (answer_prompt q js sql0)) as [answer0|e] eqn:Hl.
  2:{ rewrite (query_synthesis_fails env q sql0 df st _ e Hg Hr Hrun) in H.
      discriminate H. }
  destruct (query_succeeds env q sql0 answer0 df st _ Hg Hr Hrun)
    as [v [st6 [df' [Hv [Hdf' Hq]]]]].
  rewrite Hq in H. injection H as H1 H2 H3 H4 H5. subst.
  split; [reflexivity|]. exists df, js.
  split; [exact Hr|]. split; [exact Hj|]. split; [exact Hl|].
  split; [exact Hv|]. exists df'. split; [exact Hdf' | reflexivity].
Qed.

Lemma query_success_provenance_witness :
  generated (Fake.env Fake.roas_sql Fake.ad_table) (lit "roas per item")
  = ok Fake.roas_sql.
Proof.
  refine (proj1 (query_success_provenance
                   (Fake.env Fake.roas_sql Fake.ad_table) (lit "roas per item")
                   _ Fake.roas_sql _ _ Fake.init _ _)).
  vm_compute. reflexivity.
Defined.

(** ** Which failures get which suggestion *)

Lemma select_text_not_generic (q msg : str) :
  substring (lit "select") (lower msg) ->
  _get_suggestion q msg <> generic_suggestion.
Proof.
  intros H. apply contains_spec in H. unfold _get_suggestion.
  destruct (contains (lit "no such table") (lower msg)); [discriminate|].
  destruct (contains (lit "no such column") (lower msg)); [discriminate|].
  rewrite H. discriminate.
Qed.

Lemma begins_with_select_mentions (t : str) :
  begins_with_select t -> substring (lit "select") (lower t).
Proof.
  intros [ws [kw [rest [-> [_ Hkw]]]]]. exists (lower ws), (lower rest).
  unfold lower in *. rewrite !map_app, Hkw. reflexivity.
Qed.

Lemma validator_error_mentions_select (s : str) (e : exn) :
  _sanitize_sql s = raise e -> substring (lit "select") (lower (exn_str e)).
Proof.
  rewrite sanitize_unfold. unfold check_sql.
  destruct (startswith (lit "select") (lstrip (lower (normalize s)))) eqn:E;
    cbn [negb].
  - destruct (existsb _ forbidden); [|discriminate].
    intros H.
    assert (e = ValueError (forbidden_msg ++ normalize s)) as -> by congruence.
    cbn [exn_str]. unfold lower. rewrite map_app. apply substring_app_l.
    apply begins_with_select_mentions, begins_with_select_of_check. exact E.
  - intros H.
    assert (e = ValueError (not_select_msg ++ normalize s)) as -> by congruence.
    cbn [exn_str]. unfold lower. rewrite map_app. apply substring_app_r.
    apply contains_spec. reflexivity.
Qed.

Lemma execution_msg_mentions_select (s sql : str) (e : exn) :
  _sanitize_sql s = ok sql ->
  substring (lit "select") (lower (execution_msg e sql)).
Proof.
  intros H. apply sanitize_ok in H. destruct H as [_ [Hsel _]].
  unfold execution_msg, lower. rewrite !map_app.
  do 4 apply substring_app_l.
  apply begins_with_select_mentions, begins_with_select_of_check. exact Hsel.
Qed.

Lemma specific_suggestion (q msg : str) :
  substring (lit "select") (lower msg) ->
  In (_get_suggestion q msg) [table_suggestion; column_suggestion; select_suggestion]
  /\ _get_suggestion q msg <> generic_suggestion.
Proof.
  intros H. split; [|exact (select_text_not_generic q msg H)].
  apply contains_spec in H. unfold _get_suggestion.
  destruct (contains (lit "no such table") (lower msg)); [left; reflexivity|].
  destruct (contains (lit "no such column") (lower msg)); [right; left; reflexivity|].
  rewrite H. right. right. left. reflexivity.
Qed.

Lemma plain_text_generic (q msg : str) :
  ~ substring (lit "no such table") (lower msg) ->
  ~ substring (lit "no such column") (lower msg) ->
  ~ substring (lit "select") (lower msg) ->
  _get_suggestion q msg = generic_suggestion.
Proof.
  rewrite <- !contains_false. unfold _get_suggestion. intros -> -> ->. reflexivity.
Qed.

(** X8: a completion that the validator rejects, and validated SQL that
    the store rejects, never get the generic suggestion.  Both messages
    quote a text that contains SELECT - the words [SELECT statement] of
    the first validator message, the rejected SQL of the second, the
    executed SQL of the store message - so the suggestion is one of the
    three specific ones, also for a store error that is about neither a
    table nor a column.  The generic suggestion is what a failing
    completion gets when its message has none of the three phrases. *)
Theorem rejected_sql_gets_specific_suggestion (env : Env) (q : str) (st : state) :
  (forall raw e,
     llm_run env (sql_prompt q) = ok raw -> _sanitize_sql (strip raw) = raise e ->
     exists s st',
       query env q st = (ok (Failure (exn_str e) s None), st')
       /\ In s [table_suggestion; column_suggestion; select_suggestion]
       /\ s <> generic_suggestion)
  /\ (forall sql e,
        generated env q = ok sql -> read_sql env sql = raise e ->
        exists s st',
          query env q st = (ok (Failure (execution_msg e sql) s (Some sql)), st')
          /\ In s [table_suggestion; column_suggestion; select_suggestion]
          /\ s <> generic_suggestion)
  /\ (forall e,
        llm_run env (sql_prompt q) = raise e ->
        ~ substring (lit "no such table") (lower (exn_str e)) ->
        ~ substring (lit "no such column") (lower (exn_str e)) ->
        ~ substring (lit "select") (lower (exn_str e)) ->
        exists st',
          query env q st = (ok (Failure (exn_str e) generic_suggestion None), st')).
Proof.
  split; [|split].
  - intros raw e Hl He.
    assert (generated env q = raise e) as Hg.
    { unfold generated. rewrite Hl. exact He. }
    eexists _, _. split; [exact (query_generation_fails env q st e Hg)|].
    exact (specific_suggestion q _ (validator_error_mentions_select _ e He)).
  - intros sql e Hg Hr.
    destruct (generated_validated env q sql Hg) as [raw Hraw].
    eexists _, _. split; [exact (query_execution_fails env q sql st e Hg Hr)|].
    exact (specific_suggestion q _ (execution_msg_mentions_select raw sql e Hraw)).
  - intros e Hl N1 N2 N3.
    assert (generated env q = raise e) as Hg.
    { unfold generated. rewrite Hl. reflexivity. }
    eexists. rewrite (query_generation_fails env q st e Hg).
    unfold failure_response. rewrite (plain_text_generic q _ N1 N2 N3). reflexivity.
Qed.

Lemma rejected_sql_gets_specific_suggestion_witness :
  (exists s st',
     query (Fake.env (lit "DELETE FROM sales_metrics") Fake.ad_table)
           (lit "Delete all sales records") Fake.init
     = (ok (Failure (exn_str (ValueError (not_select_msg
                                          ++ lit "DELETE FROM sales_metrics")))
                    s None), st')
     /\ In s [table_suggestion; column_suggestion; select_suggestion]
     /\ s <> generic_suggestion)
  /\ exists st',
       query offline_env (lit "total sales?") Fake.init
       = (ok (Failure (exn_str (OtherError (lit "connection refused")))
                      generic_suggestion None), st').
Proof.
  split.
  - apply (proj1 (rejected_sql_gets_specific_suggestion
                    (Fake.env (lit "DELETE FROM sales_metrics") Fake.ad_table)
                    (lit "Delete all sales records") Fake.init)
                 (lit "DELETE FROM sales_metrics")).
    + vm_compute. reflexivity.
    + vm_compute. reflexivity.
  - apply (proj2 (proj2 (rejected_sql_gets_specific_suggestion
                           offline_env (lit "total sales?") Fake.init))).
    + reflexivity.
    + apply contains_false. vm_compute. reflexivity.
    + apply contains_false. vm_compute. reflexivity.
    + apply contains_false. vm_compute. reflexivity.
Defined.

(** ** The visualizer, rule by rule *)

(** X9: an error of the matched rule never leaves the visualizer.  When
    the date conversion of the time-series rule raises, or the division of
    the ratio rule raises, the visualizer returns no chart, prints the
    error, closes the figure it opened, and leaves the frame untouched. *)
Theorem generate_visualization_swallows_errors (env : Env) (q : str) (data : ref)
    (df : DataFrame) (e : exn) (st : state) :
  heap st !! data = Some df -> empty df = false ->
  ((has_column (lit "date") df = true
    /\ exists col, get_column (lit "date") (columns df) = Some col
                   /\ to_datetime env col = raise e)
   \/ (has_column (lit "date") df = false
       /\ forallb (fun col => has_column col df) roas_columns = true
       /\ exists a b, get_column (lit "ad_sales") (columns df) = Some a
                      /\ get_column (lit "ad_spend") (columns df) = Some b
                      /\ truediv env a b = raise e)) ->
  exists st',
    generate_visualization env q data st = (ok None, st')
    /\ heap st' = heap st /\ figures st' = figures st /\ next st' = next st
    /\ trace st' = trace st ++ [EvFigure;
                                EvPrint (lit "Visualization error: " ++ exn_str e);
                                EvClose].
Proof.
  intros Hdf He Hrule. unfold generate_visualization.
  rewrite (bind_ok _ _ st st df) by (unfold deref; rewrite Hdf; reflexivity).
  rewrite He.
  rewrite (bind_ok _ _ st _ tt) by reflexivity.
  unfold try_finally, try_except.
  rewrite (bind_ok _ _ _ _ df) by (unfold deref; cbn; rewrite Hdf; reflexivity).
  unfold getitem, mutate, deref, alloc, data_plot, plt_savefig, plt_close, mbind,
    M_bind, bind, mret, M_ret, ret, throw, log, get_figures, set_figures, call, print.
  destruct Hrule as [[Hdate [col [Hcol Hconv]]]
                    | [Hdate [Hroas [a [b [Ha [Hb Hdiv]]]]]]].
  - rewrite Hdate. cbn -[lit]. rewrite Hdf, Hcol. cbn -[lit]. rewrite Hconv.
    cbn -[lit]. eexists. split; [reflexivity|]. cbn -[lit].
    repeat split. rewrite <- !app_assoc. reflexivity.
  - rewrite Hdate, Hroas. cbn -[lit]. rewrite Hdf, Ha. cbn -[lit].
    rewrite Hdf, Hb. cbn -[lit]. rewrite Hdiv.
    cbn -[lit]. eexists. split; [reflexivity|]. cbn -[lit].
    repeat split. rewrite <- !app_assoc. reflexivity.
Qed.

Lemma generate_visualization_swallows_errors_witness :
  exists st',
    generate_visualization (Fake.env Fake.roas_sql dated_table) (lit "sales per day")
      0 (Fake.holding dated_table) = (ok None, st')
    /\ heap st' = heap (Fake.holding dated_table)
    /\ figures st' = figures (Fake.holding dated_table)
    /\ next st' = next (Fake.holding dated_table)
    /\ trace st' = trace (Fake.holding dated_table)
                   ++ [EvFigure;
                       EvPrint (lit "Visualization error: "
                                ++ exn_str (OtherError
                                     (lit "ValueError: unknown datetime string format")));
                       EvClose].
Proof.
  apply (generate_visualization_swallows_errors
           (Fake.env Fake.roas_sql dated_table) (lit "sales per day") 0 dated_table
           (OtherError (lit "ValueError: unknown datetime string format"))
           (Fake.holding dated_table)).
  - vm_compute. reflexivity.
  - reflexivity.
  - left. split; [reflexivity|]. eexists. split; reflexivity.
Defined.

(** X10: the figure opened by [plt.figure] outlives a drawn chart.  With
    no rule matched the figure stack is as before the call; with the ratio
    chart drawn, [plt.close()] closes the figure pandas drew on and the
    empty 10 by 5 figure stays open, one more per request. *)
Theorem generate_visualization_figures (env : Env) (q : str) (data : ref)
    (df : DataFrame) (st : state) :
  heap st !! data = Some df -> empty df = false ->
  has_column (lit "date") df = false ->
  (forallb (fun col => has_column col df) roas_columns = false ->
   figures (snd (generate_visualization env q data st)) = figures st)
  /\ (forallb (fun col => has_column col df) roas_columns = true ->
      forall a b roas f,
        get_column (lit "ad_sales") (columns df) = Some a ->
        get_column (lit "ad_spend") (columns df) = Some b ->
        truediv env a b = ok roas ->
        plot env (mkChart Bar (lit "item_id") (lit "ROAS") (lit "Return on Ad Spend")
                          (setitem (lit "ROAS") roas df)) = ok f ->
        figures (snd (generate_visualization env q data st))
        = BlankFigure (Some (10, 5)%Z) :: figures st).
Proof.
  intros Hdf He Hdate. unfold generate_visualization.
  rewrite (bind_ok _ _ st st df) by (unfold deref; rewrite Hdf; reflexivity).
  rewrite He.
  rewrite (bind_ok _ _ st _ tt) by reflexivity.
  unfold try_finally, try_except.
  rewrite (bind_ok _ _ _ _ df) by (unfold deref; cbn; rewrite Hdf; reflexivity).
  rewrite Hdate.
  unfold getitem, mutate, deref, alloc, data_plot, plt_savefig, plt_close, mbind,
    M_bind, bind, mret, M_ret, ret, throw, log, get_figures, set_figures, call, print.
  split.
  - intros Hroas. rewrite Hroas. cbn -[lit].
    destruct (savefig_b64 env _); reflexivity.
  - intros Hroas a b roas f Ha Hb Hdiv Hplot. rewrite Hroas.
    cbn -[lit]. rewrite Hdf, Ha. cbn -[lit]. rewrite Hdf, Hb. cbn -[lit].
    rewrite Hdiv. cbn -[lit]. rewrite Hdf. cbn -[lit]. rewrite lookup_insert_eq.
    rewrite Hplot. cbn -[lit].
    destruct (savefig_b64 env f); reflexivity.
Qed.

Lemma generate_visualization_figures_witness :
  figures (snd (generate_visualization (Fake.env Fake.roas_sql Fake.ad_table)
                  (lit "roas per item") 0 (Fake.holding Fake.ad_table)))
  = BlankFigure (Some (10, 5)%Z) :: figures (Fake.holding Fake.ad_table).
Proof.
  refine (proj2 (generate_visualization_figures
                   (Fake.env Fake.roas_sql Fake.ad_table) (lit "roas per item") 0
                   Fake.ad_table (Fake.holding Fake.ad_table) _ _ _)
                _ _ _ _ _ _ _ _ _).
  - vm_compute. reflexivity.
  - reflexivity.
  - reflexivity.
  - reflexivity.
  - reflexivity.
  - reflexivity.
  - vm_compute. reflexivity.
  - reflexivity.
Defined.

(** X11: the time-series rule comes first and the sales column wins.  With
    a date column that converts and sorts, and [total_sales] present, the
    only chart drawn is the line of [total_sales] over [date] titled
    [Sales Trend], on the sorted copy - also when [ad_sales] and the
    columns of the ratio rule are present. *)
Theorem generate_visualization_prefers_sales_trend (env : Env) (q : str)
    (data : ref) (df sorted : DataFrame) (col conv : list scalar) (st : state) :
  heap st !! data = Some df -> empty df = false ->
  has_column (lit "date") df = true ->
  get_column (lit "date") (columns df) = Some col ->
  to_datetime env col = ok conv ->
  sort_values env (lit "date") (setitem (lit "date") conv df) = ok sorted ->
  has_column (lit "total_sales") sorted = true ->
  exists rest,
    trace (snd (generate_visualization env q data st))
    = trace st
      ++ EvFigure
         :: EvPlot (mkChart Line (lit "date") (lit "total_sales") (lit "Sales Trend")
                            sorted)
         :: rest
    /\ existsb is_plot rest = false.
Proof.
  intros Hdf He Hdate Hcol Hconv Hsort Htotal. unfold generate_visualization.
  rewrite (bind_ok _ _ st st df) by (unfold deref; rewrite Hdf; reflexivity).
  rewrite He.
  rewrite (bind_ok _ _ st _ tt) by reflexivity.
  unfold try_finally, try_except.
  rewrite (bind_ok _ _ _ _ df) by (unfold deref; cbn; rewrite Hdf; reflexivity).
  rewrite Hdate.
  unfold getitem, mutate, deref, alloc, data_plot, plt_savefig, plt_close, mbind,
    M_bind, bind, mret, M_ret, ret, throw, log, get_figures, set_figures, call, print.
  cbn -[lit]. rewrite Hdf, Hcol. cbn -[lit]. rewrite Hconv. cbn -[lit].
  rewrite Hdf. cbn -[lit]. rewrite lookup_insert_eq. rewrite Hsort. cbn -[lit].
  rewrite lookup_insert_eq. rewrite Htotal. cbn -[lit].
  destruct (plot env _) as [f|e]; cbn -[lit].
  - destruct (savefig_b64 env f); cbn -[lit]; eexists;
      (split; [rewrite <- !app_assoc; reflexivity | reflexivity]).
  - eexists. split; [rewrite <- !app_assoc; reflexivity | reflexivity].
Qed.

Lemma generate_visualization_prefers_sales_trend_witness :
  exists rest,
    trace (snd (generate_visualization (Fake.env Fake.roas_sql trend_table)
                  (lit "sales per day") 0 (Fake.holding trend_table)))
    = trace (Fake.holding trend_table)
      ++ EvFigure
         :: EvPlot (mkChart Line (lit "date") (lit "total_sales") (lit "Sales Trend")
                            (setitem (lit "date") [VDatetime 2; VDatetime 1] trend_table))
         :: rest
    /\ existsb is_plot rest = false.
Proof.
  apply (generate_visualization_prefers_sales_trend
           (Fake.env Fake.roas_sql trend_table) (lit "sales per day") 0 trend_table
           (setitem (lit "date") [VDatetime 2; VDatetime 1] trend_table)
           [VInt 2; VInt 1] [VDatetime 2; VDatetime 1] (Fake.holding trend_table)).
  - vm_compute. reflexivity.
  - reflexivity.
  - reflexivity.
  - reflexivity.
  - reflexivity.
  - reflexivity.
  - reflexivity.
Defined.

(** X12: [execute_query] answers a store error with a [ValueError] of its
    own that names the store's message and the SQL, and allocates nothing;
    when the store answers, the frame becomes a new object and every other
    object is as before. *)
Theorem execute_query_outcome (env : Env) (sql : str) (st : state) :
  (forall e, read_sql env sql = raise e ->
     exists msg,
       execute_query env sql st = (raise (ValueError msg), logged (EvExecute sql) st)
       /\ substring (exn_str e) msg /\ substring sql msg)
  /\ (forall df, read_sql env sql = ok df ->
        exists st',
          execute_query env sql st = (ok (next st), st')
          /\ heap st' !! next st = Some df
          /\ (forall r, r <> next st -> heap st' !! r = heap st !! r)
          /\ trace st' = trace st ++ [EvExecute sql]).
Proof.
  split.
  - intros e He. exists (execution_msg e sql).
    split; [exact (execute_query_raise env sql e st He)|]. split.
    + exists (lit "SQL execution failed: "), (nl ++ lit "Query: " ++ sql). reflexivity.
    + exists (lit "SQL execution failed: " ++ exn_str e ++ nl ++ lit "Query: "), [].
      unfold execution_msg. rewrite app_nil_r, <- !app_assoc. reflexivity.
  - intros df Hdf. eexists. split; [exact (execute_query_ok env sql df st Hdf)|].
    cbn [heap with_next with_object logged trace next].
    split; [apply lookup_insert_eq|]. split; [|reflexivity].
    intros r Hr. apply lookup_insert_ne. congruence.
Qed.

(** ** The endpoint *)

Lemma query_total (env : Env) (q : str) (st : state) :
  exists r st', query env q st = (ok r, st').
Proof.
  destruct (generated env q) as [sql|e] eqn:Hg.
  2:{ eexists _, _. exact (query_generation_fails env q st e Hg). }
  destruct (read_sql env sql) as [df|e] eqn:Hr.
  2:{ eexists _, _. exact (query_execution_fails env q sql st e Hg Hr). }
  destruct (generate_answer env q (next st) sql (at_synthesis q sql df st))
    as [[answer|e] st5] eqn:Ha.
  - destruct (query_succeeds env q sql answer df st st5 Hg Hr Ha)
      as [v [st6 [df' [_ [_ Hq]]]]].
    eexists _, _. exact Hq.
  - eexists _, _. exact (query_synthesis_fails env q sql df st st5 e Hg Hr Ha).
Qed.

(** X13: the endpoint never lets an exception of the pipeline through.
    It raises [HTTPException] with status 400 exactly when [query] reports
    a failure, and then forwards the error and the suggestion only: the
    SQL that [query] put into its failure response is not part of the
    detail.  Otherwise it returns the five-key dictionary of [query]. *)
Theorem ask_question_outcome (env : Env) (text : str) (st : state) :
  exists r st',
    query env text st = (ok r, st')
    /\ snd (MainApp.ask_question env text st) = st'
    /\ match r with
       | Failure error suggestion sql =>
         fst (MainApp.ask_question env text st)
         = MainApp.HTTPException 400
             [(lit "error", MainApp.PyStr_ error);
              (lit "suggestion", MainApp.PyStr_ suggestion)]
       | Success answer data visualization sql =>
         fst (MainApp.ask_question env text st)
         = MainApp.Returned
             [(lit "success", MainApp.PyBool true);
              (lit "answer", MainApp.PyStr_ answer);
              (lit "data", MainApp.PyRows data);
              (lit "visualization", MainApp.optional_str visualization);
              (lit "sql", MainApp.PyStr_ sql)]
       end.
Proof.
  destruct (query_total env text st) as [r [st' Hq]].
  exists r, st'. split; [exact Hq|].
  unfold MainApp.ask_question. rewrite Hq.
  destruct r; split; reflexivity.
Qed.

(** ** Table names generated from CSV file names *)

Import CsvToDatabase.

Lemma rfind_from_absent (c : ascii) (s : str) (i : Z) :
  (forall x, In x s -> x <> c) -> rfind_from c s i = (-1)%Z.
Proof.
  revert i. induction s as [|x s IH]; intros i H; [reflexivity|].
  cbn [rfind_from]. rewrite IH by (intros y Hy; apply H; right; exact Hy).
  cbn. assert (x <> c) as Hx by (apply H; left; reflexivity).
  apply ascii_eqb_neq in Hx. rewrite Hx. reflexivity.
Qed.

Lemma rfind_from_last (c : ascii) (a b : str) (i : Z) :
  (0 <= i)%Z -> (forall x, In x b -> x <> c) ->
  rfind_from c (a ++ c :: b) i = (i + Z.of_nat (length a))%Z.
Proof.
  intros Hi Hb. revert i Hi. induction a as [|x a IH]; intros i Hi.
  - cbn [app rfind_from length]. rewrite (rfind_from_absent c b _ Hb).
    cbn. rewrite ascii_eqb_refl. lia.
  - cbn [app rfind_from length]. rewrite IH by lia.
    destruct (0 <=? i + 1 + Z.of_nat (length a))%Z eqn:E; [lia|].
    apply Z.leb_gt in E. lia.
Qed.

Lemma has_name_before_dot_spec (pre s tail : str) :
  has_name_before_dot (pre ++ s ++ tail) (length pre) (length pre + length s)
    (length s)
  = existsb (fun c => negb (ascii_eqb c ".")) s.
Proof.
  revert pre. induction s as [|x s IH]; intros pre; [reflexivity|].
  cbn [has_name_before_dot length existsb].
  assert ((length pre <? length pre + S (length s))%nat = true) as ->
    by (apply Nat.ltb_lt; lia).
  assert (char_at (pre ++ (x :: s) ++ tail) (length pre) = [x]) as ->.
  { unfold char_at. rewrite skipn_app, skipn_all, Nat.sub_diag. reflexivity. }
  cbn [str_eqb]. rewrite andb_true_r.
  destruct (ascii_eqb x "."); cbn [negb orb]; [|reflexivity].
  specialize (IH (pre ++ [x])).
  rewrite length_app in IH. cbn [length] in IH.
  rewrite <- app_assoc in IH. cbn [app] in IH.
  replace (length pre + 1 + length s) with (length pre + S (length s)) in IH by lia.
  replace (length pre + 1) with (S (length pre)) in IH by lia.
  exact IH.
Qed.

Lemma splitext_csv (stem : str) :
  (forall c, In c stem -> c <> "/"%char) ->
  splitext (stem ++ lit ".csv")
  = if existsb (fun c => negb (ascii_eqb c ".")) stem
    then (stem, lit ".csv")
    else (stem ++ lit ".csv", []).
Proof.
  intros Hslash. unfold splitext, rfind.
  rewrite (rfind_from_absent "/").
  2:{ intros x Hx. apply in_app_or in Hx. destruct Hx as [Hx|Hx].
      - exact (Hslash x Hx).
      - cbn in Hx. intuition (subst; discriminate). }
  change (lit ".csv") with ("."%char :: lit "csv").
  rewrite (rfind_from_last "." stem (lit "csv") 0 ltac:(lia)).
  2:{ intros x Hx. cbn in Hx. intuition (subst; discriminate). }
  assert ((-1 <? 0 + Z.of_nat (length stem))%Z = true) as -> by (apply Z.ltb_lt; lia).
  replace (Z.to_nat (0 + Z.of_nat (length stem))) with (length stem) by lia.
  change (Z.to_nat (-1 + 1)) with 0. rewrite Nat.sub_0_r.
  pose proof (has_name_before_dot_spec [] stem ("."%char :: lit "csv")) as H.
  cbn [app length Nat.add] in H. rewrite H.
  destruct (existsb _ stem); [|reflexivity].
  rewrite firstn_app, firstn_all, Nat.sub_diag.
  rewrite skipn_app, skipn_all, Nat.sub_diag. cbn [firstn skipn app].
  rewrite app_nil_r. reflexivity.
Qed.

Lemma replace_char_nth (old new : ascii) (s : str) (i : nat) (c : ascii) :
  nth_error s i = Some c ->
  nth_error (replace_char old new s) i = Some (if ascii_eqb c old then new else c).
Proof.
  intros H. unfold replace_char. rewrite nth_error_map, H. reflexivity.
Qed.

Lemma table_name_joined (a b : str) (sep : ascii) :
  (forall c, In c a -> c <> "/"%char) -> (forall c, In c b -> c <> "/"%char) ->
  In sep [" "%char; "-"%char; "_"%char] ->
  table_name (a ++ [sep] ++ b ++ lit ".csv")
  = replace_char "-" "_" (replace_char " " "_" (lower a))
    ++ lit "_" ++ replace_char "-" "_" (replace_char " " "_" (lower b)).
Proof.
  intros Ha Hb Hsep. unfold table_name.
  replace (a ++ [sep] ++ b ++ lit ".csv") with ((a ++ [sep] ++ b) ++ lit ".csv")
    by (rewrite <- !app_assoc; reflexivity).
  rewrite splitext_csv.
  2:{ intros c Hc. apply in_app_or in Hc. destruct Hc as [Hc|Hc]; [exact (Ha c Hc)|].
      apply in_app_or in Hc. destruct Hc as [Hc|Hc]; [|exact (Hb c Hc)].
      cbn in Hc, Hsep. intuition (subst; discriminate). }
  assert (existsb (fun c => negb (ascii_eqb c ".")) (a ++ [sep] ++ b) = true) as ->.
  { apply existsb_exists. exists sep. split.
    - apply in_or_app. right. left. reflexivity.
    - cbn in Hsep. intuition (subst; reflexivity). }
  cbn [fst]. unfold replace_char, lower. rewrite !map_app. cbn [map].
  do 2 f_equal. cbn in Hsep. intuition (subst; reflexivity).
Qed.

(** X14: the table name is the lower-cased file name without its
    extension, with each space and each hyphen replaced where it stands by
    an underscore.  It has the length of that lower-cased stem and holds no
    space and no hyphen; every other character stays where it was, so a
    dot, a quote or a parenthesis of the file name is in the table name.
    The replacement merges names: files that differ only in having a
    space, a hyphen or an underscore at one place get the same table. *)
Theorem table_name_characters (csv_file : str) :
  length (table_name csv_file) = length (lower (fst (splitext csv_file)))
  /\ (forall i c,
        nth_error (lower (fst (splitext csv_file))) i = Some c ->
        nth_error (table_name csv_file) i
        = Some (if ascii_eqb c " " || ascii_eqb c "-" then "_"%char else c))
  /\ (forall c, In c (table_name csv_file) -> c <> " "%char /\ c <> "-"%char)
  /\ (forall a b sep,
        csv_file = a ++ [sep] ++ b ++ lit ".csv" ->
        (forall c, In c a -> c <> "/"%char) -> (forall c, In c b -> c <> "/"%char) ->
        In sep [" "%char; "-"%char; "_"%char] ->
        table_name csv_file = table_name (a ++ lit " " ++ b ++ lit ".csv")
        /\ table_name csv_file = table_name (a ++ lit "-" ++ b ++ lit ".csv")
        /\ table_name csv_file = table_name (a ++ lit "_" ++ b ++ lit ".csv")).
Proof.
  split; [|split; [|split]].
  - unfold table_name, replace_char, lower. rewrite !length_map. reflexivity.
  - intros i c H. unfold table_name.
    rewrite (replace_char_nth "-" "_" _ i (if ascii_eqb c " " then "_"%char else c)).
    2:{ apply replace_char_nth. exact H. }
    f_equal. destruct (ascii_eqb c " ") eqn:E1; [reflexivity|].
    cbn [orb]. reflexivity.
  - intros c Hc. unfold table_name, replace_char in Hc.
    apply in_map_iff in Hc. destruct Hc as [y [<- Hy]].
    apply in_map_iff in Hy. destruct Hy as [z [<- _]].
    destruct (ascii_eqb z " ") eqn:E1.
    + split; discriminate.
    + destruct (ascii_eqb z "-") eqn:E2.
      * split; discriminate.
      * apply ascii_eqb_neq in E1, E2. split; assumption.
  - intros a b sep -> Ha Hb Hsep.
    rewrite (table_name_joined a b sep Ha Hb Hsep).
    change (lit " ") with [" "%char]. change (lit "-") with ["-"%char].
    change (lit "_") with ["_"%char].
    rewrite (table_name_joined a b " " Ha Hb) by (left; reflexivity).
    rewrite (table_name_joined a b "-" Ha Hb) by (right; left; reflexivity).
    rewrite (table_name_joined a b "_" Ha Hb) by (right; right; left; reflexivity).
    repeat split.
Qed.

Lemma table_name_characters_witness :
  table_name (lit "ad" ++ ["-"%char] ++ lit "sales" ++ lit ".csv")
  = table_name (lit "ad" ++ lit " " ++ lit "sales" ++ lit ".csv").
Proof.
  refine (proj1 (proj2 (proj2 (proj2 (table_name_characters
            (lit "ad" ++ ["-"%char] ++ lit "sales" ++ lit ".csv"))))
            (lit "ad") (lit "sales") "-"%char eq_refl _ _ _)).
  - intros c Hc. cbn in Hc. intuition (subst; discriminate).
  - intros c Hc. cbn in Hc. intuition (subst; discriminate).
  - right. left. reflexivity.
Defined.

(** X15: for a CSV file of the working directory whose name has a
    character other than a dot before [.csv], the table name is that part
    of the name, lower-cased, with spaces and hyphens turned into
    underscores; for a name that is only dots before [.csv] (the hidden
    file [.csv]) the extension is not split off and stays in the table
    name. *)
Theorem table_name_of_csv_file (stem : str) :
  (forall c, In c stem -> c <> "/"%char) ->
  ((exists c, In c stem /\ c <> "."%char) ->
   table_name (stem ++ lit ".csv")
   = replace_char "-" "_" (replace_char " " "_" (lower stem)))
  /\ ((forall c, In c stem -> c = "."%char) ->
      table_name (stem ++ lit ".csv") = stem ++ lit ".csv").
Proof.
  intros Hslash. unfold table_name. rewrite (splitext_csv stem Hslash). split.
  - intros [c [Hin Hc]].
    assert (existsb (fun c => negb (ascii_eqb c ".")) stem = true) as ->.
    { apply existsb_exists. exists c. split; [exact Hin|].
      apply negb_true_iff, ascii_eqb_neq. exact Hc. }
    reflexivity.
  - intros Hdots.
    assert (existsb (fun c => negb (ascii_eqb c ".")) stem = false) as ->.
    { destruct (existsb _ stem) eqn:E; [|reflexivity].
      apply existsb_exists in E. destruct E as [c [Hin Hc]].
      rewrite (Hdots c Hin) in Hc. discriminate Hc. }
    cbn [fst]. unfold replace_char, lower. rewrite !map_map.
    rewrite <- (map_id (stem ++ lit ".csv")) at 2.
    apply map_ext_in. intros c Hc. apply in_app_or in Hc.
    destruct Hc as [Hc|Hc].
    + rewrite (Hdots c Hc). reflexivity.
    + cbn in Hc. intuition (subst; reflexivity).
Qed.

Lemma table_name_of_csv_file_witness :
  table_name (lit "Product-Level Ad Sales and Metrics (mapped)" ++ lit ".csv")
  = lit "product_level_ad_sales_and_metrics_(mapped)".
Proof.
  refine (proj1 (table_name_of_csv_file
                   (lit "Product-Level Ad Sales and Metrics (mapped)") _) _).
  - intros c Hc. cbn in Hc. intuition (subst; discriminate).
  - exists "P"%char. split; [left; reflexivity | discriminate].
Defined.

(** ** Loading the database *)

Import Database.

Lemma create_all_run (w : world) :
  create_all w
  = (ok tt,
     {| tables := create_table (lit "sales_metrics", sales_metrics_columns)
                    (create_table (lit "product_eligibility", product_eligibility_columns)
                       (create_table (lit "ad_metrics", ad_metrics_columns) (tables w)));
        printed := printed w |}).
Proof. reflexivity. Qed.

Lemma create_table_lookup (t : str * list (str * sqltype)) (ts : gmap str table)
    (name : str) :
  create_table t ts !! name
  = if decide (fst t = name) then Some (created_table (snd t) (ts !! name))
    else ts !! name.
Proof.
  unfold create_table, created_table. destruct (decide (fst t = name)) as [<-|Hne].
  - destruct (ts !! fst t) eqn:E; [exact E | apply lookup_insert_eq].
  - destruct (ts !! fst t); [reflexivity | apply lookup_insert_ne; exact Hne].
Qed.

(** The tables after [create_all], name by name. *)
Lemma created_lookup (ts : gmap str table) (name : str) :
  create_table (lit "sales_metrics", sales_metrics_columns)
    (create_table (lit "product_eligibility", product_eligibility_columns)
       (create_table (lit "ad_metrics", ad_metrics_columns) ts)) !! name
  = if decide (name = lit "ad_metrics")
    then Some (created_table ad_metrics_columns (ts !! name))
    else if decide (name = lit "product_eligibility")
    then Some (created_table product_eligibility_columns (ts !! name))
    else if decide (name = lit "sales_metrics")
    then Some (created_table sales_metrics_columns (ts !! name))
    else ts !! name.
Proof.
  rewrite !create_table_lookup. cbn [fst snd].
  destruct (decide (name = lit "ad_metrics")) as [->|H1].
  { rewrite decide_False by discriminate. rewrite decide_False by discriminate.
    rewrite decide_True by reflexivity. reflexivity. }
  destruct (decide (name = lit "product_eligibility")) as [->|H2].
  { rewrite decide_False by discriminate. rewrite decide_True by reflexivity.
    rewrite decide_False by discriminate. reflexivity. }
  destruct (decide (name = lit "sales_metrics")) as [->|H3].
  { rewrite decide_True by reflexivity. rewrite decide_False by discriminate.
    rewrite decide_False by discriminate. reflexivity. }
  rewrite decide_False by congruence. rewrite decide_False by congruence.
  rewrite decide_False by congruence. reflexivity.
Qed.

Section Loading.

Variable read_csv : str -> result DataFrame.
Variable here : str.

(** The run of [setup_database], by the outcome of the three reads. *)
Lemma setup_database_run (w : world) :
  let created :=
    create_table (lit "sales_metrics", sales_metrics_columns)
      (create_table (lit "product_eligibility", product_eligibility_columns)
         (create_table (lit "ad_metrics", ad_metrics_columns) (tables w))) in
  let failed e ts :=
    (raise e : result str,
     {| tables := ts;
        printed := printed w ++ [lit "Error loading data: " ++ exn_str e] |}) in
  setup_database read_csv here w
  = match read_csv (csv_path here ad_metrics_csv) with
    | raise e => failed e created
    | ok d1 =>
      match read_csv (csv_path here eligibility_csv) with
      | raise e => failed e (<[lit "ad_metrics" := Loaded d1]> created)
      | ok d2 =>
        match read_csv (csv_path here sales_metrics_csv) with
        | raise e =>
          failed e (<[lit "product_eligibility" := Loaded d2]>
                      (<[lit "ad_metrics" := Loaded d1]> created))
        | ok d3 =>
          (ok (lit "sqlite:///" ++ path_join here (lit "ecommerce.db")),
           {| tables := <[lit "sales_metrics" := Loaded d3]>
                          (<[lit "product_eligibility" := Loaded d2]>
                             (<[lit "ad_metrics" := Loaded d1]> created));
              printed := printed w |})
        end
      end
    end.
Proof.
  unfold setup_database, csv_path, mbind, D_bind, mret, D_ret, d_try_except,
    d_call, d_throw, d_print, to_sql.
  rewrite create_all_run. cbn [tables printed].
  destruct (read_csv _) as [d1|e]; [|reflexivity]. cbn [tables printed].
  destruct (read_csv _) as [d2|e]; [|reflexivity]. cbn [tables printed].
  destruct (read_csv _) as [d3|e]; reflexivity.
Qed.


Lemma created_other (ts : gmap str table) (name : str) :
  name <> lit "ad_metrics" -> name <> lit "product_eligibility" ->
  name <> lit "sales_metrics" ->
  create_table (lit "sales_metrics", sales_metrics_columns)
    (create_table (lit "product_eligibility", product_eligibility_columns)
       (create_table (lit "ad_metrics", ad_metrics_columns) ts)) !! name
  = ts !! name.
Proof.
  intros N1 N2 N3. rewrite created_lookup.
  rewrite decide_False by exact N1. rewrite decide_False by exact N2.
  rewrite decide_False by exact N3. reflexivity.
Qed.

(** X17: a load that fails is not undone.  When reading one of the three
    CSV files raises, [setup_database] prints one line with the error and
    raises the same exception again.  The tables of the files read before
    it hold the frames of their own files; the table of the file that
    failed and the tables after it are as [create_all] left them - what
    the SQLite file held before the call, or the empty declared table - so
    [sales_metrics], the last to be loaded, is never a fresh one; no other
    table has changed. *)
Theorem setup_database_failure (w : world) (e : exn) :
  (read_csv (csv_path here ad_metrics_csv) = raise e ->
   exists w',
     setup_database read_csv here w = (raise e, w')
     /\ half_loaded w w' e None None)
  /\ (forall d1,
        read_csv (csv_path here ad_metrics_csv) = ok d1 ->
        read_csv (csv_path here eligibility_csv) = raise e ->
        exists w',
          setup_database read_csv here w = (raise e, w')
          /\ half_loaded w w' e (Some d1) None)
  /\ (forall d1 d2,
        read_csv (csv_path here ad_metrics_csv) = ok d1 ->
        read_csv (csv_path here eligibility_csv) = ok d2 ->
        read_csv (csv_path here sales_metrics_csv) = raise e ->
        exists w',
          setup_database read_csv here w = (raise e, w')
          /\ half_loaded w w' e (Some d1) (Some d2)).
Proof.
  rewrite setup_database_run. cbv zeta. split; [|split].
  - intros ->. eexists. split; [reflexivity|]. unfold half_loaded. cbn [tables printed].
    split; [reflexivity|].
    split; [rewrite created_lookup; reflexivity|].
    split; [rewrite created_lookup; reflexivity|].
    split; [rewrite created_lookup; reflexivity|].
    intros name N1 N2 N3. exact (created_other _ name N1 N2 N3).
  - intros d1 -> ->. eexists. split; [reflexivity|]. unfold half_loaded.
    cbn [tables printed].
    split; [reflexivity|].
    split; [apply lookup_insert_eq|].
    split; [rewrite lookup_insert_ne by discriminate; rewrite created_lookup;
            reflexivity|].
    split; [rewrite lookup_insert_ne by discriminate; rewrite created_lookup;
            reflexivity|].
    intros name N1 N2 N3.
    rewrite lookup_insert_ne by (intros Heq; apply N1; symmetry; exact Heq).
    exact (created_other _ name N1 N2 N3).
  - intros d1 d2 -> -> ->. eexists. split; [reflexivity|]. unfold half_loaded.
    cbn [tables printed].
    split; [reflexivity|].
    split; [rewrite lookup_insert_ne by discriminate; apply lookup_insert_eq|].
    split; [apply lookup_insert_eq|].
    split; [rewrite !lookup_insert_ne by discriminate; rewrite created_lookup;
            reflexivity|].
    intros name N1 N2 N3.
    rewrite lookup_insert_ne by (intros Heq; apply N2; symmetry; exact Heq).
    rewrite lookup_insert_ne by (intros Heq; apply N1; symmetry; exact Heq).
    exact (created_other _ name N1 N2 N3).
Qed.

(** X18: loading is repeatable.  When the three CSV files can be read,
    running [setup_database] again on the file it produced leaves every
    table as it is. *)
Theorem setup_database_twice (w : world) (d1 d2 d3 : DataFrame) :
  read_csv (csv_path here ad_metrics_csv) = ok d1 ->
  read_csv (csv_path here eligibility_csv) = ok d2 ->
  read_csv (csv_path here sales_metrics_csv) = ok d3 ->
  tables (snd (setup_database read_csv here (snd (setup_database read_csv here w))))
  = tables (snd (setup_database read_csv here w)).
Proof.
  intros H1 H2 H3.
  rewrite (setup_database_run (snd (setup_database read_csv here w))). cbv zeta.
  rewrite H1, H2, H3. cbn [snd tables].
  rewrite (setup_database_run w). cbv zeta. rewrite H1, H2, H3. cbn [snd tables].
  set (c := create_table _ (create_table _ (create_table _ (tables w)))).
  set (t := <[lit "sales_metrics" := Loaded d3]>
              (<[lit "product_eligibility" := Loaded d2]>
                 (<[lit "ad_metrics" := Loaded d1]> c))).
  apply map_eq. intros name.
  assert (t !! lit "ad_metrics" = Some (Loaded d1)) as Ta.
  { unfold t. rewrite !lookup_insert_ne by discriminate. apply lookup_insert_eq. }
  assert (t !! lit "product_eligibility" = Some (Loaded d2)) as Te.
  { unfold t. rewrite lookup_insert_ne by discriminate. apply lookup_insert_eq. }
  assert (t !! lit "sales_metrics" = Some (Loaded d3)) as Ts.
  { unfold t. apply lookup_insert_eq. }
  destruct (decide (name = lit "sales_metrics")) as [->|N3].
  { rewrite lookup_insert_eq, Ts. reflexivity. }
  rewrite lookup_insert_ne by congruence.
  destruct (decide (name = lit "product_eligibility")) as [->|N2].
  { rewrite lookup_insert_eq, Te. reflexivity. }
  rewrite lookup_insert_ne by congruence.
  destruct (decide (name = lit "ad_metrics")) as [->|N1].
  { rewrite lookup_insert_eq, Ta. reflexivity. }
  rewrite lookup_insert_ne by congruence.
  rewrite created_lookup.
  rewrite decide_False by exact N1. rewrite decide_False by exact N2.
  rewrite decide_False by exact N3. reflexivity.
Qed.

End Loading.


Lemma setup_database_failure_witness :
  exists w',
    setup_database
      (csv_files (ok Fake.ad_table) (raise (OtherError (lit "FileNotFoundError")))
                 (ok trend_table))
      (lit "/srv/agent") empty_world
    = (raise (OtherError (lit "FileNotFoundError")), w')
    /\ half_loaded empty_world w' (OtherError (lit "FileNotFoundError"))
         (Some Fake.ad_table) None.
Proof.
  apply (proj1 (proj2
           (setup_database_failure
              (csv_files (ok Fake.ad_table)
                         (raise (OtherError (lit "FileNotFoundError")))
                         (ok trend_table))
              (lit "/srv/agent") empty_world (OtherError (lit "FileNotFoundError"))))
           Fake.ad_table).
  - vm_compute. reflexivity.
  - vm_compute. reflexivity.
Defined.

Lemma setup_database_twice_witness :
  tables (snd (setup_database
                 (csv_files (ok Fake.ad_table) (ok Fake.plain_table) (ok trend_table))
                 (lit "/srv/agent")
                 (snd (setup_database
                         (csv_files (ok Fake.ad_table) (ok Fake.plain_table)
                                    (ok trend_table))
                         (lit "/srv/agent") empty_world))))
  = tables (snd (setup_database
                   (csv_files (ok Fake.ad_table) (ok Fake.plain_table) (ok trend_table))
                   (lit "/srv/agent") empty_world)).
Proof.
  apply (setup_database_twice
           (csv_files (ok Fake.ad_table) (ok Fake.plain_table) (ok trend_table))
           (lit "/srv/agent") empty_world Fake.ad_table Fake.plain_table trend_table);
    vm_compute; reflexivity.
Defined.

(** ** The Flask prototype *)

Lemma flask_bind_ok {A B} (m : FlaskApp.F A) (k : A -> FlaskApp.F B)
    (tr tr' : list FlaskApp.event) (a : A) :
  m tr = (ok a, tr') -> (m ≫= k) tr = k a tr'.
Proof. intros H. unfold mbind, FlaskApp.F_bind. rewrite H. reflexivity. Qed.

Lemma flask_bind_raise {A B} (m : FlaskApp.F A) (k : A -> FlaskApp.F B)
    (tr tr' : list FlaskApp.event) (e : exn) :
  m tr = (raise e, tr') -> (m ≫= k) tr = (raise e, tr').
Proof. intros H. unfold mbind, FlaskApp.F_bind. rewrite H. reflexivity. Qed.

Lemma flask_generate_run (env : FlaskApp.FlaskEnv) (question : str)
    (tr : list FlaskApp.event) :
  FlaskApp.generate_sql_query env question tr
  = (match FlaskApp.model_generate env (FlaskApp.sql_prompt (lower question)) with
     | raise e => raise e
     | ok text =>
       ok (if contains (lit "total sales") (lower question) then FlaskApp.total_sales_sql
           else if contains (lit "roas") (lower question) then FlaskApp.roas_sql
           else if contains (lit "highest cpc") (lower question)
                then FlaskApp.highest_cpc_sql
           else text)
     end,
     tr ++ [FlaskApp.EvModel (FlaskApp.sql_prompt (lower question))]).
Proof.
  unfold FlaskApp.generate_sql_query, mbind, FlaskApp.F_bind, FlaskApp.f_log,
    FlaskApp.f_call, mret, FlaskApp.F_ret.
  destruct (FlaskApp.model_generate env _); [|reflexivity].
  destruct (contains (lit "total sales") (lower question)); [reflexivity|].
  destruct (contains (lit "roas") (lower question)); [reflexivity|].
  destruct (contains (lit "highest cpc") (lower question)); reflexivity.
Qed.

(** X19: the prototype answers three kinds of question with canned SQL,
    whatever the model wrote: a question that mentions [total sales], in
    any case, gets the sum query; otherwise one that mentions [roas] gets
    the ratio query; otherwise one that mentions [highest cpc] gets the
    maximum query; only a question with none of the three gets the
    model's text.  The model is asked in every case, before the phrases are
    looked for, so that a failing model fails the canned questions too. *)
Theorem generate_sql_query_routing (env : FlaskApp.FlaskEnv) (question : str)
    (tr : list FlaskApp.event) :
  (forall e,
     FlaskApp.model_generate env (FlaskApp.sql_prompt (lower question)) = raise e ->
     FlaskApp.generate_sql_query env question tr
     = (raise e, tr ++ [FlaskApp.EvModel (FlaskApp.sql_prompt (lower question))]))
  /\ (forall text,
        FlaskApp.model_generate env (FlaskApp.sql_prompt (lower question)) = ok text ->
        exists sql,
          FlaskApp.generate_sql_query env question tr
          = (ok sql, tr ++ [FlaskApp.EvModel (FlaskApp.sql_prompt (lower question))])
          /\ (substring (lit "total sales") (lower question) ->
              sql = FlaskApp.total_sales_sql)
          /\ (~ substring (lit "total sales") (lower question) ->
              substring (lit "roas") (lower question) ->
              sql = FlaskApp.roas_sql)
          /\ (~ substring (lit "total sales") (lower question) ->
              ~ substring (lit "roas") (lower question) ->
              substring (lit "highest cpc") (lower question) ->
              sql = FlaskApp.highest_cpc_sql)
          /\ (~ substring (lit "total sales") (lower question) ->
              ~ substring (lit "roas") (lower question) ->
              ~ substring (lit "highest cpc") (lower question) ->
              sql = text)).
Proof.
  rewrite flask_generate_run. split.
  - intros e ->. reflexivity.
  - intros text ->. eexists. split; [reflexivity|].
    rewrite <- !contains_false, <- !contains_spec.
    destruct (contains (lit "total sales") (lower question));
      destruct (contains (lit "roas") (lower question));
      destruct (contains (lit "highest cpc") (lower question));
      repeat split; congruence.
Qed.

Lemma generate_sql_query_routing_witness :
  exists sql,
    FlaskApp.generate_sql_query (flask_fake (lit "DROP TABLE product_eligibility") ([], []))
      (lit "What are the Total Sales?") []
    = (ok sql, [] ++ [FlaskApp.EvModel
                        (FlaskApp.sql_prompt (lower (lit "What are the Total Sales?")))])
    /\ sql = FlaskApp.total_sales_sql.
Proof.
  destruct (proj2 (generate_sql_query_routing
                     (flask_fake (lit "DROP TABLE product_eligibility") ([], []))
                     (lit "What are the Total Sales?") [])
                  (lit "DROP TABLE product_eligibility") eq_refl)
    as [sql [Hrun [Htotal _]]].
  exists sql. split; [exact Hrun|].
  apply Htotal. apply contains_spec. vm_compute. reflexivity.
Defined.

Lemma flask_query_type_none (question : str) :
  ~ substring (lit "roas") (lower question) ->
  ~ substring (lit "highest cpc") (lower question) ->
  FlaskApp.query_type_of question = [].
Proof.
  rewrite <- !contains_false. unfold FlaskApp.query_type_of. intros -> ->. reflexivity.
Qed.

(** X20: the prototype does not validate.  For a question with none of
    the three phrases, the text the model wrote is what SQLite is given,
    whatever it is; no chart is made; an error of SQLite is not caught. *)
Theorem ask_question_runs_model_text (env : FlaskApp.FlaskEnv) (question text : str)
    (tr : list FlaskApp.event) :
  ~ substring (lit "total sales") (lower question) ->
  ~ substring (lit "roas") (lower question) ->
  ~ substring (lit "highest cpc") (lower question) ->
  FlaskApp.model_generate env (FlaskApp.sql_prompt (lower question)) = ok text ->
  FlaskApp.ask_question env (Some question) tr
  = (match FlaskApp.run_sql env text with
     | ok rc => ok (FlaskApp.stream_response (flask_answer env question rc) None)
     | raise e => raise e
     end,
     tr ++ [FlaskApp.EvModel (FlaskApp.sql_prompt (lower question));
            FlaskApp.EvSql text]).
Proof.
  intros Ht Hr Hc Hm. unfold FlaskApp.ask_question.
  rewrite (flask_query_type_none question Hr Hc).
  rewrite (flask_bind_ok _ _ tr
             (tr ++ [FlaskApp.EvModel (FlaskApp.sql_prompt (lower question))]) text).
  2:{ rewrite flask_generate_run, Hm.
      apply contains_false in Ht, Hr, Hc. rewrite Ht, Hr, Hc. reflexivity. }
  unfold FlaskApp.execute_query, mbind, FlaskApp.F_bind, FlaskApp.f_log,
    FlaskApp.f_call, mret, FlaskApp.F_ret.
  rewrite <- app_assoc. cbn [app].
  destruct (FlaskApp.run_sql env text) as [rc|e]; reflexivity.
Qed.

Lemma ask_question_runs_model_text_witness :
  FlaskApp.ask_question
    (flask_fake (lit "DROP TABLE product_eligibility") ([], []))
    (Some (lit "Remove every product")) []
  = (match FlaskApp.run_sql (flask_fake (lit "DROP TABLE product_eligibility") ([], []))
             (lit "DROP TABLE product_eligibility") with
     | ok rc =>
       ok (FlaskApp.stream_response
             (flask_answer (flask_fake (lit "DROP TABLE product_eligibility") ([], []))
                           (lit "Remove every product") rc) None)
     | raise e => raise e
     end,
     [] ++ [FlaskApp.EvModel (FlaskApp.sql_prompt (lower (lit "Remove every product")));
            FlaskApp.EvSql (lit "DROP TABLE product_eligibility")]).
Proof.
  apply (ask_question_runs_model_text
           (flask_fake (lit "DROP TABLE product_eligibility") ([], []))
           (lit "Remove every product") (lit "DROP TABLE product_eligibility") []).
  - apply contains_false. vm_compute. reflexivity.
  - apply contains_false. vm_compute. reflexivity.
  - apply contains_false. vm_compute. reflexivity.
  - reflexivity.
Defined.

(** X21: the two phrase tests of the prototype disagree.  A question that
    mentions both [total sales] and [roas] gets the sum query, whose
    result has no [product_id] column, and the ratio chart: the request
    ends in the [KeyError] of the column lookup, after the query has run,
    and no stream is returned. *)
Theorem ask_question_total_sales_roas (env : FlaskApp.FlaskEnv) (question text : str)
    (rc : list (list scalar) * list str) (tr : list FlaskApp.event) :
  substring (lit "total sales") (lower question) ->
  substring (lit "roas") (lower question) ->
  FlaskApp.model_generate env (FlaskApp.sql_prompt (lower question)) = ok text ->
  FlaskApp.run_sql env FlaskApp.total_sales_sql = ok rc ->
  FlaskApp.column_index (lit "product_id") (snd rc) = None ->
  FlaskApp.ask_question env (Some question) tr
  = (raise (OtherError (lit "'product_id'")),
     tr ++ [FlaskApp.EvModel (FlaskApp.sql_prompt (lower question));
            FlaskApp.EvSql FlaskApp.total_sales_sql]).
Proof.
  intros Ht Hr Hm Hrun Hcol. unfold FlaskApp.ask_question.
  apply contains_spec in Ht, Hr.
  assert (FlaskApp.query_type_of question = lit "roas") as ->.
  { unfold FlaskApp.query_type_of. rewrite Hr. reflexivity. }
  rewrite (flask_bind_ok _ _ tr
             (tr ++ [FlaskApp.EvModel (FlaskApp.sql_prompt (lower question))])
             FlaskApp.total_sales_sql).
  2:{ rewrite flask_generate_run, Hm, Ht. reflexivity. }
  rewrite (flask_bind_ok _ _ _ (tr ++ [FlaskApp.EvModel
                                         (FlaskApp.sql_prompt (lower question));
                                       FlaskApp.EvSql FlaskApp.total_sales_sql]) rc).
  2:{ unfold FlaskApp.execute_query, mbind, FlaskApp.F_bind, FlaskApp.f_log,
        FlaskApp.f_call. rewrite Hrun, <- app_assoc. reflexivity. }
  cbv zeta. change (lit "roas") with ("r"%char :: lit "oas").
  cbv iota beta.
  apply flask_bind_raise. apply flask_bind_raise.
  unfold FlaskApp.generate_visualization.
  change (str_eqb ("r"%char :: lit "oas") (lit "roas")) with true. cbv iota.
  apply flask_bind_raise. unfold FlaskApp.getitem. rewrite Hcol. reflexivity.
Qed.

Lemma ask_question_total_sales_roas_witness :
  FlaskApp.ask_question
    (flask_fake (lit "SELECT 1") ([[VReal (Finite 9000)]], [lit "total"]))
    (Some (lit "Compare total sales and ROAS")) []
  = (raise (OtherError (lit "'product_id'")),
     [] ++ [FlaskApp.EvModel
              (FlaskApp.sql_prompt (lower (lit "Compare total sales and ROAS")));
            FlaskApp.EvSql FlaskApp.total_sales_sql]).
Proof.
  apply (ask_question_total_sales_roas
           (flask_fake (lit "SELECT 1") ([[VReal (Finite 9000)]], [lit "total"]))
           (lit "Compare total sales and ROAS") (lit "SELECT 1")
           ([[VReal (Finite 9000)]], [lit "total"]) []).
  - apply contains_spec. vm_compute. reflexivity.
  - apply contains_spec. vm_compute. reflexivity.
  - reflexivity.
  - reflexivity.
  - reflexivity.
Defined.

(** ** The stream *)

Lemma text_of_text_chunk (c : ascii) :
  FlaskApp.text_of_chunk (FlaskApp.sse (lit "text") [c]) = Some c.
Proof. each_char c; vm_compute; reflexivity. Qed.

Lemma text_of_visualization_chunk (v : str) :
  FlaskApp.text_of_chunk (FlaskApp.sse (lit "visualization") v) = None.
Proof. reflexivity. Qed.

Lemma stream_text_length (answer : str) :
  length (flat_map (fun char =>
                      [FlaskApp.Yield (FlaskApp.sse (lit "text") [char]);
                       FlaskApp.Sleep]) answer)
  = 2 * length answer.
Proof.
  induction answer as [|c answer IH]; [reflexivity|].
  cbn [flat_map app length]. rewrite IH. lia.
Qed.

Lemma stream_text_nth (answer : str) (rest : list FlaskApp.step) (i : nat) (c : ascii) :
  nth_error answer i = Some c ->
  nth_error (flat_map (fun char =>
                         [FlaskApp.Yield (FlaskApp.sse (lit "text") [char]);
                          FlaskApp.Sleep]) answer ++ rest) (2 * i)
  = Some (FlaskApp.Yield (FlaskApp.sse (lit "text") [c]))
  /\ nth_error (flat_map (fun char =>
                            [FlaskApp.Yield (FlaskApp.sse (lit "text") [char]);
                             FlaskApp.Sleep]) answer ++ rest) (2 * i + 1)
     = Some FlaskApp.Sleep.
Proof.
  revert i. induction answer as [|x answer IH]; intros i H.
  - destruct i; discriminate H.
  - destruct i as [|i].
    + injection H as ->. split; reflexivity.
    + replace (2 * S i) with (S (S (2 * i))) by lia.
      replace (S (S (2 * i)) + 1) with (S (S (2 * i + 1))) by lia.
      cbn [flat_map app nth_error]. exact (IH i H).
Qed.

(** X22: the shape of the stream, and that it can be read back.  For an
    answer of characters below code point 256, [stream_response] yields
    the text event of the first character, sleeps, yields the text event
    of the second, sleeps, and so on to the last character and the sleep
    after it; what follows is one event with the visualization when there
    is a non-empty one, and nothing otherwise.  A client that takes the
    text events out of their frame and undoes the JSON escape gets the
    answer back. *)
Theorem stream_response_round_trip (answer : str) (visualization : option str) :
  FlaskApp.texts_of (FlaskApp.stream_response answer visualization) = answer
  /\ length (FlaskApp.stream_response answer visualization)
     = 2 * length answer
       + match visualization with
         | Some (_ :: _) => 1
         | _ => 0
         end
  /\ (forall i c,
        nth_error answer i = Some c ->
        nth_error (FlaskApp.stream_response answer visualization) (2 * i)
        = Some (FlaskApp.Yield (FlaskApp.sse (lit "text") [c]))
        /\ nth_error (FlaskApp.stream_response answer visualization) (2 * i + 1)
           = Some FlaskApp.Sleep)
  /\ skipn (2 * length answer) (FlaskApp.stream_response answer visualization)
     = match visualization with
       | Some (c :: v) => [FlaskApp.Yield (FlaskApp.sse (lit "visualization") (c :: v))]
       | _ => []
       end.
Proof.
  unfold FlaskApp.stream_response, FlaskApp.texts_of. split; [|split; [|split]].
  - rewrite flat_map_app.
    assert (flat_map
              (fun s => match s with
                        | FlaskApp.Yield chunk =>
                          match FlaskApp.text_of_chunk chunk with
                          | Some c => [c]
                          | None => []
                          end
                        | FlaskApp.Sleep => []
                        end)
              match visualization with
              | Some (c :: v) => [FlaskApp.Yield (FlaskApp.sse (lit "visualization") (c :: v))]
              | _ => []
              end = []) as ->.
    { destruct visualization as [[|c v]|]; [reflexivity| |reflexivity].
      cbn [flat_map]. rewrite text_of_visualization_chunk. reflexivity. }
    rewrite app_nil_r. induction answer as [|c answer IH]; [reflexivity|].
    cbn [flat_map app]. rewrite text_of_text_chunk. cbn [app]. f_equal. exact IH.
  - rewrite length_app, stream_text_length.
    destruct visualization as [[|c v]|]; reflexivity.
  - intros i c H. exact (stream_text_nth answer _ i c H).
  - rewrite skipn_app, stream_text_length, Nat.sub_diag.
    rewrite skipn_all2 by (rewrite stream_text_length; lia).
    reflexivity.
Qed.
